(** * pdt-extractor: the persistence and serving layer

    A shallow embedding of [server/storage.ts], [server/routes.ts] and the
    error middleware of [server/index.ts], together with the properties the
    specification states about them.

    - [Js]        the JavaScript built-ins the handlers use
                  ([parseInt], template-literal number rendering,
                  [String.prototype.replace] with a string pattern, [||]).
    - schema      one module per row/record type of [@shared/schema].
    - [Database]  the two relational tables behind the drizzle handle [db].
    - [Async]     promises with [await] / [try]-[catch]: a state monad over the
                  world in which a thrown value leaves the world as it was when
                  the throw happened.
    - storage     [IStorage], [DatabaseStorage] and the exported [storage]:
                  the document and table methods.
    - routes      the multer configuration, the upload-and-extract handler
                  and the two Excel download handlers, with the check
                  [res.setHeader] makes on a header value ([Http]).

    Numbers are exact integers ([Z]); JavaScript numbers agree with them up
    to 2^53, far beyond any serial identifier or the 10 MB upload limit.
    A [string] is a sequence of code units below 256 (Latin-1); text with
    code units beyond that range is not covered. *)

From Stdlib Require Import ZArith List String Ascii Bool Lia.
From Stdlib Require Import DecimalString Sorted Permutation QArith.
From Stdlib Require Import DecimalPos.
Import ListNotations.

#[local] Open Scope string_scope.
#[local] Open Scope list_scope.
#[local] Open Scope Z_scope.

(* ===================================================================== *)
(** * JavaScript built-ins *)
(* ===================================================================== *)

Module Js.

(** A thrown value: an instance of [Error] carrying its [message], or
    anything else. *)
Inductive Thrown : Type :=
| ErrorObj (message : string)
| NonError.

(** [new Error(message)] *)
Definition Error (message : string) : Thrown := ErrorObj message.

(** [error instanceof Error ? error.message : fallback] *)
Definition message_or (fallback : string) (error : Thrown) : string :=
  match error with
  | ErrorObj m => m
  | NonError => fallback
  end.

(** [err.message || fallback]: an absent or empty message is falsy. *)
Definition message_or_falsy (fallback : string) (err : Thrown) : string :=
  match err with
  | ErrorObj EmptyString => fallback
  | ErrorObj m => m
  | NonError => fallback
  end.

(** [x || null] on an optional number: [undefined], [null] and [0] are
    falsy. *)
Definition or_null (x : option Z) : option Z :=
  match x with
  | Some 0 => None
  | Some n => Some n
  | None => None
  end.

(** White space and line terminators skipped by [parseInt], within the
    Latin-1 code units a [string] holds. *)
Definition is_white_space (c : ascii) : bool :=
  let n := nat_of_ascii c in
  (Nat.leb 9 n && Nat.leb n 13) || Nat.eqb n 32 || Nat.eqb n 160.

Fixpoint trim_start (s : string) : string :=
  match s with
  | String c rest => if is_white_space c then trim_start rest else s
  | EmptyString => s
  end.

(** Value of a character as a digit, for radixes up to 16. *)
Definition digit_value (c : ascii) : option Z :=
  let n := Z.of_nat (nat_of_ascii c) in
  if (48 <=? n) && (n <=? 57) then Some (n - 48)
  else if (97 <=? n) && (n <=? 102) then Some (n - 87)
  else if (65 <=? n) && (n <=? 70) then Some (n - 55)
  else None.

(** Reads the longest prefix of digits valid in [radix]; [acc] is [None]
    until a first digit has been read. *)
Fixpoint read_digits (radix : Z) (acc : option Z) (s : string) : option Z :=
  match s with
  | EmptyString => acc
  | String c rest =>
      match digit_value c with
      | Some d =>
          if d <? radix
          then read_digits radix
                 (Some (match acc with Some a => a * radix + d | None => d end))
                 rest
          else acc
      | None => acc
      end
  end.

(** [parseInt(s)] with no radix argument.  [None] is [NaN], the one
    result for which [isNaN] holds. *)
Definition parseInt (s : string) : option Z :=
  let s1 := trim_start s in
  let '(sign, s2) :=
    match s1 with
    | String "-" rest => (-1, rest)
    | String "+" rest => (1, rest)
    | _ => (1, s1)
    end in
  let '(radix, s3) :=
    match s2 with
    | String "0" (String "x" rest) => (16, rest)
    | String "0" (String "X" rest) => (16, rest)
    | _ => (10, s2)
    end in
  match read_digits radix None s3 with
  | Some n => Some (sign * n)
  | None => None
  end.

(** [`${n}`] for an integer [n]. *)
Definition number_to_string (n : Z) : string :=
  NilZero.string_of_int (Z.to_int n).

(** [s.replace(pattern, replacement)] with a string pattern: only the
    first occurrence is replaced. *)
Fixpoint replace (pattern replacement s : string) : string :=
  if String.prefix pattern s
  then String.append replacement
         (String.substring (String.length pattern)
            (String.length s - String.length pattern) s)
  else match s with
       | EmptyString => s
       | String c rest => String c (replace pattern replacement rest)
       end.

End Js.

(* ===================================================================== *)
(** * Schema *)
(* ===================================================================== *)

Definition Buffer : Type := list Byte.byte.

(** Rendering of an instant, as [Date.prototype.toISOString] gives it. *)
Definition Timestamp : Type := string.

(** Modelled from the spec: [@shared/schema] is not part of the sources at
    hand.  TableData is an ordered sequence of rows, each an ordered
    sequence of cell strings. *)
Definition TableData : Type := list (list string).

(** Modelled from the spec: [@shared/schema] is not part of the sources at
    hand.  TableInfo carries the page number (read by the extract handler
    as [table.info.pageNumber]), the table index, the dimensions, the
    bounding box and the confidence score. *)
Module TableInfo.
Record t : Type := mk {
  pageNumber : Z;
  tableIndex : Z;
  rowCount : Z;
  columnCount : Z;
  boundingBox : Q * Q * Q * Q;
  confidence : Q
}.
End TableInfo.

(** [ExtractedTableData]: what [extractTablesFromPdf] yields and what
    [getExtractedTablesByDocumentId] returns. *)
Module ExtractedTableData.
Record t : Type := mk {
  tableIndex : Z;
  data : TableData;
  info : TableInfo.t
}.
End ExtractedTableData.

(** A row of [pdfDocuments]. *)
Module PdfDocument.
Record t : Type := mk {
  id : Z;
  filename : string;
  filesize : Z;
  uploadDate : Timestamp;
  userId : option Z
}.
End PdfDocument.

(** The fields [createPdfDocument] reads from its argument. *)
Module InsertPdfDocument.
Record t : Type := mk {
  filename : string;
  filesize : Z;
  userId : option Z
}.
End InsertPdfDocument.

(** The object literal the extract handler validates. *)
Module DocumentData.
Record t : Type := mk {
  filename : string;
  filesize : Z;
  uploadDate : Timestamp
}.
End DocumentData.

(** A row of [extractedTables]. *)
Module ExtractedTable.
Record t : Type := mk {
  id : Z;
  documentId : Z;
  tableIndex : Z;
  pageNumber : Z;
  tableData : TableData;
  tableInfo : TableInfo.t
}.
End ExtractedTable.

(** The values the extract handler passes to [createExtractedTable]. *)
Module InsertExtractedTable.
Record t : Type := mk {
  documentId : Z;
  tableIndex : Z;
  pageNumber : Z;
  tableData : TableData;
  tableInfo : TableInfo.t
}.
End InsertExtractedTable.

(* ===================================================================== *)
(** * The database behind [db] *)
(* ===================================================================== *)

Module Database.

(** Two tables, each with the sequence feeding its serial primary key.
    Rows are kept in insertion order. *)
Record t : Type := mk {
  pdfDocuments : list PdfDocument.t;
  pdfDocuments_id_seq : Z;
  extractedTables : list ExtractedTable.t;
  extractedTables_id_seq : Z
}.

Definition empty : t := mk [] 0 [] 0.

(** [db.insert(pdfDocuments).values({filename, filesize, userId}).returning()]:
    the key comes from the sequence and the upload date from the column
    default, the time of insertion. *)
Definition insert_pdfDocument (now : Timestamp) (filename : string)
    (filesize : Z) (userId : option Z) (d : t) : PdfDocument.t * t :=
  let row := PdfDocument.mk (pdfDocuments_id_seq d + 1) filename filesize
               now userId in
  (row, mk (pdfDocuments d ++ [row]) (pdfDocuments_id_seq d + 1)
           (extractedTables d) (extractedTables_id_seq d)).

(** [db.insert(extractedTables).values(table).returning()] *)
Definition insert_extractedTable (v : InsertExtractedTable.t) (d : t)
    : ExtractedTable.t * t :=
  let row := ExtractedTable.mk (extractedTables_id_seq d + 1)
               (InsertExtractedTable.documentId v)
               (InsertExtractedTable.tableIndex v)
               (InsertExtractedTable.pageNumber v)
               (InsertExtractedTable.tableData v)
               (InsertExtractedTable.tableInfo v) in
  (row, mk (pdfDocuments d) (pdfDocuments_id_seq d)
           (extractedTables d ++ [row]) (extractedTables_id_seq d + 1)).

(** [.where(eq(column, value))] *)
Definition where_eq {R : Type} (column : R -> Z) (value : Z)
    (rows : list R) : list R :=
  filter (fun r => column r =? value) rows.

(** [.orderBy(column)]: ascending; rows with equal keys keep their
    relative order. *)
Fixpoint order_insert {R : Type} (column : R -> Z) (r : R) (sorted : list R)
    : list R :=
  match sorted with
  | [] => [r]
  | r' :: rest =>
      if column r <=? column r'
      then r :: sorted
      else r' :: order_insert column r rest
  end.

Definition orderBy {R : Type} (column : R -> Z) (rows : list R) : list R :=
  fold_right (order_insert column) [] rows.

(** The primary keys of [extractedTables] are distinct and were all
    drawn from the sequence. *)
Definition keys_ok (d : t) : Prop :=
  NoDup (map ExtractedTable.id (extractedTables d)) /\
  Forall (fun r => ExtractedTable.id r <= extractedTables_id_seq d)
         (extractedTables d).

End Database.

(* ===================================================================== *)
(** * Promises, [await] and [try]/[catch] *)
(* ===================================================================== *)

(** Bodies passed to [res.json]. *)
Inductive JsonBody : Type :=
| ErrorBody (error : string)
    (** [{ error }] *)
| ErrorEnvelope (message : string) (withStack : bool)
    (** [{ error: { message, stack? } }], as the error middleware writes it *)
| ExtractBody (documentId : Z) (filename : string) (filesize : Z)
    (uploadDate : Timestamp) (tables : list ExtractedTableData.t).
    (** [{ documentId, filename, filesize, uploadDate, tables }] *)

(** What a request handler does that others can observe, in order. *)
Inductive Event : Type :=
| CallExtractTablesFromPdf (pdfBuffer : Buffer)
| CallGenerateExcelFile (tableData : TableData)
| CallGenerateConsolidatedExcel (tables : list TableData)
| SetHeader (name value : string)
| Status (code : Z)
| Json (body : JsonBody)
| Send (body : Buffer).

Module World.
(** The database, the outcomes the driver will give to the coming
    statements ([Some e]: the statement is rejected with [e] and changes
    nothing; [None], or none left: it runs), the wall clock, and the events
    so far, oldest first. *)
Record t : Type := mk {
  db : Database.t;
  faults : list (option Js.Thrown);
  clock : Timestamp;
  trace : list Event
}.
End World.

Module Async.

Inductive Outcome (A : Type) : Type :=
| Returned (a : A)
| Threw (e : Js.Thrown).
Arguments Returned {A} a.
Arguments Threw {A} e.

Definition t (A : Type) : Type := World.t -> Outcome A * World.t.

Definition ret {A : Type} (a : A) : t A := fun w => (Returned a, w).

Definition throw {A : Type} (e : Js.Thrown) : t A := fun w => (Threw e, w).

Definition bind {A B : Type} (m : t A) (k : A -> t B) : t B := fun w =>
  match m w with
  | (Returned a, w') => k a w'
  | (Threw e, w') => (Threw e, w')
  end.

(** [try { body } catch (error) { handler }] *)
Definition try_catch {A : Type} (body : t A) (handler : Js.Thrown -> t A)
    : t A := fun w =>
  match body w with
  | (Returned a, w') => (Returned a, w')
  | (Threw e, w') => handler e w'
  end.

(** Result of a call that either throws or returns. *)
Definition lift {A : Type} (r : Js.Thrown + A) : t A :=
  match r with
  | inl e => throw e
  | inr a => ret a
  end.

(** [for (const x of xs) { await body(x) }] *)
Fixpoint for_of {A : Type} (xs : list A) (body : A -> t unit) : t unit :=
  match xs with
  | [] => ret tt
  | x :: rest => bind (body x) (fun _ => for_of rest body)
  end.

(** Appends an event to the trace. *)
Definition emit (e : Event) : t unit := fun w =>
  (Returned tt,
   World.mk (World.db w) (World.faults w) (World.clock w)
            (World.trace w ++ [e])).

(** [new Date().toISOString()] *)
Definition now : t Timestamp := fun w => (Returned (World.clock w), w).

(** One statement sent through the driver. *)
Definition execute {A : Type} (stmt : Timestamp -> Database.t -> A * Database.t)
    : t A := fun w =>
  match World.faults w with
  | Some e :: rest =>
      (Threw e, World.mk (World.db w) rest (World.clock w) (World.trace w))
  | None :: rest =>
      let (a, d) := stmt (World.clock w) (World.db w) in
      (Returned a, World.mk d rest (World.clock w) (World.trace w))
  | [] =>
      let (a, d) := stmt (World.clock w) (World.db w) in
      (Returned a, World.mk d [] (World.clock w) (World.trace w))
  end.

End Async.

Declare Scope async_scope.
Delimit Scope async_scope with async.
Notation "x <- c1 ;; c2" := (Async.bind c1 (fun x => c2))
  (at level 61, c1 at next level, right associativity) : async_scope.
Notation "c1 ;; c2" := (Async.bind c1 (fun _ => c2))
  (at level 61, right associativity) : async_scope.
#[local] Open Scope async_scope.

(* ===================================================================== *)
(** * storage.ts *)
(* ===================================================================== *)

(** The document and table methods of [interface IStorage]. *)
Module IStorage.
Record t : Type := mk {
  getPdfDocument : Z -> Async.t (option PdfDocument.t);
  createPdfDocument : InsertPdfDocument.t -> Async.t PdfDocument.t;
  getExtractedTable : Z -> Async.t (option ExtractedTable.t);
  getExtractedTablesByDocumentId : Z -> Async.t (list ExtractedTableData.t);
  createExtractedTable : InsertExtractedTable.t -> Async.t ExtractedTable.t
}.
End IStorage.

Module DatabaseStorage.

(** [const [document] = await db.select().from(pdfDocuments)
      .where(eq(pdfDocuments.id, id)); return document;] *)
Definition getPdfDocument (id : Z) : Async.t (option PdfDocument.t) :=
  Async.execute (fun _ d =>
    (hd_error (Database.where_eq PdfDocument.id id (Database.pdfDocuments d)),
     d)).

Definition createPdfDocument (document : InsertPdfDocument.t)
    : Async.t PdfDocument.t :=
  Async.execute (fun now d =>
    Database.insert_pdfDocument now
      (InsertPdfDocument.filename document)
      (InsertPdfDocument.filesize document)
      (Js.or_null (InsertPdfDocument.userId document))
      d).

Definition getExtractedTable (id : Z) : Async.t (option ExtractedTable.t) :=
  Async.execute (fun _ d =>
    (hd_error
       (Database.where_eq ExtractedTable.id id (Database.extractedTables d)),
     d)).

(** The rows of one document in ascending [tableIndex] order, each
    converted to [ExtractedTableData]. *)
Definition toExtractedTableData (table : ExtractedTable.t)
    : ExtractedTableData.t :=
  ExtractedTableData.mk (ExtractedTable.tableIndex table)
                        (ExtractedTable.tableData table)
                        (ExtractedTable.tableInfo table).

Definition selectByDocumentId (documentId : Z) (d : Database.t)
    : list ExtractedTable.t :=
  Database.orderBy ExtractedTable.tableIndex
    (Database.where_eq ExtractedTable.documentId documentId
       (Database.extractedTables d)).

Definition getExtractedTablesByDocumentId (documentId : Z)
    : Async.t (list ExtractedTableData.t) :=
  tables <- Async.execute (fun _ d => (selectByDocumentId documentId d, d)) ;;
  Async.ret (map toExtractedTableData tables).

Definition createExtractedTable (table : InsertExtractedTable.t)
    : Async.t ExtractedTable.t :=
  Async.execute (fun _ d => Database.insert_extractedTable table d).

(** [new DatabaseStorage()] *)
Definition new : IStorage.t :=
  IStorage.mk getPdfDocument createPdfDocument getExtractedTable
              getExtractedTablesByDocumentId createExtractedTable.

End DatabaseStorage.

(** [export const storage = new DatabaseStorage();] *)
Definition storage : IStorage.t := DatabaseStorage.new.

(* ===================================================================== *)
(** * routes.ts: the upload middleware *)
(* ===================================================================== *)

(** A file part of a multipart request body, as it arrives. *)
Module Part.
Record t : Type := mk {
  fieldname : string;
  filename : string;
  mimeType : string;
  content : Buffer
}.
End Part.

(** [Express.Multer.File] under [multer.memoryStorage()]. *)
Module MulterFile.
Record t : Type := mk {
  fieldname : string;
  originalname : string;
  mimetype : string;
  size : Z;
  buffer : Buffer
}.
End MulterFile.

Module Request.
Record t : Type := mk {
  file : option MulterFile.t;   (** [req.file] *)
  params_id : string            (** [req.params.id] *)
}.
End Request.

Module Upload.

(** [limits: { fileSize: 10 * 1024 * 1024 }] *)
Definition fileSize : Z := 10 * 1024 * 1024.

(** [fileFilter]: the outcome handed to [cb]. *)
Definition fileFilter (mimetype : string) : Js.Thrown + bool :=
  if String.eqb mimetype "application/pdf"
  then inr true
  else inl (Js.Error "Only PDF files are allowed").

(** What [multer.memoryStorage()] hands over once the whole part has been
    read into one buffer. *)
Definition memoryStorage (p : Part.t) : MulterFile.t :=
  MulterFile.mk (Part.fieldname p) (Part.filename p) (Part.mimeType p)
                (Z.of_nat (List.length (Part.content p))) (Part.content p).

(** multer's treatment of the file parts, in arrival order: a part with
    no file name is skipped; a part in another field, or one more than
    [filesLeft], is an unexpected file; then the file filter decides;
    then the part is read, and reading past the size limit is an error. *)
Fixpoint accept (field : string) (filesLeft : nat)
    (file : option MulterFile.t) (parts : list Part.t)
    : Js.Thrown + option MulterFile.t :=
  match parts with
  | [] => inr file
  | p :: rest =>
      if String.eqb (Part.filename p) "" then accept field filesLeft file rest
      else if negb (String.eqb (Part.fieldname p) field) then
        inl (Js.Error "Unexpected field")
      else match filesLeft with
           | O => inl (Js.Error "Unexpected field")
           | S remaining =>
               match fileFilter (Part.mimeType p) with
               | inl err => inl err
               | inr false => accept field remaining file rest
               | inr true =>
                   if fileSize <? Z.of_nat (List.length (Part.content p))
                   then inl (Js.Error "File too large")
                   else accept field remaining (Some (memoryStorage p)) rest
               end
           end
  end.

(** [upload.single(field)] *)
Definition single (field : string) (parts : list Part.t)
    : Js.Thrown + option MulterFile.t :=
  accept field 1 None parts.

End Upload.

(* ===================================================================== *)
(** * routes.ts: the handlers *)
(* ===================================================================== *)

Definition xlsx_content_type : string :=
  "application/vnd.openxmlformats-officedocument.spreadsheetml.sheet".

(** Node's [http] module, as far as [res.setHeader] needs it. *)
Module Http.

(** A header value may hold tabs, the printable ASCII characters and the
    code units 0x80 to 0xFF; [/[^\t\x20-\x7e\x80-\xff]/] matches anything
    else: the other control characters, a line feed among them, and DEL. *)
Definition invalid_header_char (c : ascii) : bool :=
  let n := Z.of_nat (nat_of_ascii c) in
  negb ((n =? 9) || ((32 <=? n) && (n <=? 126)) || (128 <=? n)).

(** [checkInvalidHeaderChar(value)]: some character of the value is
    invalid. *)
Fixpoint checkInvalidHeaderChar (value : string) : bool :=
  match value with
  | EmptyString => false
  | String c rest => invalid_header_char c || checkInvalidHeaderChar rest
  end.

(** The message of [ERR_INVALID_CHAR('header content', name)]. *)
Definition ERR_INVALID_CHAR (name : string) : Js.Thrown :=
  let quote := String (ascii_of_nat 34) EmptyString in
  Js.Error ("Invalid character in header content ["
            ++ quote ++ name ++ quote ++ "]")%string.

End Http.

(** [res.setHeader(name, value)]: the value is validated first, and a
    value holding an invalid character makes the call throw a [TypeError]
    without setting anything.  The header names the handlers use are
    constant tokens. *)
Definition setHeader (name value : string) : Async.t unit :=
  if Http.checkInvalidHeaderChar value
  then Async.throw (Http.ERR_INVALID_CHAR name)
  else Async.emit (SetHeader name value).

Section Routes.

(** The collaborators imported by [routes.ts] and [index.ts]. *)
Variable extractTablesFromPdf : Buffer -> Js.Thrown + list ExtractedTableData.t.
Variable generateExcelFile : TableData -> Js.Thrown + Buffer.
Variable generateConsolidatedExcel : list TableData -> Js.Thrown + Buffer.
Variable insertPdfDocumentSchema_parse :
  DocumentData.t -> Js.Thrown + InsertPdfDocument.t.
Variable NODE_ENV : option string.

(** [res.status(code).json(body)] *)
Definition respond (code : Z) (body : JsonBody) : Async.t unit :=
  Async.emit (Status code) ;; Async.emit (Json body).

Definition await_extractTablesFromPdf (pdfBuffer : Buffer)
    : Async.t (list ExtractedTableData.t) :=
  Async.emit (CallExtractTablesFromPdf pdfBuffer) ;;
  Async.lift (extractTablesFromPdf pdfBuffer).

Definition await_generateExcelFile (tableData : TableData) : Async.t Buffer :=
  Async.emit (CallGenerateExcelFile tableData) ;;
  Async.lift (generateExcelFile tableData).

Definition await_generateConsolidatedExcel (tables : list TableData)
    : Async.t Buffer :=
  Async.emit (CallGenerateConsolidatedExcel tables) ;;
  Async.lift (generateConsolidatedExcel tables).

(** The values saved for one extracted table of [savedDocument]. *)
Definition table_values (savedDocument : PdfDocument.t)
    (table : ExtractedTableData.t) : InsertExtractedTable.t :=
  InsertExtractedTable.mk
    (PdfDocument.id savedDocument)
    (ExtractedTableData.tableIndex table)
    (TableInfo.pageNumber (ExtractedTableData.info table))
    (ExtractedTableData.data table)
    (ExtractedTableData.info table).

(** The body of the loop over the extracted tables:
    [await storage.createExtractedTable({...})]. *)
Definition save_table (savedDocument : PdfDocument.t)
    (table : ExtractedTableData.t) : Async.t unit :=
  _ <- IStorage.createExtractedTable storage
         (table_values savedDocument table) ;;
  Async.ret tt.

(** [POST /api/extract], after the upload middleware. *)
Definition extract_handler (req : Request.t) : Async.t unit :=
  Async.try_catch
    (match Request.file req with
     | None => respond 400 (ErrorBody "No PDF file uploaded")
     | Some file =>
         let pdfBuffer := MulterFile.buffer file in
         tables <- await_extractTablesFromPdf pdfBuffer ;;
         uploadDate <- Async.now ;;
         let documentData :=
           DocumentData.mk (MulterFile.originalname file)
                           (MulterFile.size file) uploadDate in
         validatedDocumentData <-
           Async.lift (insertPdfDocumentSchema_parse documentData) ;;
         savedDocument <-
           IStorage.createPdfDocument storage validatedDocumentData ;;
         Async.for_of tables (save_table savedDocument) ;;
         respond 200
           (ExtractBody (PdfDocument.id savedDocument)
                        (PdfDocument.filename savedDocument)
                        (PdfDocument.filesize savedDocument)
                        (PdfDocument.uploadDate savedDocument)
                        tables)
     end)
    (fun error =>
       respond 500 (ErrorBody (Js.message_or "Unknown error" error))).

(** [GET /api/tables/:id/excel] *)
Definition table_excel_handler (req : Request.t) : Async.t unit :=
  Async.try_catch
    (match Js.parseInt (Request.params_id req) with
     | None => respond 400 (ErrorBody "Invalid table ID")
     | Some tableId =>
         table <- IStorage.getExtractedTable storage tableId ;;
         match table with
         | None => respond 404 (ErrorBody "Table not found")
         | Some table =>
             excelBuffer <-
               await_generateExcelFile (ExtractedTable.tableData table) ;;
             setHeader "Content-Type" xlsx_content_type ;;
             setHeader "Content-Disposition"
               ("attachment; filename=table-"
                ++ Js.number_to_string tableId ++ ".xlsx")%string ;;
             Async.emit (Status 200) ;;
             Async.emit (Send excelBuffer)
         end
     end)
    (fun _ => respond 500 (ErrorBody "Failed to generate Excel file")).

(** [GET /api/documents/:id/excel] *)
Definition document_excel_handler (req : Request.t) : Async.t unit :=
  Async.try_catch
    (match Js.parseInt (Request.params_id req) with
     | None => respond 400 (ErrorBody "Invalid document ID")
     | Some documentId =>
         document <- IStorage.getPdfDocument storage documentId ;;
         match document with
         | None => respond 404 (ErrorBody "Document not found")
         | Some document =>
             tables <-
               IStorage.getExtractedTablesByDocumentId storage documentId ;;
             if (Z.of_nat (List.length tables) =? 0)
             then respond 404 (ErrorBody "No tables found in document")
             else
               excelBuffer <-
                 await_generateConsolidatedExcel
                   (map ExtractedTableData.data tables) ;;
               setHeader "Content-Type" xlsx_content_type ;;
               setHeader "Content-Disposition"
                 ("attachment; filename="
                  ++ Js.replace ".pdf" "" (PdfDocument.filename document)
                  ++ "-tables.xlsx")%string ;;
               Async.emit (Status 200) ;;
               Async.emit (Send excelBuffer)
         end
     end)
    (fun _ => respond 500 (ErrorBody "Failed to generate Excel file")).

(** The error-handling middleware of [index.ts].  No thrown value that
    reaches it carries a [status], so [err.status || 500] is 500. *)
Definition errorHandler (err : Js.Thrown) : Async.t unit :=
  respond 500
    (ErrorEnvelope (Js.message_or_falsy "Internal Server Error" err)
       (match NODE_ENV with
        | Some env => String.eqb env "development"
        | None => false
        end)).

(** [router.post('/api/extract', upload.single('pdf'), handler)]: the
    middleware either passes an error on, which ends at [errorHandler], or
    lets the handler run with [req.file] set. *)
Definition post_api_extract (parts : list Part.t) : Async.t unit :=
  match Upload.single "pdf" parts with
  | inl err => errorHandler err
  | inr file => extract_handler (Request.mk file "")
  end.

End Routes.

(* ===================================================================== *)
(** * Vocabulary of the statements *)
(* ===================================================================== *)

(** The events a computation adds to the trace of the world it starts
    in. *)
Definition events_of {A : Type} (m : Async.t A) (w : World.t) : list Event :=
  skipn (List.length (World.trace w)) (World.trace (snd (m w))).

(** The driver runs the next [n] statements. *)
Definition driver_ok (n : nat) (w : World.t) : bool :=
  forallb (fun f => match f with None => true | Some _ => false end)
          (firstn n (World.faults w)).

(** Ascending order of the rows by a column. *)
Definition ascending {R : Type} (column : R -> Z) : R -> R -> Prop :=
  fun a b => column a <= column b.

(** A call on [storage], as later requests make them. *)
Inductive StorageCall : Type :=
| GetPdfDocument (id : Z)
| CreatePdfDocument (document : InsertPdfDocument.t)
| GetExtractedTable (id : Z)
| GetExtractedTablesByDocumentId (documentId : Z)
| CreateExtractedTable (table : InsertExtractedTable.t).

Definition perform (c : StorageCall) (w : World.t) : World.t :=
  match c with
  | GetPdfDocument id => snd (IStorage.getPdfDocument storage id w)
  | CreatePdfDocument document =>
      snd (IStorage.createPdfDocument storage document w)
  | GetExtractedTable id => snd (IStorage.getExtractedTable storage id w)
  | GetExtractedTablesByDocumentId documentId =>
      snd (IStorage.getExtractedTablesByDocumentId storage documentId w)
  | CreateExtractedTable table =>
      snd (IStorage.createExtractedTable storage table w)
  end.

Definition perform_all (cs : list StorageCall) (w : World.t) : World.t :=
  fold_left (fun w c => perform c w) cs w.

(** What a storage call can do to the database: nothing, or one insert. *)
Inductive db_step (d : Database.t) : Database.t -> Prop :=
| step_none : db_step d d
| step_document now filename filesize userId :
    db_step d
      (snd (Database.insert_pdfDocument now filename filesize userId d))
| step_table v :
    db_step d (snd (Database.insert_extractedTable v d)).

(** The rows of one document, in insertion order. *)
Definition rows_of_document (documentId : Z) (d : Database.t)
    : list ExtractedTable.t :=
  Database.where_eq ExtractedTable.documentId documentId
    (Database.extractedTables d).

(** The database after inserting the given tables one after the other. *)
Definition insert_all (vs : list InsertExtractedTable.t) (d : Database.t)
    : Database.t :=
  fold_left (fun d v => snd (Database.insert_extractedTable v d)) vs d.

(** The row [createPdfDocument] saves in world [w] for an uploaded file
    whose validated data is [validated]. *)
Definition saved_document (validated : InsertPdfDocument.t) (w : World.t)
    : PdfDocument.t :=
  fst (Database.insert_pdfDocument (World.clock w)
         (InsertPdfDocument.filename validated)
         (InsertPdfDocument.filesize validated)
         (Js.or_null (InsertPdfDocument.userId validated))
         (World.db w)).

Definition database_with_document (validated : InsertPdfDocument.t)
    (w : World.t) : Database.t :=
  snd (Database.insert_pdfDocument (World.clock w)
         (InsertPdfDocument.filename validated)
         (InsertPdfDocument.filesize validated)
         (Js.or_null (InsertPdfDocument.userId validated))
         (World.db w)).

(** The object the extract handler validates for [file] in world [w]. *)
Definition document_data (file : MulterFile.t) (w : World.t)
    : DocumentData.t :=
  DocumentData.mk (MulterFile.originalname file) (MulterFile.size file)
                  (World.clock w).

(** Batch submission with per-item error aggregation, in the words of the
    design notes: the combined result a caller receives lists the items
    that succeeded.  [lists_item body row] holds when [body] lists the
    table saved as [row]. *)
Definition lists_item (body : JsonBody) (row : ExtractedTable.t) : Prop :=
  match body with
  | ExtractBody _ _ _ _ tables =>
      In (DatabaseStorage.toExtractedTableData row) tables
  | _ => False
  end.

Definition per_item_aggregation (handler : Request.t -> Async.t unit)
    : Prop :=
  forall (req : Request.t) (w : World.t) (row : ExtractedTable.t),
    In row (Database.extractedTables (World.db (snd (handler req w)))) ->
    ~ In row (Database.extractedTables (World.db w)) ->
    exists body,
      In (Json body) (events_of (handler req) w) /\ lists_item body row.

(* ===================================================================== *)
(** * Sample collaborators and worlds *)
(* ===================================================================== *)

Module Sample.

Definition info (page index : Z) : TableInfo.t :=
  TableInfo.mk page index 3 3 (0%Q, 0%Q, 100%Q, 50%Q) 1%Q.

Definition people : TableData :=
  [["Name"; "Age"; "City"]; ["Alice"; "30"; "NYC"]; ["Bob"; "25"; "LA"]].

Definition prices : TableData :=
  [["Item"; "Price"]; ["Tea"; "3"]; ["Milk"; "2"]].

Definition table0 : ExtractedTableData.t :=
  ExtractedTableData.mk 0 people (info 1 0).

Definition table1 : ExtractedTableData.t :=
  ExtractedTableData.mk 1 prices (info 2 1).

Definition pdf : Buffer := [Byte.x25; Byte.x50; Byte.x44; Byte.x46].

Definition unreadable : Buffer := [Byte.x00].

Definition blank : Buffer := [].

(** Two tables for [pdf], none for [blank], a failure for anything else. *)
Definition extractTablesFromPdf (b : Buffer)
    : Js.Thrown + list ExtractedTableData.t :=
  match b with
  | [Byte.x25; Byte.x50; Byte.x44; Byte.x46] => inr [table0; table1]
  | [] => inr []
  | _ => inl (Js.Error "Invalid PDF structure")
  end.

(** A workbook is stood for by its number of cells; a table with no row
    cannot be encoded. *)
Definition workbook (cells : nat) : Buffer := repeat Byte.x50 cells.

Definition generateExcelFile (t : TableData) : Js.Thrown + Buffer :=
  match t with
  | [] => inl (Js.Error "Cannot write an empty sheet")
  | _ => inr (workbook (List.length (List.concat t)))
  end.

Definition generateConsolidatedExcel (ts : list TableData)
    : Js.Thrown + Buffer :=
  if existsb (fun t => match t with [] => true | _ => false end) ts
  then inl (Js.Error "Cannot write an empty sheet")
  else inr (workbook (List.length (List.concat (List.concat ts)))).

Definition parse (d : DocumentData.t) : Js.Thrown + InsertPdfDocument.t :=
  inr (InsertPdfDocument.mk (DocumentData.filename d)
                            (DocumentData.filesize d) None).

Definition file (b : Buffer) : MulterFile.t :=
  MulterFile.mk "pdf" "report.pdf" "application/pdf"
                (Z.of_nat (List.length b)) b.

Definition part (mimeType : string) (b : Buffer) : Part.t :=
  Part.mk "pdf" "report.pdf" mimeType b.

Definition fresh (faults : list (option Js.Thrown)) : World.t :=
  World.mk Database.empty faults "2025-01-01T00:00:00.000Z" [].

Definition values (documentId index : Z) (t : TableData)
    : InsertExtractedTable.t :=
  InsertExtractedTable.mk documentId index 1 t (info 1 index).

(** The first row saved in a fresh database, and the world after it. *)
Definition row0 : ExtractedTable.t :=
  ExtractedTable.mk 1 1 0 1 people (info 1 0).

Definition after_row0 : World.t :=
  World.mk (Database.mk [] 0 [row0] 1) [] "2025-01-01T00:00:00.000Z" [].

Definition later : list StorageCall :=
  [CreateExtractedTable (values 1 1 prices);
   GetExtractedTable 7;
   CreateExtractedTable (values 2 0 prices)].

(** A world holding document 1 with tables of index 2, 0, 1 inserted in
    that order, document 2 without tables, and document 3 with one table
    that has no rows. *)
Definition stocked : World.t :=
  perform_all
    [CreatePdfDocument (InsertPdfDocument.mk "report.pdf" 4 None);
     CreatePdfDocument (InsertPdfDocument.mk "empty.pdf" 0 None);
     CreatePdfDocument (InsertPdfDocument.mk "broken.pdf" 9 None);
     CreateExtractedTable (values 1 2 people);
     CreateExtractedTable (values 1 0 prices);
     CreateExtractedTable (values 1 1 people);
     CreateExtractedTable (values 3 0 [])]
    (World.mk Database.empty [] "2025-01-01T00:00:00.000Z" []).

Definition stocked_with (faults : list (option Js.Thrown)) : World.t :=
  World.mk (World.db stocked) faults (World.clock stocked) [].

End Sample.

(* ===================================================================== *)
(** * storage.ts and routes.ts: listing and fetching documents *)
(* ===================================================================== *)

(** [a] is at least as recent as [b].  Instants are held in their ISO
    rendering, whose fixed layout makes the order of the strings the order
    in time. *)
Definition recent_first {R : Type} (column : R -> Timestamp) : R -> R -> Prop :=
  fun a b => String.leb (column b) (column a) = true.

(** [.orderBy(desc(column))]: descending; rows with equal keys keep their
    relative order. *)
Fixpoint order_insert_desc {R : Type} (column : R -> Timestamp) (r : R)
    (sorted : list R) : list R :=
  match sorted with
  | [] => [r]
  | r' :: rest =>
      if String.leb (column r') (column r)
      then r :: sorted
      else r' :: order_insert_desc column r rest
  end.

Definition orderBy_desc {R : Type} (column : R -> Timestamp) (rows : list R)
    : list R :=
  fold_right (order_insert_desc column) [] rows.

(** [DatabaseStorage.getAllPdfDocuments]:
    [db.select().from(pdfDocuments).orderBy(desc(pdfDocuments.uploadDate))] *)
Definition getAllPdfDocuments : Async.t (list PdfDocument.t) :=
  Async.execute (fun _ d =>
    (orderBy_desc PdfDocument.uploadDate (Database.pdfDocuments d), d)).

(** Bodies of the two document routes.  Each of these handlers sends one
    response as its last step on every path, so the response is the value
    of the computation. *)
Inductive ReplyBody : Type :=
| DocumentsBody (documents : list PdfDocument.t)
    (** the array of documents *)
| DocumentBody (document : PdfDocument.t)
    (tables : list ExtractedTableData.t)
    (** [{ ...document, tables }] *)
| ReplyError (error : string).
    (** [{ error }] *)

Module Reply.
Record t : Type := mk {
  status : Z;
  body : ReplyBody
}.
End Reply.

(** [GET /api/documents] *)
Definition documents_handler : Async.t Reply.t :=
  Async.try_catch
    (documents <- getAllPdfDocuments ;;
     Async.ret (Reply.mk 200 (DocumentsBody documents)))
    (fun _ =>
       Async.ret (Reply.mk 500 (ReplyError "Failed to fetch documents"))).

(** [GET /api/documents/:id] *)
Definition document_handler (req : Request.t) : Async.t Reply.t :=
  Async.try_catch
    (match Js.parseInt (Request.params_id req) with
     | None => Async.ret (Reply.mk 400 (ReplyError "Invalid document ID"))
     | Some documentId =>
         document <- IStorage.getPdfDocument storage documentId ;;
         match document with
         | None =>
             Async.ret (Reply.mk 404 (ReplyError "Document not found"))
         | Some document =>
             tables <-
               IStorage.getExtractedTablesByDocumentId storage documentId ;;
             Async.ret (Reply.mk 200 (DocumentBody document tables))
         end
     end)
    (fun _ =>
       Async.ret (Reply.mk 500 (ReplyError "Failed to fetch document"))).

(** The primary keys of [pdfDocuments] are distinct and were all drawn
    from the sequence. *)
Definition document_keys_ok (d : Database.t) : Prop :=
  NoDup (map PdfDocument.id (Database.pdfDocuments d)) /\
  Forall (fun r => PdfDocument.id r <= Database.pdfDocuments_id_seq d)
         (Database.pdfDocuments d).

(** Every row of [extractedTables] belongs to a stored document. *)
Definition references_ok (d : Database.t) : Prop :=
  Forall (fun row =>
            exists document,
              In document (Database.pdfDocuments d) /\
              PdfDocument.id document = ExtractedTable.documentId row)
         (Database.extractedTables d).

(** Ascending without ties. *)
Definition strictly_ascending {R : Type} (column : R -> Z) : R -> R -> Prop :=
  fun a b => column a < column b.

(** The response statuses among some events. *)
Definition statuses (events : list Event) : list Z :=
  flat_map (fun e => match e with Status code => [code] | _ => [] end) events.

(** The parts of an upload that carry a file name. *)
Definition named_parts (parts : list Part.t) : list Part.t :=
  filter (fun p => negb (String.eqb (Part.filename p) "")) parts.

(** The string has no full stop. *)
Fixpoint dot_free (s : string) : bool :=
  match s with
  | EmptyString => true
  | String c rest => negb (Ascii.eqb c ".") && dot_free rest
  end.

(** The character is none of [0] to [9]. *)
Definition not_decimal_digit (c : ascii) : bool :=
  let n := nat_of_ascii c in
  Nat.ltb n 48 || Nat.ltb 57 n.

(** A second world holding the tables of document 1 of
    [Sample.stocked]: here they were inserted with index 0, 2, 1, after
    a table of another document. *)
Definition restocked : World.t :=
  perform_all
    [CreatePdfDocument (InsertPdfDocument.mk "report.pdf" 4 None);
     CreatePdfDocument (InsertPdfDocument.mk "other.pdf" 7 None);
     CreateExtractedTable (Sample.values 2 0 Sample.people);
     CreateExtractedTable (Sample.values 1 0 Sample.prices);
     CreateExtractedTable (Sample.values 1 2 Sample.people);
     CreateExtractedTable (Sample.values 1 1 Sample.people)]
    (World.mk Database.empty [] "2025-02-02T00:00:00.000Z" []).

(** The sample PDF, uploaded under a file name that starts with a line
    feed. *)
Definition line_feed_file : MulterFile.t :=
  MulterFile.mk "pdf" (String (ascii_of_nat 10) "report.pdf")
                "application/pdf" 4 Sample.pdf.

(** The character may stand in a header value: a tab, a printable ASCII
    character, or a character of the upper half of Latin-1.  The others
    are the control characters, a line feed among them, and DEL. *)
Definition header_safe (c : ascii) : bool :=
  let n := nat_of_ascii c in
  Nat.eqb n 9 || (Nat.leb 32 n && Nat.leb n 126) || Nat.leb 128 n.

(* ===================================================================== *)
(** * The driver and the monad *)
(* ===================================================================== *)

Section AsyncFacts.

Context {A : Type}.
Variable stmt : Timestamp -> Database.t -> A * Database.t.

(** A statement the driver runs returns what the statement computes and
    uses up one scheduled outcome. *)
Lemma execute_runs (n : nat) (w : World.t) :
  driver_ok (S n) w = true ->
  Async.execute stmt w =
    (Async.Returned (fst (stmt (World.clock w) (World.db w))),
     World.mk (snd (stmt (World.clock w) (World.db w)))
              (tl (World.faults w)) (World.clock w) (World.trace w)).
Proof.
  unfold driver_ok, Async.execute.
  destruct (World.faults w) as [|[e|] rest]; simpl; intros H.
  - destruct (stmt _ _); reflexivity.
  - discriminate.
  - destruct (stmt _ _); reflexivity.
Qed.

(** A statement the driver rejects throws and leaves the database as it
    was. *)
Lemma execute_rejected (e : Js.Thrown) (rest : list (option Js.Thrown))
    (w : World.t) :
  World.faults w = Some e :: rest ->
  Async.execute stmt w =
    (Async.Threw e,
     World.mk (World.db w) rest (World.clock w) (World.trace w)).
Proof.
  unfold Async.execute. intros ->. reflexivity.
Qed.

(** The two ways a statement can end. *)
Lemma execute_cases (w : World.t) :
  (exists e rest,
      World.faults w = Some e :: rest /\
      Async.execute stmt w =
        (Async.Threw e,
         World.mk (World.db w) rest (World.clock w) (World.trace w)))
  \/
  (driver_ok 1 w = true /\
   Async.execute stmt w =
     (Async.Returned (fst (stmt (World.clock w) (World.db w))),
      World.mk (snd (stmt (World.clock w) (World.db w)))
               (tl (World.faults w)) (World.clock w) (World.trace w))).
Proof.
  destruct (World.faults w) as [|[e|] rest] eqn:F.
  - right.
    assert (D : driver_ok 1 w = true) by (unfold driver_ok; now rewrite F).
    split; [exact D|]. rewrite (execute_runs 0 w D), F. reflexivity.
  - left. exists e, rest. split; [reflexivity|].
    now apply execute_rejected.
  - right.
    assert (D : driver_ok 1 w = true) by (unfold driver_ok; now rewrite F).
    split; [exact D|]. rewrite (execute_runs 0 w D), F. reflexivity.
Qed.

End AsyncFacts.

Lemma driver_ok_tl (n : nat) (w : World.t) (d : Database.t) (c : Timestamp)
    (tr : list Event) :
  driver_ok (S n) w = true ->
  driver_ok n (World.mk d (tl (World.faults w)) c tr) = true.
Proof.
  unfold driver_ok. simpl.
  destruct (World.faults w) as [|[e|] rest]; simpl.
  - now rewrite firstn_nil.
  - discriminate.
  - auto.
Qed.

Lemma bind_returned {A B : Type} (m : Async.t A) (k : A -> Async.t B)
    (w w' : World.t) (a : A) :
  m w = (Async.Returned a, w') -> Async.bind m k w = k a w'.
Proof. unfold Async.bind. now intros ->. Qed.

Lemma bind_threw {A B : Type} (m : Async.t A) (k : A -> Async.t B)
    (w w' : World.t) (e : Js.Thrown) :
  m w = (Async.Threw e, w') -> Async.bind m k w = (Async.Threw e, w').
Proof. unfold Async.bind. now intros ->. Qed.

Lemma events_of_app {A : Type} (m : Async.t A) (w : World.t)
    (evs : list Event) :
  World.trace (snd (m w)) = World.trace w ++ evs -> events_of m w = evs.
Proof.
  unfold events_of. intros ->.
  rewrite skipn_app, skipn_all, Nat.sub_diag. reflexivity.
Qed.

(* ===================================================================== *)
(** * Queries *)
(* ===================================================================== *)

Section QueryFacts.

Context {R : Type}.
Variable column : R -> Z.

Lemma where_eq_In (value : Z) (rows : list R) (r : R) :
  In r (Database.where_eq column value rows) <->
  In r rows /\ column r = value.
Proof.
  unfold Database.where_eq. rewrite filter_In, Z.eqb_eq. reflexivity.
Qed.

(** With distinct keys, the first row found under a key is the row that
    carries it. *)
Lemma where_eq_unique (rows : list R) (r : R) :
  NoDup (map column rows) ->
  In r rows ->
  hd_error (Database.where_eq column (column r) rows) = Some r.
Proof.
  induction rows as [|r' rows IH]; simpl; intros ND HIn; [contradiction|].
  inversion ND as [|k ks Hnotin ND']; subst.
  destruct HIn as [-> | HIn].
  - now rewrite Z.eqb_refl.
  - destruct (Z.eqb_spec (column r') (column r)) as [E|NE].
    + exfalso. apply Hnotin. rewrite E. now apply in_map.
    + now apply IH.
Qed.

Lemma order_insert_perm (r : R) (sorted : list R) :
  Permutation (Database.order_insert column r sorted) (r :: sorted).
Proof.
  induction sorted as [|r' rest IH]; simpl; [reflexivity|].
  destruct (column r <=? column r'); [reflexivity|].
  rewrite IH. apply perm_swap.
Qed.

Lemma orderBy_perm (rows : list R) :
  Permutation (Database.orderBy column rows) rows.
Proof.
  induction rows as [|r rows IH]; simpl; [reflexivity|].
  unfold Database.orderBy in *. simpl.
  rewrite order_insert_perm. now constructor.
Qed.

Lemma order_insert_sorted (r : R) (sorted : list R) :
  StronglySorted (ascending column) sorted ->
  StronglySorted (ascending column) (Database.order_insert column r sorted).
Proof.
  induction sorted as [|r' rest IH]; simpl; intros S.
  - repeat constructor.
  - inversion S as [|x xs Srest Hall]; subst.
    destruct (Z.leb_spec (column r) (column r')) as [L|G].
    + constructor; [exact S|]. constructor; [exact L|].
      eapply Forall_impl; [|exact Hall].
      unfold ascending. intros; lia.
    + constructor; [now apply IH|].
      eapply Permutation_Forall;
        [apply Permutation_sym, order_insert_perm|].
      constructor; [unfold ascending; lia | exact Hall].
Qed.

Lemma orderBy_sorted (rows : list R) :
  StronglySorted (ascending column) (Database.orderBy column rows).
Proof.
  induction rows as [|r rows IH]; simpl; [constructor|].
  now apply order_insert_sorted.
Qed.

(** Two ascending arrangements of the same rows coincide when no two
    rows share a key. *)
Lemma ascending_unique (l1 l2 : list R) :
  StronglySorted (ascending column) l1 ->
  StronglySorted (ascending column) l2 ->
  Permutation l1 l2 ->
  NoDup (map column l1) ->
  l1 = l2.
Proof.
  revert l2. induction l1 as [|a l1 IH]; intros l2 S1 S2 P ND.
  - now apply Permutation_nil in P.
  - destruct l2 as [|b l2]; [now apply Permutation_sym, Permutation_nil in P|].
    inversion S1 as [|? ? S1' A1]; inversion S2 as [|? ? S2' A2]; subst.
    inversion ND as [|? ? Hnotin ND']; subst.
    assert (E : a = b).
    { assert (Ia : In a (b :: l2)) by (eapply Permutation_in; [exact P|now left]).
      assert (Ib : In b (a :: l1))
        by (eapply Permutation_in; [exact (Permutation_sym P)|now left]).
      destruct Ia as [->|Ia]; [reflexivity|].
      destruct Ib as [->|Ib]; [reflexivity|].
      rewrite Forall_forall in A1, A2.
      pose proof (A1 _ Ib) as H1. pose proof (A2 _ Ia) as H2.
      unfold ascending in H1, H2.
      exfalso. apply Hnotin.
      replace (column a) with (column b) by lia. now apply in_map. }
    subst b. f_equal. apply IH; auto.
    now apply Permutation_cons_inv in P.
Qed.

End QueryFacts.

(* ===================================================================== *)
(** * Storage *)
(* ===================================================================== *)

Lemma execute_db_step {A : Type}
    (stmt : Timestamp -> Database.t -> A * Database.t) (w : World.t) :
  db_step (World.db w) (snd (stmt (World.clock w) (World.db w))) ->
  db_step (World.db w) (World.db (snd (Async.execute stmt w))).
Proof.
  intros H.
  destruct (execute_cases stmt w) as [(e & rest & _ & ->) | [_ ->]]; simpl.
  - constructor.
  - exact H.
Qed.

Lemma perform_db_step (c : StorageCall) (w : World.t) :
  db_step (World.db w) (World.db (perform c w)).
Proof.
  destruct c; simpl;
    try (apply execute_db_step; simpl; constructor).
  unfold DatabaseStorage.getExtractedTablesByDocumentId, Async.bind.
  pose proof (execute_db_step
    (fun (_ : Timestamp) d =>
       (DatabaseStorage.selectByDocumentId documentId d, d)) w) as H.
  destruct (Async.execute _ w) as [[a|e] w']; simpl in *;
    apply H; constructor.
Qed.

Lemma db_step_keys_ok (d d' : Database.t) :
  db_step d d' -> Database.keys_ok d -> Database.keys_ok d'.
Proof.
  intros [| |v] K; try exact K.
  destruct K as [ND B]. unfold Database.keys_ok. simpl. split.
  - rewrite map_app. simpl.
    eapply Permutation_NoDup; [apply Permutation_cons_append|].
    constructor; [|exact ND].
    rewrite in_map_iff. intros (r & E & I).
    rewrite Forall_forall in B. specialize (B r I). lia.
  - apply Forall_app. split.
    + eapply Forall_impl; [|exact B]. simpl. intros; lia.
    + repeat constructor. simpl. lia.
Qed.

Lemma db_step_keeps_rows (d d' : Database.t) (row : ExtractedTable.t) :
  db_step d d' ->
  In row (Database.extractedTables d) ->
  In row (Database.extractedTables d').
Proof.
  intros [| |v] I; simpl; auto. apply in_or_app. now left.
Qed.

Lemma perform_all_keeps (cs : list StorageCall) (w : World.t)
    (row : ExtractedTable.t) :
  Database.keys_ok (World.db w) ->
  In row (Database.extractedTables (World.db w)) ->
  Database.keys_ok (World.db (perform_all cs w)) /\
  In row (Database.extractedTables (World.db (perform_all cs w))).
Proof.
  revert w. induction cs as [|c cs IH]; intros w K I; simpl; [auto|].
  apply IH.
  - eapply db_step_keys_ok; [apply perform_db_step | exact K].
  - eapply db_step_keeps_rows; [apply perform_db_step | exact I].
Qed.

Lemma keys_ok_empty : Database.keys_ok Database.empty.
Proof. split; constructor. Qed.

(** The outcome of [getExtractedTable]. *)
Lemma getExtractedTable_outcome (id : Z) (w : World.t) :
  match fst (IStorage.getExtractedTable storage id w) with
  | Async.Returned found =>
      found = hd_error (Database.where_eq ExtractedTable.id id
                          (Database.extractedTables (World.db w)))
  | Async.Threw e => hd_error (World.faults w) = Some (Some e)
  end.
Proof.
  simpl. unfold DatabaseStorage.getExtractedTable.
  match goal with |- context [Async.execute ?s w] =>
    destruct (execute_cases s w) as [(e & rest & F & ->) | [_ ->]] end;
    simpl.
  - now rewrite F.
  - reflexivity.
Qed.

(** The outcome of [getExtractedTablesByDocumentId]. *)
Lemma getExtractedTablesByDocumentId_outcome (documentId : Z) (w : World.t) :
  match fst (IStorage.getExtractedTablesByDocumentId storage documentId w)
  with
  | Async.Returned entries =>
      entries = map DatabaseStorage.toExtractedTableData
                    (DatabaseStorage.selectByDocumentId documentId
                       (World.db w))
  | Async.Threw e => hd_error (World.faults w) = Some (Some e)
  end.
Proof.
  simpl. unfold DatabaseStorage.getExtractedTablesByDocumentId, Async.bind.
  match goal with |- context [Async.execute ?s w] =>
    destruct (execute_cases s w) as [(e & rest & F & ->) | [_ ->]] end;
    simpl.
  - now rewrite F.
  - reflexivity.
Qed.

Lemma selectByDocumentId_perm (documentId : Z) (d : Database.t) :
  Permutation (DatabaseStorage.selectByDocumentId documentId d)
              (rows_of_document documentId d).
Proof. apply orderBy_perm. Qed.

Lemma toExtractedTableData_sorted (rows : list ExtractedTable.t) :
  StronglySorted (ascending ExtractedTable.tableIndex) rows ->
  StronglySorted (ascending ExtractedTableData.tableIndex)
                 (map DatabaseStorage.toExtractedTableData rows).
Proof.
  induction 1 as [|r rows S IH A]; simpl; constructor; [exact IH|].
  rewrite Forall_map. exact A.
Qed.

(** C1: a table stored with [createExtractedTable] is found again, after
    any later storage calls, by [getExtractedTable] under the identifier
    it was given, with the stored [tableIndex], [pageNumber], [tableData]
    and [tableInfo]; and [getExtractedTablesByDocumentId] on its document
    returns an entry with the stored [tableIndex], [tableData] and
    [tableInfo].  A retrieval only fails to return when the driver
    rejects the query. *)
Theorem createExtractedTable_retrievable
    (w w1 : World.t) (table : InsertExtractedTable.t)
    (saved : ExtractedTable.t) (later : list StorageCall) :
  Database.keys_ok (World.db w) ->
  IStorage.createExtractedTable storage table w = (Async.Returned saved, w1) ->
  let w2 := perform_all later w1 in
  match fst (IStorage.getExtractedTable storage (ExtractedTable.id saved) w2)
  with
  | Async.Returned found =>
      exists row,
        found = Some row /\
        ExtractedTable.tableIndex row = InsertExtractedTable.tableIndex table /\
        ExtractedTable.pageNumber row = InsertExtractedTable.pageNumber table /\
        ExtractedTable.tableData row = InsertExtractedTable.tableData table /\
        ExtractedTable.tableInfo row = InsertExtractedTable.tableInfo table
  | Async.Threw e => hd_error (World.faults w2) = Some (Some e)
  end /\
  match fst (IStorage.getExtractedTablesByDocumentId storage
               (InsertExtractedTable.documentId table) w2)
  with
  | Async.Returned entries =>
      exists entry,
        In entry entries /\
        ExtractedTableData.tableIndex entry
          = InsertExtractedTable.tableIndex table /\
        ExtractedTableData.data entry = InsertExtractedTable.tableData table /\
        ExtractedTableData.info entry = InsertExtractedTable.tableInfo table
  | Async.Threw e => hd_error (World.faults w2) = Some (Some e)
  end.
Proof.
  intros K Hcreate w2.
  assert (Hsaved : saved = fst (Database.insert_extractedTable table (World.db w))
                   /\ World.db w1
                      = snd (Database.insert_extractedTable table (World.db w))).
  { simpl in Hcreate. unfold DatabaseStorage.createExtractedTable in Hcreate.
    match type of Hcreate with context [Async.execute ?s w] =>
      destruct (execute_cases s w) as [(e & rest & _ & E) | [_ E]] end;
      rewrite E in Hcreate; [discriminate|].
    injection Hcreate as <- <-. simpl. auto. }
  destruct Hsaved as [Esaved Edb].
  assert (K1 : Database.keys_ok (World.db w1)).
  { rewrite Edb. eapply db_step_keys_ok; [apply step_table | exact K]. }
  assert (I1 : In saved (Database.extractedTables (World.db w1))).
  { rewrite Edb, Esaved. simpl. apply in_or_app. right. now left. }
  destruct (perform_all_keeps later w1 saved K1 I1) as [K2 I2].
  fold w2 in K2, I2.
  split.
  - pose proof (getExtractedTable_outcome (ExtractedTable.id saved) w2) as O.
    destruct (fst (IStorage.getExtractedTable storage _ w2)) as [found|e];
      [|exact O].
    exists saved. split.
    + rewrite O. apply where_eq_unique; [apply K2 | exact I2].
    + rewrite Esaved. simpl. auto.
  - pose proof (getExtractedTablesByDocumentId_outcome
                  (InsertExtractedTable.documentId table) w2) as O.
    destruct (fst (IStorage.getExtractedTablesByDocumentId storage _ w2))
      as [entries|e]; [|exact O].
    exists (DatabaseStorage.toExtractedTableData saved). split.
    + rewrite O. apply in_map.
      eapply Permutation_in;
        [apply Permutation_sym, selectByDocumentId_perm|].
      apply where_eq_In. split; [exact I2|].
      rewrite Esaved. reflexivity.
    + rewrite Esaved. simpl. auto.
Qed.

(** C1 at work: a table stored in an empty database, then two more
    inserts and a read, then the two retrievals. *)
Lemma createExtractedTable_retrievable_witness :
  Database.keys_ok (World.db (Sample.fresh [])) /\
  IStorage.createExtractedTable storage (Sample.values 1 0 Sample.people)
    (Sample.fresh [])
  = (Async.Returned Sample.row0, Sample.after_row0) /\
  (exists row,
      Some Sample.row0 = Some row /\
      ExtractedTable.tableIndex row = 0 /\
      ExtractedTable.pageNumber row = 1 /\
      ExtractedTable.tableData row = Sample.people /\
      ExtractedTable.tableInfo row = Sample.info 1 0) /\
  (exists entry,
      In entry [ExtractedTableData.mk 0 Sample.people (Sample.info 1 0);
                ExtractedTableData.mk 1 Sample.prices (Sample.info 1 1)] /\
      ExtractedTableData.tableIndex entry = 0 /\
      ExtractedTableData.data entry = Sample.people /\
      ExtractedTableData.info entry = Sample.info 1 0).
Proof.
  split; [split; constructor|].
  split; [reflexivity|].
  exact (createExtractedTable_retrievable
           (Sample.fresh []) Sample.after_row0
           (Sample.values 1 0 Sample.people) Sample.row0 Sample.later
           (conj (NoDup_nil Z) (Forall_nil _)) eq_refl).
Defined.

(** C9: [getExtractedTablesByDocumentId] returns the stored tables of the
    document, no other row and each of them once, in ascending
    [tableIndex] order, each as the projection [{tableIndex, data, info}]
    of its row: [data] is the row's [tableData] and [info] its
    [tableInfo].  The order of insertion does not matter: a database that
    holds the same tables for the document, inserted in another order,
    gives the same entries, and the same list when the table indexes are
    distinct.  The call only fails to return when the driver rejects the
    query. *)
Theorem getExtractedTablesByDocumentId_ascending
    (w : World.t) (documentId : Z) :
  let stored (d : Database.t) : list ExtractedTable.t :=
    filter (fun row => ExtractedTable.documentId row =? documentId)
           (Database.extractedTables d) in
  let projection (row : ExtractedTable.t) : ExtractedTableData.t :=
    ExtractedTableData.mk (ExtractedTable.tableIndex row)
                          (ExtractedTable.tableData row)
                          (ExtractedTable.tableInfo row) in
  match fst (IStorage.getExtractedTablesByDocumentId storage documentId w)
  with
  | Async.Returned entries =>
      StronglySorted (ascending ExtractedTableData.tableIndex) entries /\
      (exists rows : list ExtractedTable.t,
          Permutation rows (stored (World.db w)) /\
          StronglySorted (ascending ExtractedTable.tableIndex) rows /\
          entries = map projection rows) /\
      forall (w2 : World.t) (entries2 : list ExtractedTableData.t),
        Permutation (map projection (stored (World.db w)))
                    (map projection (stored (World.db w2))) ->
        fst (IStorage.getExtractedTablesByDocumentId storage documentId w2)
        = Async.Returned entries2 ->
        Permutation entries entries2 /\
        (NoDup (map ExtractedTableData.tableIndex entries) ->
         entries2 = entries)
  | Async.Threw e => hd_error (World.faults w) = Some (Some e)
  end.
Proof.
  intros stored projection.
  pose proof (getExtractedTablesByDocumentId_outcome documentId w) as O.
  destruct (fst (IStorage.getExtractedTablesByDocumentId storage _ w))
    as [entries|e]; [|exact O].
  assert (S : forall w', StronglySorted
                (ascending ExtractedTableData.tableIndex)
                (map DatabaseStorage.toExtractedTableData
                   (DatabaseStorage.selectByDocumentId documentId
                      (World.db w')))).
  { intros w'. apply toExtractedTableData_sorted, orderBy_sorted. }
  assert (P : forall w', Permutation
                (map DatabaseStorage.toExtractedTableData
                   (DatabaseStorage.selectByDocumentId documentId
                      (World.db w')))
                (map projection (stored (World.db w')))).
  { intros w'.
    change (map projection (stored (World.db w')))
      with (map DatabaseStorage.toExtractedTableData
              (rows_of_document documentId (World.db w'))).
    apply Permutation_map, selectByDocumentId_perm. }
  subst entries. split; [apply S|]. split.
  - exists (DatabaseStorage.selectByDocumentId documentId (World.db w)).
    split; [exact (selectByDocumentId_perm documentId (World.db w))|].
    split; [apply orderBy_sorted | reflexivity].
  - intros w2 entries2 Hsame H2.
    pose proof (getExtractedTablesByDocumentId_outcome documentId w2) as O2.
    rewrite H2 in O2. subst entries2.
    assert (P12 : Permutation
                    (map DatabaseStorage.toExtractedTableData
                       (DatabaseStorage.selectByDocumentId documentId
                          (World.db w)))
                    (map DatabaseStorage.toExtractedTableData
                       (DatabaseStorage.selectByDocumentId documentId
                          (World.db w2)))).
    { rewrite (P w), (P w2). exact Hsame. }
    split; [exact P12|].
    intros ND. symmetry.
    apply (ascending_unique ExtractedTableData.tableIndex); auto.
Qed.

(** C9 at work: document 1 of [Sample.stocked] received its tables with
    index 2, 0, 1 in that order, under the identifiers 1, 2, 3, among the
    rows of other documents, and yields them as 0, 1, 2; in [restocked]
    the same tables were inserted as 0, 2, 1 and come out the same. *)
Lemma getExtractedTablesByDocumentId_ascending_witness :
  fst (IStorage.getExtractedTablesByDocumentId storage 1
         (Sample.stocked_with []))
  = Async.Returned
      [ExtractedTableData.mk 0 Sample.prices (Sample.info 1 0);
       ExtractedTableData.mk 1 Sample.people (Sample.info 1 1);
       ExtractedTableData.mk 2 Sample.people (Sample.info 1 2)] /\
  StronglySorted (ascending ExtractedTableData.tableIndex)
    [ExtractedTableData.mk 0 Sample.prices (Sample.info 1 0);
     ExtractedTableData.mk 1 Sample.people (Sample.info 1 1);
     ExtractedTableData.mk 2 Sample.people (Sample.info 1 2)] /\
  (exists rows : list ExtractedTable.t,
      Permutation rows
        [ExtractedTable.mk 1 1 2 1 Sample.people (Sample.info 1 2);
         ExtractedTable.mk 2 1 0 1 Sample.prices (Sample.info 1 0);
         ExtractedTable.mk 3 1 1 1 Sample.people (Sample.info 1 1)] /\
      StronglySorted (ascending ExtractedTable.tableIndex) rows /\
      [ExtractedTableData.mk 0 Sample.prices (Sample.info 1 0);
       ExtractedTableData.mk 1 Sample.people (Sample.info 1 1);
       ExtractedTableData.mk 2 Sample.people (Sample.info 1 2)]
      = map (fun row =>
               ExtractedTableData.mk (ExtractedTable.tableIndex row)
                                     (ExtractedTable.tableData row)
                                     (ExtractedTable.tableInfo row))
            rows) /\
  (forall entries2 : list ExtractedTableData.t,
      fst (IStorage.getExtractedTablesByDocumentId storage 1 restocked)
      = Async.Returned entries2 ->
      Permutation
        [ExtractedTableData.mk 0 Sample.prices (Sample.info 1 0);
         ExtractedTableData.mk 1 Sample.people (Sample.info 1 1);
         ExtractedTableData.mk 2 Sample.people (Sample.info 1 2)]
        entries2 /\
      (NoDup (map ExtractedTableData.tableIndex
                [ExtractedTableData.mk 0 Sample.prices (Sample.info 1 0);
                 ExtractedTableData.mk 1 Sample.people (Sample.info 1 1);
                 ExtractedTableData.mk 2 Sample.people (Sample.info 1 2)]) ->
       entries2
       = [ExtractedTableData.mk 0 Sample.prices (Sample.info 1 0);
          ExtractedTableData.mk 1 Sample.people (Sample.info 1 1);
          ExtractedTableData.mk 2 Sample.people (Sample.info 1 2)])).
Proof.
  split; [reflexivity|].
  destruct (getExtractedTablesByDocumentId_ascending
              (Sample.stocked_with []) 1) as (S & R & O).
  split; [exact S|]. split; [exact R|].
  intros entries2 H2.
  apply (O restocked entries2); [apply perm_swap | exact H2].
Defined.

(* ===================================================================== *)
(** * Handlers *)
(* ===================================================================== *)

Lemma respond_eq (code : Z) (body : JsonBody) (w : World.t) :
  respond code body w =
    (Async.Returned tt,
     World.mk (World.db w) (World.faults w) (World.clock w)
              (World.trace w ++ [Status code; Json body])).
Proof.
  unfold respond, Async.bind, Async.emit. simpl.
  now rewrite <- app_assoc.
Qed.

Lemma emit_eq (e : Event) (w : World.t) :
  Async.emit e w =
    (Async.Returned tt,
     World.mk (World.db w) (World.faults w) (World.clock w)
              (World.trace w ++ [e])).
Proof. reflexivity. Qed.

(** [res.setHeader] on a value Node accepts, and on one it refuses. *)
Lemma setHeader_accepted (name value : string) (w : World.t) :
  Http.checkInvalidHeaderChar value = false ->
  setHeader name value w =
    (Async.Returned tt,
     World.mk (World.db w) (World.faults w) (World.clock w)
              (World.trace w ++ [SetHeader name value])).
Proof. intros V. unfold setHeader. now rewrite V. Qed.

Lemma setHeader_refused (name value : string) (w : World.t) :
  Http.checkInvalidHeaderChar value = true ->
  setHeader name value w = (Async.Threw (Http.ERR_INVALID_CHAR name), w).
Proof. intros V. unfold setHeader. now rewrite V. Qed.

Lemma checkInvalidHeaderChar_app (a b : string) :
  Http.checkInvalidHeaderChar (a ++ b)
  = Http.checkInvalidHeaderChar a || Http.checkInvalidHeaderChar b.
Proof.
  induction a as [|c a IH]; simpl; [reflexivity|].
  now rewrite IH, orb_assoc.
Qed.

(** The decimal rendering of an integer is made of digits and a sign, so
    the header naming a single table is always accepted. *)
Lemma number_to_string_header_ok (n : Z) :
  Http.checkInvalidHeaderChar (Js.number_to_string n) = false.
Proof.
  assert (U : forall d : Decimal.uint,
             Http.checkInvalidHeaderChar (NilEmpty.string_of_uint d) = false).
  { induction d; simpl; try exact IHd; reflexivity. }
  assert (U0 : forall d : Decimal.uint,
             Http.checkInvalidHeaderChar (NilZero.string_of_uint d) = false).
  { intros d. destruct d; try apply U. reflexivity. }
  unfold Js.number_to_string, NilZero.string_of_int.
  destruct (Z.to_int n) as [d|d]; [apply U0|].
  change (Http.checkInvalidHeaderChar (String "-" (NilZero.string_of_uint d))
          = false).
  simpl. apply U0.
Qed.

Lemma table_header_ok (tableId : Z) :
  Http.checkInvalidHeaderChar
    ("attachment; filename=table-" ++ Js.number_to_string tableId ++ ".xlsx")
  = false.
Proof.
  rewrite !checkInvalidHeaderChar_app, number_to_string_header_ok.
  reflexivity.
Qed.

Section LoopFacts.

Variable savedDocument : PdfDocument.t.

Lemma save_table_runs (n : nat) (table : ExtractedTableData.t) (w : World.t) :
  driver_ok (S n) w = true ->
  save_table savedDocument table w =
    (Async.Returned tt,
     World.mk (snd (Database.insert_extractedTable
                      (table_values savedDocument table) (World.db w)))
              (tl (World.faults w)) (World.clock w) (World.trace w)).
Proof.
  intros D. unfold save_table. simpl.
  unfold DatabaseStorage.createExtractedTable.
  erewrite bind_returned; [|apply (execute_runs _ n); exact D].
  reflexivity.
Qed.

Lemma save_table_rejected (table : ExtractedTableData.t) (w : World.t)
    (e : Js.Thrown) (rest : list (option Js.Thrown)) :
  World.faults w = Some e :: rest ->
  save_table savedDocument table w =
    (Async.Threw e,
     World.mk (World.db w) rest (World.clock w) (World.trace w)).
Proof.
  intros F. unfold save_table. simpl.
  unfold DatabaseStorage.createExtractedTable.
  erewrite bind_threw; [|apply execute_rejected; exact F].
  reflexivity.
Qed.

(** The loop leaves the trace and the clock alone, whatever its outcome. *)
Lemma for_of_save_quiet (tables : list ExtractedTableData.t) (w : World.t) :
  World.trace (snd (Async.for_of tables (save_table savedDocument) w)) = World.trace w /\
  World.clock (snd (Async.for_of tables (save_table savedDocument) w)) = World.clock w.
Proof.
  revert w. induction tables as [|table tables IH]; intros w; simpl; [auto|].
  unfold Async.bind.
  destruct (execute_cases
              (fun (_ : Timestamp) d =>
                 Database.insert_extractedTable
                   (table_values savedDocument table) d) w)
    as [(e & rest & F & _) | [D _]].
  - rewrite (save_table_rejected table w e rest F). simpl. auto.
  - rewrite (save_table_runs 0 table w D).
    match goal with |- context [Async.for_of tables (save_table savedDocument) ?w1] =>
      destruct (IH w1) as [T C] end.
    rewrite T, C. simpl. auto.
Qed.

(** When the driver runs every insert, all tables get saved. *)
Lemma for_of_save_runs (tables : list ExtractedTableData.t) (w : World.t) :
  driver_ok (List.length tables) w = true ->
  Async.for_of tables (save_table savedDocument) w =
    (Async.Returned tt,
     World.mk (insert_all (map (table_values savedDocument) tables)
                          (World.db w))
              (skipn (List.length tables) (World.faults w))
              (World.clock w) (World.trace w)).
Proof.
  revert w. induction tables as [|table tables IH]; intros w D.
  - destruct w. reflexivity.
  - simpl Async.for_of.
    erewrite bind_returned; [|apply (save_table_runs (List.length tables));
                              exact D].
    rewrite IH by (now apply driver_ok_tl). simpl.
    destruct (World.faults w); simpl; [now rewrite skipn_nil | reflexivity].
Qed.

(** The first insert the driver rejects ends the loop: the tables before
    it are saved, the one it was for and those after it are not. *)
Lemma for_of_save_aborts (before after : list ExtractedTableData.t)
    (failed : ExtractedTableData.t) (e : Js.Thrown)
    (rest : list (option Js.Thrown)) (w : World.t) :
  World.faults w = repeat None (List.length before) ++ Some e :: rest ->
  Async.for_of (before ++ failed :: after)
    (save_table savedDocument) w =
    (Async.Threw e,
     World.mk (insert_all (map (table_values savedDocument) before)
                          (World.db w))
              rest (World.clock w) (World.trace w)).
Proof.
  revert w. induction before as [|table before IH]; intros w F.
  - simpl in *. erewrite bind_threw; [|apply save_table_rejected; exact F].
    reflexivity.
  - simpl in F. simpl Async.for_of.
    assert (D : driver_ok 1 w = true) by (unfold driver_ok; now rewrite F).
    erewrite bind_returned; [|apply (save_table_runs 0); exact D].
    rewrite IH by (simpl; now rewrite F). reflexivity.
Qed.

End LoopFacts.

(** A file that comes out of the upload middleware is the whole content
    of a part that arrived in the expected field, passed the file filter
    and is within the size limit. *)
Lemma accept_accepted (field : string) (parts : list Part.t) :
  forall (filesLeft : nat) (file : option MulterFile.t) (f : MulterFile.t),
    Upload.accept field filesLeft file parts = inr (Some f) ->
    file = Some f \/
    exists p,
      In p parts /\ f = Upload.memoryStorage p /\
      Part.fieldname p = field /\
      Part.mimeType p = "application/pdf" /\
      Z.of_nat (List.length (Part.content p)) <= Upload.fileSize.
Proof.
  induction parts as [|p parts IH]; intros filesLeft file f; simpl.
  - intros [= ->]. now left.
  - destruct (String.eqb (Part.filename p) "").
    { intros H. destruct (IH _ _ _ H) as [E | (q & I & R)]; [now left|].
      right. exists q. split; [now right | exact R]. }
    destruct (String.eqb_spec (Part.fieldname p) field) as [Efield|];
      simpl; [|discriminate].
    destruct filesLeft as [|remaining]; [discriminate|].
    unfold Upload.fileFilter.
    destruct (String.eqb_spec (Part.mimeType p) "application/pdf")
      as [Emime|]; [|discriminate].
    destruct (Z.ltb_spec Upload.fileSize
                (Z.of_nat (List.length (Part.content p)))) as [|Hsize];
      [discriminate|].
    intros H. destruct (IH _ _ _ H) as [E | (q & I & R)].
    + injection E as <-. right. exists p. split; [now left|]. auto.
    + right. exists q. split; [now right | exact R].
Qed.

(** A named part that is not a PDF, or is larger than the limit, makes
    the middleware fail, wherever it stands among the parts. *)
Lemma accept_rejects (field : string) (parts : list Part.t) (p : Part.t) :
  In p parts ->
  Part.filename p <> "" ->
  Part.mimeType p <> "application/pdf" \/
  Upload.fileSize < Z.of_nat (List.length (Part.content p)) ->
  forall (filesLeft : nat) (file : option MulterFile.t),
    exists err, Upload.accept field filesLeft file parts = inl err.
Proof.
  intros HIn Hnamed Hbad.
  induction parts as [|q parts IH]; intros filesLeft file; [contradiction|].
  simpl.
  destruct (String.eqb_spec (Part.filename q) "") as [Eq|Nq].
  { destruct HIn as [-> | HIn]; [contradiction|]. now apply IH. }
  destruct (String.eqb (Part.fieldname q) field); simpl; [|eauto].
  destruct filesLeft as [|remaining]; [eauto|].
  unfold Upload.fileFilter.
  destruct (String.eqb_spec (Part.mimeType q) "application/pdf")
    as [Emime|]; [|eauto].
  destruct (Z.ltb_spec Upload.fileSize
              (Z.of_nat (List.length (Part.content q)))) as [|Hsize];
    [eauto|].
  destruct HIn as [-> | HIn]; [|now apply IH].
  destruct Hbad as [Hbad|Hbad]; [contradiction | lia].
Qed.

Section RouteFacts.

Variable extractTablesFromPdf : Buffer -> Js.Thrown + list ExtractedTableData.t.
Variable generateExcelFile : TableData -> Js.Thrown + Buffer.
Variable generateConsolidatedExcel : list TableData -> Js.Thrown + Buffer.
Variable insertPdfDocumentSchema_parse :
  DocumentData.t -> Js.Thrown + InsertPdfDocument.t.
Variable NODE_ENV : option string.

Lemma await_extractTablesFromPdf_eq (pdfBuffer : Buffer) (w : World.t) :
  await_extractTablesFromPdf extractTablesFromPdf pdfBuffer w =
    (match extractTablesFromPdf pdfBuffer with
     | inl e => Async.Threw e
     | inr tables => Async.Returned tables
     end,
     World.mk (World.db w) (World.faults w) (World.clock w)
       (World.trace w ++ [CallExtractTablesFromPdf pdfBuffer])).
Proof.
  unfold await_extractTablesFromPdf, Async.bind. rewrite emit_eq.
  now destruct (extractTablesFromPdf pdfBuffer).
Qed.

Lemma await_generateExcelFile_eq (tableData : TableData) (w : World.t) :
  await_generateExcelFile generateExcelFile tableData w =
    (match generateExcelFile tableData with
     | inl e => Async.Threw e
     | inr excelBuffer => Async.Returned excelBuffer
     end,
     World.mk (World.db w) (World.faults w) (World.clock w)
       (World.trace w ++ [CallGenerateExcelFile tableData])).
Proof.
  unfold await_generateExcelFile, Async.bind. rewrite emit_eq.
  now destruct (generateExcelFile tableData).
Qed.

Lemma await_generateConsolidatedExcel_eq (tables : list TableData)
    (w : World.t) :
  await_generateConsolidatedExcel generateConsolidatedExcel tables w =
    (match generateConsolidatedExcel tables with
     | inl e => Async.Threw e
     | inr excelBuffer => Async.Returned excelBuffer
     end,
     World.mk (World.db w) (World.faults w) (World.clock w)
       (World.trace w ++ [CallGenerateConsolidatedExcel tables])).
Proof.
  unfold await_generateConsolidatedExcel, Async.bind. rewrite emit_eq.
  now destruct (generateConsolidatedExcel tables).
Qed.

(** The handler up to the point where the document has been saved. *)
Lemma extract_handler_saved (req : Request.t) (file : MulterFile.t)
    (w : World.t) (tables : list ExtractedTableData.t)
    (validated : InsertPdfDocument.t) :
  Request.file req = Some file ->
  extractTablesFromPdf (MulterFile.buffer file) = inr tables ->
  insertPdfDocumentSchema_parse (document_data file w) = inr validated ->
  driver_ok 1 w = true ->
  extract_handler extractTablesFromPdf insertPdfDocumentSchema_parse req w =
    let w1 :=
      World.mk (database_with_document validated w) (tl (World.faults w))
        (World.clock w)
        (World.trace w
         ++ [CallExtractTablesFromPdf (MulterFile.buffer file)]) in
    let saved := saved_document validated w in
    match Async.for_of tables (save_table saved) w1 with
    | (Async.Returned _, w2) =>
        respond 200
          (ExtractBody (PdfDocument.id saved) (PdfDocument.filename saved)
             (PdfDocument.filesize saved) (PdfDocument.uploadDate saved)
             tables) w2
    | (Async.Threw e, w2) =>
        respond 500 (ErrorBody (Js.message_or "Unknown error" e)) w2
    end.
Proof.
  intros Hfile Hext Hparse D.
  unfold extract_handler, Async.try_catch. rewrite Hfile.
  erewrite bind_returned;
    [|rewrite await_extractTablesFromPdf_eq, Hext; reflexivity].
  erewrite bind_returned; [|reflexivity].
  simpl World.clock. fold (document_data file w). rewrite Hparse.
  erewrite bind_returned; [|reflexivity].
  simpl IStorage.createPdfDocument. unfold DatabaseStorage.createPdfDocument.
  erewrite bind_returned; [|apply (execute_runs _ 0); exact D].
  simpl World.db. simpl World.clock. simpl World.faults. simpl World.trace.
  fold (saved_document validated w). fold (database_with_document validated w).
  unfold Async.bind.
  destruct (Async.for_of tables _ _) as [[[]|e] w2]; reflexivity.
Qed.

(** When validation accepts the document and the driver runs every
    insert, the document and all extracted tables are saved and the
    answer is 200 with the tables. *)
Lemma extract_handler_all_saved (req : Request.t) (file : MulterFile.t)
    (w : World.t) (tables : list ExtractedTableData.t)
    (validated : InsertPdfDocument.t) :
  Request.file req = Some file ->
  extractTablesFromPdf (MulterFile.buffer file) = inr tables ->
  insertPdfDocumentSchema_parse (document_data file w) = inr validated ->
  driver_ok (S (List.length tables)) w = true ->
  let saved := saved_document validated w in
  extract_handler extractTablesFromPdf insertPdfDocumentSchema_parse req w =
    (Async.Returned tt,
     World.mk
       (insert_all (map (table_values saved) tables)
          (database_with_document validated w))
       (skipn (S (List.length tables)) (World.faults w)) (World.clock w)
       (World.trace w
        ++ [CallExtractTablesFromPdf (MulterFile.buffer file);
            Status 200;
            Json (ExtractBody (PdfDocument.id saved)
                    (PdfDocument.filename saved) (PdfDocument.filesize saved)
                    (PdfDocument.uploadDate saved) tables)])).
Proof.
  intros Hfile Hext Hparse D saved.
  assert (D1 : driver_ok 1 w = true).
  { unfold driver_ok in *. destruct (World.faults w) as [|[?|] ?];
      simpl in *; [reflexivity | discriminate | reflexivity]. }
  rewrite (extract_handler_saved req file w tables validated
             Hfile Hext Hparse D1).
  cbv zeta. rewrite for_of_save_runs by (now apply driver_ok_tl).
  rewrite respond_eq. simpl. rewrite <- app_assoc.
  destruct (World.faults w); simpl; [now rewrite skipn_nil | reflexivity].
Qed.

(** C6: when [extractTablesFromPdf] throws, the extract handler returns
    normally, having answered 500 with the thrown error's message (or
    ['Unknown error'] for a thrown value that is not an [Error]) and no
    table; no statement reaches the database, so no document and no table
    record is added. *)
Theorem extract_handler_unreadable_document (req : Request.t)
    (file : MulterFile.t) (w : World.t) (e : Js.Thrown) :
  Request.file req = Some file ->
  extractTablesFromPdf (MulterFile.buffer file) = inl e ->
  extract_handler extractTablesFromPdf insertPdfDocumentSchema_parse req w =
    (Async.Returned tt,
     World.mk (World.db w) (World.faults w) (World.clock w)
       (World.trace w
        ++ [CallExtractTablesFromPdf (MulterFile.buffer file);
            Status 500;
            Json (ErrorBody (Js.message_or "Unknown error" e))])).
Proof.
  intros Hfile Hext.
  unfold extract_handler, Async.try_catch. rewrite Hfile.
  erewrite bind_threw;
    [|rewrite await_extractTablesFromPdf_eq, Hext; reflexivity].
  rewrite respond_eq. simpl. now rewrite <- app_assoc.
Qed.

(** C3: when [extractTablesFromPdf] returns no table, and validation and
    the insert of the document go through, the extract handler saves the
    document record, saves no table row, and answers 200 with an empty
    [tables] array. *)
Theorem extract_handler_no_tables (req : Request.t) (file : MulterFile.t)
    (w : World.t) (validated : InsertPdfDocument.t) :
  Request.file req = Some file ->
  extractTablesFromPdf (MulterFile.buffer file) = inr [] ->
  insertPdfDocumentSchema_parse (document_data file w) = inr validated ->
  driver_ok 1 w = true ->
  let saved := saved_document validated w in
  let r := extract_handler extractTablesFromPdf insertPdfDocumentSchema_parse
             req w in
  fst r = Async.Returned tt /\
  Database.pdfDocuments (World.db (snd r))
    = Database.pdfDocuments (World.db w) ++ [saved] /\
  Database.extractedTables (World.db (snd r))
    = Database.extractedTables (World.db w) /\
  World.trace (snd r)
    = World.trace w
      ++ [CallExtractTablesFromPdf (MulterFile.buffer file);
          Status 200;
          Json (ExtractBody (PdfDocument.id saved)
                  (PdfDocument.filename saved) (PdfDocument.filesize saved)
                  (PdfDocument.uploadDate saved) [])].
Proof.
  intros Hfile Hext Hparse D saved r. subst r.
  rewrite (extract_handler_saved req file w [] validated Hfile Hext Hparse D).
  cbv zeta. simpl Async.for_of. unfold Async.ret. rewrite respond_eq.
  simpl. fold saved. rewrite <- app_assoc. auto.
Qed.

(** C2, as the code has it: persistence is sequential with first-failure
    abort.  When the document was saved and the driver rejects the insert
    of one table, the handler answers 500 with that failure's message and
    nothing else; the document and the tables before the rejected one stay
    saved, the rejected one and those after it are not saved, and no
    further statement is sent. *)
Theorem extract_handler_first_failure_aborts (req : Request.t)
    (file : MulterFile.t) (w : World.t)
    (before after : list ExtractedTableData.t) (failed : ExtractedTableData.t)
    (validated : InsertPdfDocument.t) (e : Js.Thrown)
    (rest : list (option Js.Thrown)) :
  Request.file req = Some file ->
  extractTablesFromPdf (MulterFile.buffer file)
    = inr (before ++ failed :: after) ->
  insertPdfDocumentSchema_parse (document_data file w) = inr validated ->
  World.faults w
    = None :: repeat None (List.length before) ++ Some e :: rest ->
  extract_handler extractTablesFromPdf insertPdfDocumentSchema_parse req w =
    (Async.Returned tt,
     World.mk
       (insert_all
          (map (table_values (saved_document validated w)) before)
          (database_with_document validated w))
       rest (World.clock w)
       (World.trace w
        ++ [CallExtractTablesFromPdf (MulterFile.buffer file);
            Status 500;
            Json (ErrorBody (Js.message_or "Unknown error" e))])).
Proof.
  intros Hfile Hext Hparse F.
  assert (D : driver_ok 1 w = true) by (unfold driver_ok; now rewrite F).
  rewrite (extract_handler_saved req file w _ validated Hfile Hext Hparse D).
  cbv zeta.
  rewrite (for_of_save_aborts _ before after failed e rest)
    by (simpl; now rewrite F).
  rewrite respond_eq. simpl. now rewrite <- app_assoc.
Qed.

(** Every path through [GET /api/tables/:id/excel]. *)
Lemma table_excel_handler_paths (req : Request.t) (w : World.t) :
  table_excel_handler generateExcelFile req w =
    let out faults events :=
      (Async.Returned tt,
       World.mk (World.db w) faults (World.clock w)
                (World.trace w ++ events)) in
    match Js.parseInt (Request.params_id req) with
    | None =>
        out (World.faults w)
            [Status 400; Json (ErrorBody "Invalid table ID")]
    | Some tableId =>
        match World.faults w with
        | Some _ :: rest =>
            out rest
                [Status 500; Json (ErrorBody "Failed to generate Excel file")]
        | _ =>
            match hd_error (Database.where_eq ExtractedTable.id tableId
                              (Database.extractedTables (World.db w))) with
            | None =>
                out (tl (World.faults w))
                    [Status 404; Json (ErrorBody "Table not found")]
            | Some table =>
                match generateExcelFile (ExtractedTable.tableData table) with
                | inl _ =>
                    out (tl (World.faults w))
                        [CallGenerateExcelFile (ExtractedTable.tableData table);
                         Status 500;
                         Json (ErrorBody "Failed to generate Excel file")]
                | inr excelBuffer =>
                    out (tl (World.faults w))
                        [CallGenerateExcelFile (ExtractedTable.tableData table);
                         SetHeader "Content-Type" xlsx_content_type;
                         SetHeader "Content-Disposition"
                           ("attachment; filename=table-"
                            ++ Js.number_to_string tableId ++ ".xlsx")%string;
                         Status 200;
                         Send excelBuffer]
                end
            end
        end
    end.
Proof.
  cbv zeta. unfold table_excel_handler, Async.try_catch.
  destruct (Js.parseInt (Request.params_id req)) as [tableId|];
    [|now rewrite respond_eq].
  simpl IStorage.getExtractedTable. unfold DatabaseStorage.getExtractedTable.
  assert (Runs : driver_ok 1 w = true ->
    forall k : option ExtractedTable.t -> Async.t unit,
      Async.bind
        (Async.execute (fun (_ : Timestamp) d =>
           (hd_error (Database.where_eq ExtractedTable.id tableId
                        (Database.extractedTables d)), d))) k w
      = k (hd_error (Database.where_eq ExtractedTable.id tableId
                       (Database.extractedTables (World.db w))))
          (World.mk (World.db w) (tl (World.faults w)) (World.clock w)
                    (World.trace w))).
  { intros D k. erewrite bind_returned; [|apply (execute_runs _ 0 w D)].
    reflexivity. }
  assert (Tail : forall (table : option ExtractedTable.t) w1,
    (let (o, w') :=
       match table with
       | None => respond 404 (ErrorBody "Table not found")
       | Some table =>
           excelBuffer <-
             await_generateExcelFile generateExcelFile
               (ExtractedTable.tableData table) ;;
           setHeader "Content-Type" xlsx_content_type ;;
           setHeader "Content-Disposition"
             ("attachment; filename=table-"
              ++ Js.number_to_string tableId ++ ".xlsx")%string ;;
           Async.emit (Status 200) ;;
           Async.emit (Send excelBuffer)
       end w1 in
     match o with
     | Async.Returned a => (Async.Returned a, w')
     | Async.Threw _ =>
         respond 500 (ErrorBody "Failed to generate Excel file") w'
     end) =
    match table with
    | None =>
        (Async.Returned tt,
         World.mk (World.db w1) (World.faults w1) (World.clock w1)
           (World.trace w1 ++ [Status 404; Json (ErrorBody "Table not found")]))
    | Some table =>
        match generateExcelFile (ExtractedTable.tableData table) with
        | inl _ =>
            (Async.Returned tt,
             World.mk (World.db w1) (World.faults w1) (World.clock w1)
               (World.trace w1
                ++ [CallGenerateExcelFile (ExtractedTable.tableData table);
                    Status 500;
                    Json (ErrorBody "Failed to generate Excel file")]))
        | inr excelBuffer =>
            (Async.Returned tt,
             World.mk (World.db w1) (World.faults w1) (World.clock w1)
               (World.trace w1
                ++ [CallGenerateExcelFile (ExtractedTable.tableData table);
                    SetHeader "Content-Type" xlsx_content_type;
                    SetHeader "Content-Disposition"
                      ("attachment; filename=table-"
                       ++ Js.number_to_string tableId ++ ".xlsx")%string;
                    Status 200;
                    Send excelBuffer]))
        end
    end).
  { intros [table|] w1; [|now rewrite respond_eq].
    unfold Async.bind at 1. rewrite await_generateExcelFile_eq.
    destruct (generateExcelFile (ExtractedTable.tableData table))
      as [e|excelBuffer].
    - rewrite respond_eq. simpl. now rewrite <- app_assoc.
    - unfold Async.bind.
      rewrite (setHeader_accepted "Content-Type" xlsx_content_type)
        by reflexivity.
      rewrite (setHeader_accepted "Content-Disposition")
        by apply table_header_ok.
      rewrite !emit_eq. simpl.
      now rewrite <- !app_assoc. }
  destruct (World.faults w) as [|[e|] rest] eqn:F.
  - rewrite Runs by (unfold driver_ok; now rewrite F).
    rewrite Tail. reflexivity.
  - erewrite bind_threw; [|apply execute_rejected; exact F].
    now rewrite respond_eq.
  - rewrite Runs by (unfold driver_ok; now rewrite F).
    rewrite Tail. reflexivity.
Qed.

(** Every path through [GET /api/documents/:id/excel]. *)
Lemma document_excel_handler_paths (req : Request.t) (w : World.t) :
  document_excel_handler generateConsolidatedExcel req w =
    let out faults events :=
      (Async.Returned tt,
       World.mk (World.db w) faults (World.clock w)
                (World.trace w ++ events)) in
    match Js.parseInt (Request.params_id req) with
    | None =>
        out (World.faults w)
            [Status 400; Json (ErrorBody "Invalid document ID")]
    | Some documentId =>
        match World.faults w with
        | Some _ :: rest =>
            out rest
                [Status 500; Json (ErrorBody "Failed to generate Excel file")]
        | _ =>
            match hd_error (Database.where_eq PdfDocument.id documentId
                              (Database.pdfDocuments (World.db w))) with
            | None =>
                out (tl (World.faults w))
                    [Status 404; Json (ErrorBody "Document not found")]
            | Some document =>
                match tl (World.faults w) with
                | Some _ :: rest =>
                    out rest
                        [Status 500;
                         Json (ErrorBody "Failed to generate Excel file")]
                | _ =>
                    let tables :=
                      map DatabaseStorage.toExtractedTableData
                        (DatabaseStorage.selectByDocumentId documentId
                           (World.db w)) in
                    if Z.of_nat (List.length tables) =? 0 then
                      out (tl (tl (World.faults w)))
                          [Status 404;
                           Json (ErrorBody "No tables found in document")]
                    else
                      match generateConsolidatedExcel
                              (map ExtractedTableData.data tables) with
                      | inl _ =>
                          out (tl (tl (World.faults w)))
                              [CallGenerateConsolidatedExcel
                                 (map ExtractedTableData.data tables);
                               Status 500;
                               Json (ErrorBody "Failed to generate Excel file")]
                      | inr excelBuffer =>
                          let disposition :=
                            ("attachment; filename="
                             ++ Js.replace ".pdf" ""
                                  (PdfDocument.filename document)
                             ++ "-tables.xlsx")%string in
                          if Http.checkInvalidHeaderChar disposition then
                            out (tl (tl (World.faults w)))
                                [CallGenerateConsolidatedExcel
                                   (map ExtractedTableData.data tables);
                                 SetHeader "Content-Type" xlsx_content_type;
                                 Status 500;
                                 Json (ErrorBody
                                         "Failed to generate Excel file")]
                          else
                            out (tl (tl (World.faults w)))
                                [CallGenerateConsolidatedExcel
                                   (map ExtractedTableData.data tables);
                                 SetHeader "Content-Type" xlsx_content_type;
                                 SetHeader "Content-Disposition" disposition;
                                 Status 200;
                                 Send excelBuffer]
                      end
                end
            end
        end
    end.
Proof.
  cbv zeta. unfold document_excel_handler, Async.try_catch.
  destruct (Js.parseInt (Request.params_id req)) as [documentId|];
    [|now rewrite respond_eq].
  simpl IStorage.getPdfDocument. unfold DatabaseStorage.getPdfDocument.
  simpl IStorage.getExtractedTablesByDocumentId.
  unfold DatabaseStorage.getExtractedTablesByDocumentId.
  destruct (World.faults w) as [|[e|] rest] eqn:F;
    [ | erewrite bind_threw; [|apply execute_rejected; exact F];
        now rewrite respond_eq | ].
  all: erewrite bind_returned;
         [|apply (execute_runs _ 0 w); unfold driver_ok; now rewrite F].
  all: cbn [fst snd]; rewrite F; cbn [tl].
  all: destruct (hd_error (Database.where_eq PdfDocument.id documentId _))
         as [document|]; [|now rewrite respond_eq].
  2: destruct rest as [|[e|] rest];
       [ | erewrite bind_threw;
             [|erewrite bind_threw;
                 [reflexivity | apply execute_rejected; reflexivity]];
           now rewrite respond_eq | ].
  all: erewrite bind_returned;
         [|erewrite bind_returned;
             [reflexivity | apply (execute_runs _ 0); reflexivity]].
  all: cbn [fst snd tl World.db World.faults World.clock World.trace].
  all: destruct (Z.of_nat _ =? 0); [now rewrite respond_eq|].
  all: unfold Async.bind at 1; rewrite await_generateConsolidatedExcel_eq.
  all: destruct (generateConsolidatedExcel _) as [e|excelBuffer];
         [ rewrite respond_eq; simpl; now rewrite <- app_assoc | ].
  all: unfold Async.bind;
       rewrite (setHeader_accepted "Content-Type" xlsx_content_type)
         by reflexivity.
  all: destruct (Http.checkInvalidHeaderChar _) eqn:V;
         [ rewrite (setHeader_refused "Content-Disposition" _ _ V),
             respond_eq; simpl; now rewrite <- !app_assoc
         | rewrite (setHeader_accepted "Content-Disposition" _ _ V),
             !emit_eq; simpl; now rewrite <- !app_assoc ].
Qed.

(** C5: the download handlers never write: whatever happens, the
    database afterwards is the database before.  When the workbook
    generator is invoked during a request and fails, the handler returns
    normally and this request is answered 500
    ['Failed to generate Excel file'], nothing else being sent. *)
Theorem excel_generation_failure_is_request_scoped
    (req : Request.t) (w : World.t) :
  World.db (snd (table_excel_handler generateExcelFile req w)) = World.db w /\
  World.db (snd (document_excel_handler generateConsolidatedExcel req w))
    = World.db w /\
  (forall (tableData : TableData) (e : Js.Thrown),
      In (CallGenerateExcelFile tableData)
         (events_of (table_excel_handler generateExcelFile req) w) ->
      generateExcelFile tableData = inl e ->
      fst (table_excel_handler generateExcelFile req w) = Async.Returned tt /\
      events_of (table_excel_handler generateExcelFile req) w
        = [CallGenerateExcelFile tableData;
           Status 500;
           Json (ErrorBody "Failed to generate Excel file")]) /\
  (forall (tables : list TableData) (e : Js.Thrown),
      In (CallGenerateConsolidatedExcel tables)
         (events_of (document_excel_handler generateConsolidatedExcel req) w) ->
      generateConsolidatedExcel tables = inl e ->
      fst (document_excel_handler generateConsolidatedExcel req w)
        = Async.Returned tt /\
      events_of (document_excel_handler generateConsolidatedExcel req) w
        = [CallGenerateConsolidatedExcel tables;
           Status 500;
           Json (ErrorBody "Failed to generate Excel file")]).
Proof.
  split; [|split; [|split]].
  - rewrite table_excel_handler_paths. cbv zeta.
    repeat match goal with
           | |- context [match ?x with _ => _ end] => destruct x
           end; reflexivity.
  - rewrite document_excel_handler_paths. cbv zeta.
    repeat match goal with
           | |- context [match ?x with _ => _ end] => destruct x
           end; reflexivity.
  - intros tableData e. unfold events_of.
    rewrite table_excel_handler_paths. cbv zeta.
    repeat match goal with
           | |- context [match ?x with _ => _ end] => destruct x eqn:?
           end;
      cbn [fst snd World.trace];
      rewrite skipn_app, skipn_all, Nat.sub_diag; cbn [skipn app];
      intros HIn Hfail;
      repeat (destruct HIn as [HIn|HIn]; try discriminate HIn);
      try contradiction;
      injection HIn as <-; try congruence; auto.
  - intros tables e. unfold events_of.
    rewrite document_excel_handler_paths. cbv zeta.
    repeat match goal with
           | |- context [match ?x with _ => _ end] => destruct x eqn:?
           end;
      cbn [fst snd World.trace];
      rewrite skipn_app, skipn_all, Nat.sub_diag; cbn [skipn app];
      intros HIn Hfail;
      repeat (destruct HIn as [HIn|HIn]; try discriminate HIn);
      try contradiction;
      injection HIn as <-; try congruence; auto.
Qed.

(** C7: whenever a download handler answers 200, it has first set
    [Content-Type] to the xlsx media type, then [Content-Disposition] to
    an attachment with a file name, and only then sent the bytes the
    workbook generator returned. *)
Theorem excel_download_headers (req : Request.t) (w : World.t) :
  (In (Status 200) (events_of (table_excel_handler generateExcelFile req) w) ->
   exists (tableId : Z) (table : ExtractedTable.t) (excelBuffer : Buffer),
     Js.parseInt (Request.params_id req) = Some tableId /\
     In table (Database.extractedTables (World.db w)) /\
     ExtractedTable.id table = tableId /\
     generateExcelFile (ExtractedTable.tableData table) = inr excelBuffer /\
     events_of (table_excel_handler generateExcelFile req) w
       = [CallGenerateExcelFile (ExtractedTable.tableData table);
          SetHeader "Content-Type"
            "application/vnd.openxmlformats-officedocument.spreadsheetml.sheet";
          SetHeader "Content-Disposition"
            ("attachment; filename=table-"
             ++ Js.number_to_string tableId ++ ".xlsx")%string;
          Status 200;
          Send excelBuffer]) /\
  (In (Status 200)
      (events_of (document_excel_handler generateConsolidatedExcel req) w) ->
   exists (document : PdfDocument.t) (tables : list TableData)
          (excelBuffer : Buffer),
     In document (Database.pdfDocuments (World.db w)) /\
     Js.parseInt (Request.params_id req) = Some (PdfDocument.id document) /\
     generateConsolidatedExcel tables = inr excelBuffer /\
     events_of (document_excel_handler generateConsolidatedExcel req) w
       = [CallGenerateConsolidatedExcel tables;
          SetHeader "Content-Type"
            "application/vnd.openxmlformats-officedocument.spreadsheetml.sheet";
          SetHeader "Content-Disposition"
            ("attachment; filename="
             ++ Js.replace ".pdf" "" (PdfDocument.filename document)
             ++ "-tables.xlsx")%string;
          Status 200;
          Send excelBuffer]).
Proof using generateExcelFile generateConsolidatedExcel.
  split.
  - unfold events_of. rewrite table_excel_handler_paths. cbv zeta.
    destruct (Js.parseInt (Request.params_id req)) as [tableId|] eqn:P.
    2: { cbn [fst snd World.trace].
         rewrite skipn_app, skipn_all, Nat.sub_diag. cbn [skipn app].
         intros HIn.
         repeat (destruct HIn as [HIn|HIn]; try discriminate HIn).
         contradiction. }
    destruct (hd_error (Database.where_eq ExtractedTable.id tableId
                (Database.extractedTables (World.db w))))
      as [table|] eqn:Hfound.
    + assert (I : In table (Database.extractedTables (World.db w))
                  /\ ExtractedTable.id table = tableId).
      { apply where_eq_In.
        destruct (Database.where_eq _ _ _); [discriminate|].
        injection Hfound as ->. now left. }
      destruct (generateExcelFile (ExtractedTable.tableData table))
        as [e|excelBuffer] eqn:G;
        destruct (World.faults w) as [|[?|] ?];
        cbn [fst snd World.trace];
        rewrite skipn_app, skipn_all, Nat.sub_diag; cbn [skipn app];
        intros HIn;
        try (repeat (destruct HIn as [HIn|HIn]; try discriminate HIn);
             contradiction).
      all: destruct I as [I E]; exists tableId, table, excelBuffer;
           repeat split; assumption || reflexivity.
    + destruct (World.faults w) as [|[?|] ?];
        cbn [fst snd World.trace];
        rewrite skipn_app, skipn_all, Nat.sub_diag; cbn [skipn app];
        intros HIn;
        repeat (destruct HIn as [HIn|HIn]; try discriminate HIn);
        contradiction.
  - unfold events_of. rewrite document_excel_handler_paths. cbv zeta.
    destruct (Js.parseInt (Request.params_id req)) as [documentId|] eqn:P.
    2: { cbn [fst snd World.trace].
         rewrite skipn_app, skipn_all, Nat.sub_diag. cbn [skipn app].
         intros HIn.
         repeat (destruct HIn as [HIn|HIn]; try discriminate HIn).
         contradiction. }
    destruct (hd_error (Database.where_eq PdfDocument.id documentId
                (Database.pdfDocuments (World.db w))))
      as [document|] eqn:Hfound.
    + assert (I : In document (Database.pdfDocuments (World.db w))
                  /\ PdfDocument.id document = documentId).
      { apply where_eq_In.
        destruct (Database.where_eq _ _ _); [discriminate|].
        injection Hfound as ->. now left. }
      destruct I as [I <-].
      destruct (Z.of_nat _ =? 0);
        [|destruct (generateConsolidatedExcel _) as [e|excelBuffer] eqn:G;
          [|destruct (Http.checkInvalidHeaderChar _)]];
        destruct (World.faults w) as [|[?|] [|[?|] ?]];
        cbn [tl fst snd World.trace];
        rewrite skipn_app, skipn_all, Nat.sub_diag; cbn [skipn app];
        intros HIn;
        try (repeat (destruct HIn as [HIn|HIn]; try discriminate HIn);
             contradiction).
      all: exists document; eexists; exists excelBuffer;
           split; [exact I|]; split; [reflexivity|];
           split; [exact G|]; reflexivity.
    + destruct (World.faults w) as [|[?|] ?];
        cbn [fst snd World.trace];
        rewrite skipn_app, skipn_all, Nat.sub_diag; cbn [skipn app];
        intros HIn;
        repeat (destruct HIn as [HIn|HIn]; try discriminate HIn);
        contradiction.
Qed.

(** C10: for a stored document without any extracted table, the
    consolidated download answers 404 ['No tables found in document'];
    the workbook generator is not invoked and nothing is written. *)
Theorem document_excel_handler_no_tables (req : Request.t) (w : World.t)
    (document : PdfDocument.t) :
  In document (Database.pdfDocuments (World.db w)) ->
  Js.parseInt (Request.params_id req) = Some (PdfDocument.id document) ->
  rows_of_document (PdfDocument.id document) (World.db w) = [] ->
  driver_ok 2 w = true ->
  document_excel_handler generateConsolidatedExcel req w =
    (Async.Returned tt,
     World.mk (World.db w) (tl (tl (World.faults w))) (World.clock w)
       (World.trace w
        ++ [Status 404; Json (ErrorBody "No tables found in document")])).
Proof.
  intros I P Hnone D.
  rewrite document_excel_handler_paths, P. cbv zeta.
  destruct (hd_error (Database.where_eq PdfDocument.id (PdfDocument.id document)
              (Database.pdfDocuments (World.db w)))) as [found|] eqn:Hfound.
  2: { exfalso.
       assert (I' : In document
                      (Database.where_eq PdfDocument.id
                         (PdfDocument.id document)
                         (Database.pdfDocuments (World.db w))))
         by (apply where_eq_In; auto).
       destruct (Database.where_eq _ _ _); [contradiction|discriminate]. }
  unfold DatabaseStorage.selectByDocumentId.
  unfold rows_of_document in Hnone. rewrite Hnone. cbn [Database.orderBy
    fold_right map List.length Z.of_nat Z.eqb].
  unfold driver_ok in D.
  destruct (World.faults w) as [|[?|] [|[?|] ?]];
    simpl in D; try discriminate D; reflexivity.
Qed.

(** What the extract handler emits on any path: the call of the
    extractor on [req.file.buffer], if there is a file, then one
    response. *)
Lemma extract_handler_events (req : Request.t) (w : World.t) :
  exists (code : Z) (body : JsonBody),
    events_of
      (extract_handler extractTablesFromPdf insertPdfDocumentSchema_parse req)
      w
    = match Request.file req with
      | Some file => [CallExtractTablesFromPdf (MulterFile.buffer file)]
      | None => []
      end ++ [Status code; Json body].
Proof.
  destruct (Request.file req) as [file|] eqn:Hfile.
  2: { exists 400, (ErrorBody "No PDF file uploaded").
       apply events_of_app.
       unfold extract_handler, Async.try_catch. rewrite Hfile, respond_eq.
       reflexivity. }
  destruct (extractTablesFromPdf (MulterFile.buffer file))
    as [e|tables] eqn:Hext.
  { eexists _, _. apply events_of_app.
    unfold extract_handler, Async.try_catch. rewrite Hfile.
    erewrite bind_threw;
      [|rewrite await_extractTablesFromPdf_eq, Hext; reflexivity].
    rewrite respond_eq. simpl. rewrite <- app_assoc. reflexivity. }
  destruct (insertPdfDocumentSchema_parse (document_data file w))
    as [e|validated] eqn:Hparse.
  { eexists _, _. apply events_of_app.
    unfold extract_handler, Async.try_catch. rewrite Hfile.
    erewrite bind_returned;
      [|rewrite await_extractTablesFromPdf_eq, Hext; reflexivity].
    erewrite bind_returned; [|reflexivity].
    simpl World.clock. fold (document_data file w). rewrite Hparse.
    erewrite bind_threw; [|reflexivity].
    rewrite respond_eq. simpl. rewrite <- app_assoc. reflexivity. }
  destruct (World.faults w) as [|[e|] rest] eqn:F.
  2: { eexists _, _. apply events_of_app.
       unfold extract_handler, Async.try_catch. rewrite Hfile.
       erewrite bind_returned;
         [|rewrite await_extractTablesFromPdf_eq, Hext; reflexivity].
       erewrite bind_returned; [|reflexivity].
       simpl World.clock. fold (document_data file w). rewrite Hparse.
       erewrite bind_returned; [|reflexivity].
       erewrite bind_threw;
         [|apply execute_rejected; simpl; rewrite F; reflexivity].
       rewrite respond_eq. simpl. rewrite <- app_assoc. reflexivity. }
  all: assert (D : driver_ok 1 w = true)
         by (unfold driver_ok; now rewrite F).
  all: unfold events_of;
       rewrite (extract_handler_saved req file w tables validated
                  Hfile Hext Hparse D); cbv zeta.
  all: match goal with
       | |- context [Async.for_of ?ts (save_table ?d) ?w1] =>
           destruct (for_of_save_quiet d ts w1) as [T _];
           destruct (Async.for_of ts (save_table d) w1) as [[[]|e] w2]
       end.
  all: eexists _, _; rewrite respond_eq; simpl in *;
       rewrite T, <- app_assoc, skipn_app, skipn_all, Nat.sub_diag;
       reflexivity.
Qed.

(** C4: the upload middleware stands between the request and the
    extractor.  Whenever [extractTablesFromPdf] is invoked for a request,
    its argument is the whole content of a part uploaded in field [pdf]
    with media type [application/pdf] and at most 10 MB long; and a named
    part with another media type, or longer than 10 MB, makes the
    middleware fail: the handler does not run, the extractor is not
    invoked, nothing is written, and the error middleware answers. *)
Theorem upload_is_checked_before_extraction
    (parts : list Part.t) (w : World.t) :
  (forall pdfBuffer : Buffer,
      In (CallExtractTablesFromPdf pdfBuffer)
         (events_of
            (post_api_extract extractTablesFromPdf
               insertPdfDocumentSchema_parse NODE_ENV parts) w) ->
      exists p,
        In p parts /\
        Part.fieldname p = "pdf" /\
        Part.mimeType p = "application/pdf" /\
        Part.content p = pdfBuffer /\
        Z.of_nat (List.length pdfBuffer) <= 10 * 1024 * 1024) /\
  (forall p : Part.t,
      In p parts ->
      Part.filename p <> "" ->
      Part.mimeType p <> "application/pdf" \/
      10 * 1024 * 1024 < Z.of_nat (List.length (Part.content p)) ->
      exists err,
        Upload.single "pdf" parts = inl err /\
        post_api_extract extractTablesFromPdf insertPdfDocumentSchema_parse
          NODE_ENV parts w
        = (Async.Returned tt,
           World.mk (World.db w) (World.faults w) (World.clock w)
             (World.trace w
              ++ [Status 500;
                  Json (ErrorEnvelope
                          (Js.message_or_falsy "Internal Server Error" err)
                          (match NODE_ENV with
                           | Some env => String.eqb env "development"
                           | None => false
                           end))]))).
Proof.
  split.
  - intros pdfBuffer. unfold post_api_extract.
    destruct (Upload.single "pdf" parts) as [err|file] eqn:U.
    + erewrite events_of_app
        by (unfold errorHandler; rewrite respond_eq; reflexivity).
      intros HIn.
      repeat (destruct HIn as [HIn|HIn]; try discriminate HIn).
      contradiction.
    + destruct (extract_handler_events (Request.mk file "") w)
        as (code & body & ->).
      cbn [Request.file].
      destruct file as [f|]; cbn [app]; intros HIn;
        repeat (destruct HIn as [HIn|HIn]; try discriminate HIn);
        try contradiction.
      injection HIn as <-.
      destruct (accept_accepted "pdf" parts 1 None f U)
        as [E | (p & I & -> & Ef & Em & Es)]; [discriminate|].
      exists p. simpl. auto.
  - intros p HIn Hnamed Hbad.
    destruct (accept_rejects "pdf" parts p HIn Hnamed Hbad 1 None)
      as [err E].
    exists err. split; [exact E|].
    unfold post_api_extract, Upload.single. rewrite E.
    unfold errorHandler. now rewrite respond_eq.
Qed.

End RouteFacts.

(* ===================================================================== *)
(** * The statements at work on the sample collaborators *)
(* ===================================================================== *)

(** C6 at work: an unreadable upload against a stocked database. *)
Lemma extract_handler_unreadable_document_witness :
  extract_handler Sample.extractTablesFromPdf Sample.parse
    (Request.mk (Some (Sample.file Sample.unreadable)) "")
    (Sample.stocked_with [])
  = (Async.Returned tt,
     World.mk (World.db Sample.stocked) [] (World.clock Sample.stocked)
       [CallExtractTablesFromPdf Sample.unreadable;
        Status 500;
        Json (ErrorBody "Invalid PDF structure")]).
Proof.
  exact (extract_handler_unreadable_document
           Sample.extractTablesFromPdf Sample.parse
           (Request.mk (Some (Sample.file Sample.unreadable)) "")
           (Sample.file Sample.unreadable) (Sample.stocked_with [])
           (Js.Error "Invalid PDF structure") eq_refl eq_refl).
Defined.

(** C3 at work: a PDF without tables uploaded to a fresh database. *)
Lemma extract_handler_no_tables_witness :
  let r := extract_handler Sample.extractTablesFromPdf Sample.parse
             (Request.mk (Some (Sample.file Sample.blank)) "")
             (Sample.fresh []) in
  let saved :=
    PdfDocument.mk 1 "report.pdf" 0 "2025-01-01T00:00:00.000Z" None in
  fst r = Async.Returned tt /\
  Database.pdfDocuments (World.db (snd r)) = [saved] /\
  Database.extractedTables (World.db (snd r)) = [] /\
  World.trace (snd r)
    = [CallExtractTablesFromPdf Sample.blank;
       Status 200;
       Json (ExtractBody 1 "report.pdf" 0 "2025-01-01T00:00:00.000Z" [])].
Proof.
  exact (extract_handler_no_tables
           Sample.extractTablesFromPdf Sample.parse
           (Request.mk (Some (Sample.file Sample.blank)) "")
           (Sample.file Sample.blank) (Sample.fresh [])
           (InsertPdfDocument.mk "report.pdf" 0 None)
           eq_refl eq_refl eq_refl eq_refl).
Defined.

(** C2 as stated fails: with two extracted tables and the driver
    rejecting the second insert, the first table is saved but the only
    response is the 500 error, which lists no item. *)
Lemma per_item_aggregation_counterexample :
  ~ per_item_aggregation
      (extract_handler Sample.extractTablesFromPdf Sample.parse).
Proof.
  intros H.
  destruct (H (Request.mk (Some (Sample.file Sample.pdf)) "")
              (Sample.fresh [None; None; Some (Js.Error "connection lost")])
              (ExtractedTable.mk 1 1 0 1 Sample.people (Sample.info 1 0)))
    as (body & HIn & Hlists).
  - left. reflexivity.
  - intros [].
  - repeat (destruct HIn as [HIn|HIn]; try discriminate HIn);
      try contradiction.
    injection HIn as <-. exact Hlists.
Qed.

(** C2 as the code has it, at work on the same request. *)
Lemma extract_handler_first_failure_aborts_witness :
  extract_handler Sample.extractTablesFromPdf Sample.parse
    (Request.mk (Some (Sample.file Sample.pdf)) "")
    (Sample.fresh [None; None; Some (Js.Error "connection lost"); None])
  = (Async.Returned tt,
     World.mk
       (Database.mk
          [PdfDocument.mk 1 "report.pdf" 4 "2025-01-01T00:00:00.000Z" None] 1
          [ExtractedTable.mk 1 1 0 1 Sample.people (Sample.info 1 0)] 1)
       [None] "2025-01-01T00:00:00.000Z"
       [CallExtractTablesFromPdf Sample.pdf;
        Status 500;
        Json (ErrorBody "connection lost")]).
Proof.
  exact (extract_handler_first_failure_aborts
           Sample.extractTablesFromPdf Sample.parse
           (Request.mk (Some (Sample.file Sample.pdf)) "")
           (Sample.file Sample.pdf)
           (Sample.fresh [None; None; Some (Js.Error "connection lost"); None])
           [Sample.table0] [] Sample.table1
           (InsertPdfDocument.mk "report.pdf" 4 None)
           (Js.Error "connection lost") [None]
           eq_refl eq_refl eq_refl eq_refl).
Defined.

(** C5 at work: table 4 has no rows and document 3 holds only that
    table, so both generators fail. *)
Lemma excel_generation_failure_is_request_scoped_witness :
  (fst (table_excel_handler Sample.generateExcelFile (Request.mk None "4")
          (Sample.stocked_with []))
   = Async.Returned tt /\
   events_of (table_excel_handler Sample.generateExcelFile
                (Request.mk None "4")) (Sample.stocked_with [])
   = [CallGenerateExcelFile [];
      Status 500;
      Json (ErrorBody "Failed to generate Excel file")]) /\
  (fst (document_excel_handler Sample.generateConsolidatedExcel
          (Request.mk None "3") (Sample.stocked_with []))
   = Async.Returned tt /\
   events_of (document_excel_handler Sample.generateConsolidatedExcel
                (Request.mk None "3")) (Sample.stocked_with [])
   = [CallGenerateConsolidatedExcel [[]];
      Status 500;
      Json (ErrorBody "Failed to generate Excel file")]).
Proof.
  split.
  - exact (proj1 (proj2 (proj2
             (excel_generation_failure_is_request_scoped
                Sample.generateExcelFile Sample.generateConsolidatedExcel
                (Request.mk None "4") (Sample.stocked_with []))))
             [] (Js.Error "Cannot write an empty sheet")
             (or_introl eq_refl) eq_refl).
  - exact (proj2 (proj2 (proj2
             (excel_generation_failure_is_request_scoped
                Sample.generateExcelFile Sample.generateConsolidatedExcel
                (Request.mk None "3") (Sample.stocked_with []))))
             [[]] (Js.Error "Cannot write an empty sheet")
             (or_introl eq_refl) eq_refl).
Defined.

(** C7 at work: the download of table 1 and of document 1. *)
Lemma excel_download_headers_witness :
  (exists (tableId : Z) (table : ExtractedTable.t) (excelBuffer : Buffer),
     Js.parseInt "1" = Some tableId /\
     In table (Database.extractedTables (World.db Sample.stocked)) /\
     ExtractedTable.id table = tableId /\
     Sample.generateExcelFile (ExtractedTable.tableData table)
       = inr excelBuffer /\
     events_of (table_excel_handler Sample.generateExcelFile
                  (Request.mk None "1")) (Sample.stocked_with [])
       = [CallGenerateExcelFile (ExtractedTable.tableData table);
          SetHeader "Content-Type"
            "application/vnd.openxmlformats-officedocument.spreadsheetml.sheet";
          SetHeader "Content-Disposition"
            ("attachment; filename=table-"
             ++ Js.number_to_string tableId ++ ".xlsx")%string;
          Status 200;
          Send excelBuffer]) /\
  (exists (document : PdfDocument.t) (tables : list TableData)
          (excelBuffer : Buffer),
     In document (Database.pdfDocuments (World.db Sample.stocked)) /\
     Js.parseInt "1" = Some (PdfDocument.id document) /\
     Sample.generateConsolidatedExcel tables = inr excelBuffer /\
     events_of (document_excel_handler Sample.generateConsolidatedExcel
                  (Request.mk None "1")) (Sample.stocked_with [])
       = [CallGenerateConsolidatedExcel tables;
          SetHeader "Content-Type"
            "application/vnd.openxmlformats-officedocument.spreadsheetml.sheet";
          SetHeader "Content-Disposition"
            ("attachment; filename="
             ++ Js.replace ".pdf" "" (PdfDocument.filename document)
             ++ "-tables.xlsx")%string;
          Status 200;
          Send excelBuffer]).
Proof.
  split.
  - apply (proj1 (excel_download_headers
                    Sample.generateExcelFile Sample.generateConsolidatedExcel
                    (Request.mk None "1") (Sample.stocked_with []))).
    do 3 right. left. reflexivity.
  - apply (proj2 (excel_download_headers
                    Sample.generateExcelFile Sample.generateConsolidatedExcel
                    (Request.mk None "1") (Sample.stocked_with []))).
    do 3 right. left. reflexivity.
Defined.

(** C10 at work: document 2 is stored and has no table. *)
Lemma document_excel_handler_no_tables_witness :
  document_excel_handler Sample.generateConsolidatedExcel
    (Request.mk None "2") (Sample.stocked_with [])
  = (Async.Returned tt,
     World.mk (World.db Sample.stocked) [] (World.clock Sample.stocked)
       [Status 404; Json (ErrorBody "No tables found in document")]).
Proof.
  exact (document_excel_handler_no_tables Sample.generateConsolidatedExcel
           (Request.mk None "2") (Sample.stocked_with [])
           (PdfDocument.mk 2 "empty.pdf" 0 "2025-01-01T00:00:00.000Z" None)
           (or_intror (or_introl eq_refl)) eq_refl eq_refl eq_refl).
Defined.

(** C4 at work: a PDF part reaches the extractor whole; a text part is
    turned away by the file filter and the error middleware answers. *)
Lemma upload_is_checked_before_extraction_witness :
  (exists p,
     In p [Sample.part "application/pdf" Sample.pdf] /\
     Part.fieldname p = "pdf" /\
     Part.mimeType p = "application/pdf" /\
     Part.content p = Sample.pdf /\
     Z.of_nat (List.length Sample.pdf) <= 10 * 1024 * 1024) /\
  (exists err,
     Upload.single "pdf" [Sample.part "text/plain" Sample.pdf] = inl err /\
     post_api_extract Sample.extractTablesFromPdf Sample.parse None
       [Sample.part "text/plain" Sample.pdf] (Sample.fresh [])
     = (Async.Returned tt,
        World.mk Database.empty [] "2025-01-01T00:00:00.000Z"
          [Status 500;
           Json (ErrorEnvelope
                   (Js.message_or_falsy "Internal Server Error" err)
                   false)])).
Proof.
  split.
  - apply (proj1 (upload_is_checked_before_extraction
                    Sample.extractTablesFromPdf Sample.parse None
                    [Sample.part "application/pdf" Sample.pdf]
                    (Sample.fresh []))).
    left. reflexivity.
  - apply (proj2 (upload_is_checked_before_extraction
                    Sample.extractTablesFromPdf Sample.parse None
                    [Sample.part "text/plain" Sample.pdf]
                    (Sample.fresh []))
             (Sample.part "text/plain" Sample.pdf)).
    + left. reflexivity.
    + discriminate.
    + left. discriminate.
Defined.

(* ===================================================================== *)
(** * More of storage.ts *)
(* ===================================================================== *)

Lemma ascii_compare_lt_trans (a b c : ascii) :
  Ascii.compare a b = Lt -> Ascii.compare b c = Lt -> Ascii.compare a c = Lt.
Proof.
  unfold Ascii.compare. rewrite !N.compare_lt_iff. apply N.lt_trans.
Qed.

Lemma string_compare_lt_trans (s1 : string) :
  forall s2 s3 : string,
    String.compare s1 s2 = Lt -> String.compare s2 s3 = Lt ->
    String.compare s1 s3 = Lt.
Proof.
  induction s1 as [|a s1 IH]; intros [|b s2] [|c s3]; simpl;
    try discriminate; auto.
  destruct (Ascii.compare a b) eqn:Eab; try discriminate;
    destruct (Ascii.compare b c) eqn:Ebc; try discriminate; intros H1 H2.
  - apply Ascii.compare_eq_iff in Eab, Ebc. subst.
    assert (E : Ascii.compare c c = Eq)
      by (unfold Ascii.compare; apply N.compare_refl).
    rewrite E. eauto.
  - apply Ascii.compare_eq_iff in Eab. subst. now rewrite Ebc.
  - apply Ascii.compare_eq_iff in Ebc. subst. now rewrite Eab.
  - now rewrite (ascii_compare_lt_trans a b c Eab Ebc).
Qed.

Lemma string_compare_refl (s : string) : String.compare s s = Eq.
Proof.
  induction s as [|a s IH]; simpl; [reflexivity|].
  assert (E : Ascii.compare a a = Eq)
    by (unfold Ascii.compare; apply N.compare_refl).
  now rewrite E.
Qed.

Lemma string_leb_trans (s1 s2 s3 : string) :
  String.leb s1 s2 = true -> String.leb s2 s3 = true ->
  String.leb s1 s3 = true.
Proof.
  unfold String.leb.
  destruct (String.compare s1 s2) eqn:E12; try discriminate;
    destruct (String.compare s2 s3) eqn:E23; try discriminate; intros _ _.
  - apply String.compare_eq_iff in E12, E23. subst.
    now rewrite string_compare_refl.
  - apply String.compare_eq_iff in E12. subst. now rewrite E23.
  - apply String.compare_eq_iff in E23. subst. now rewrite E12.
  - now rewrite (string_compare_lt_trans _ _ _ E12 E23).
Qed.

Section DescFacts.

Context {R : Type}.
Variable column : R -> Timestamp.

Lemma order_insert_desc_perm (r : R) (sorted : list R) :
  Permutation (order_insert_desc column r sorted) (r :: sorted).
Proof.
  induction sorted as [|r' rest IH]; simpl; [reflexivity|].
  destruct (String.leb (column r') (column r)); [reflexivity|].
  rewrite IH. apply perm_swap.
Qed.

Lemma orderBy_desc_perm (rows : list R) :
  Permutation (orderBy_desc column rows) rows.
Proof.
  induction rows as [|r rows IH]; simpl; [reflexivity|].
  unfold orderBy_desc in *. simpl.
  rewrite order_insert_desc_perm. now constructor.
Qed.

Lemma order_insert_desc_sorted (r : R) (sorted : list R) :
  StronglySorted (recent_first column) sorted ->
  StronglySorted (recent_first column) (order_insert_desc column r sorted).
Proof.
  induction sorted as [|r' rest IH]; simpl; intros S.
  - repeat constructor.
  - inversion S as [|x xs Srest Hall]; subst.
    destruct (String.leb (column r') (column r)) eqn:L.
    + constructor; [exact S|]. constructor; [exact L|].
      eapply Forall_impl; [|exact Hall].
      unfold recent_first. intros a Ha.
      eapply string_leb_trans; [exact Ha | exact L].
    + constructor; [now apply IH|].
      eapply Permutation_Forall;
        [apply Permutation_sym, order_insert_desc_perm|].
      constructor; [|exact Hall].
      unfold recent_first.
      destruct (String.leb_total (column r) (column r')) as [H|H];
        [exact H | congruence].
Qed.

Lemma orderBy_desc_sorted (rows : list R) :
  StronglySorted (recent_first column) (orderBy_desc column rows).
Proof.
  induction rows as [|r rows IH]; simpl; [constructor|].
  now apply order_insert_desc_sorted.
Qed.

End DescFacts.

(** X1: [getAllPdfDocuments] returns every stored document exactly once,
    the most recently uploaded first, and leaves the database as it was;
    it only fails to return when the driver rejects the query. *)
Theorem getAllPdfDocuments_recent_first (w : World.t) :
  World.db (snd (getAllPdfDocuments w)) = World.db w /\
  match fst (getAllPdfDocuments w) with
  | Async.Returned documents =>
      StronglySorted (recent_first PdfDocument.uploadDate) documents /\
      Permutation documents (Database.pdfDocuments (World.db w))
  | Async.Threw e => hd_error (World.faults w) = Some (Some e)
  end.
Proof.
  unfold getAllPdfDocuments.
  match goal with |- context [Async.execute ?s w] =>
    destruct (execute_cases s w) as [(e & rest & F & ->) | [_ ->]] end;
    simpl.
  - split; [reflexivity|]. now rewrite F.
  - split; [reflexivity|]. split.
    + apply orderBy_desc_sorted.
    + apply orderBy_desc_perm.
Qed.

Lemma db_step_document_keys_ok (d d' : Database.t) :
  db_step d d' -> document_keys_ok d -> document_keys_ok d'.
Proof.
  intros [|now filename filesize userId|v] K; try exact K.
  destruct K as [ND B]. unfold document_keys_ok. simpl. split.
  - rewrite map_app. simpl.
    eapply Permutation_NoDup; [apply Permutation_cons_append|].
    constructor; [|exact ND].
    rewrite in_map_iff. intros (r & E & I).
    rewrite Forall_forall in B. specialize (B r I). lia.
  - apply Forall_app. split.
    + eapply Forall_impl; [|exact B]. simpl. intros; lia.
    + repeat constructor. simpl. lia.
Qed.

Lemma db_step_keeps_documents (d d' : Database.t) (document : PdfDocument.t) :
  db_step d d' ->
  In document (Database.pdfDocuments d) ->
  In document (Database.pdfDocuments d').
Proof.
  intros [| |v] I; simpl; auto. apply in_or_app. now left.
Qed.

Lemma perform_all_keeps_documents (cs : list StorageCall) (w : World.t)
    (document : PdfDocument.t) :
  document_keys_ok (World.db w) ->
  In document (Database.pdfDocuments (World.db w)) ->
  document_keys_ok (World.db (perform_all cs w)) /\
  In document (Database.pdfDocuments (World.db (perform_all cs w))).
Proof.
  revert w. induction cs as [|c cs IH]; intros w K I; simpl; [auto|].
  apply IH.
  - eapply db_step_document_keys_ok; [apply perform_db_step | exact K].
  - eapply db_step_keeps_documents; [apply perform_db_step | exact I].
Qed.

(** The outcome of [getPdfDocument]. *)
Lemma getPdfDocument_outcome (id : Z) (w : World.t) :
  match fst (IStorage.getPdfDocument storage id w) with
  | Async.Returned found =>
      found = hd_error (Database.where_eq PdfDocument.id id
                          (Database.pdfDocuments (World.db w)))
  | Async.Threw e => hd_error (World.faults w) = Some (Some e)
  end.
Proof.
  simpl. unfold DatabaseStorage.getPdfDocument.
  match goal with |- context [Async.execute ?s w] =>
    destruct (execute_cases s w) as [(e & rest & F & ->) | [_ ->]] end;
    simpl.
  - now rewrite F.
  - reflexivity.
Qed.

(** X2: a document saved with [createPdfDocument] gets an identifier no
    stored document has, keeps its [filename] and [filesize], has its
    [userId] replaced by null when that is absent or 0, and is found
    again by [getPdfDocument] under its identifier after any later storage
    calls. *)
Theorem createPdfDocument_retrievable
    (w w1 : World.t) (document : InsertPdfDocument.t)
    (saved : PdfDocument.t) (later : list StorageCall) :
  document_keys_ok (World.db w) ->
  IStorage.createPdfDocument storage document w = (Async.Returned saved, w1) ->
  ~ In (PdfDocument.id saved)
       (map PdfDocument.id (Database.pdfDocuments (World.db w))) /\
  PdfDocument.filename saved = InsertPdfDocument.filename document /\
  PdfDocument.filesize saved = InsertPdfDocument.filesize document /\
  PdfDocument.uploadDate saved = World.clock w /\
  PdfDocument.userId saved
    = match InsertPdfDocument.userId document with
      | Some 0 => None
      | other => other
      end /\
  match fst (IStorage.getPdfDocument storage (PdfDocument.id saved)
               (perform_all later w1))
  with
  | Async.Returned found => found = Some saved
  | Async.Threw e =>
      hd_error (World.faults (perform_all later w1)) = Some (Some e)
  end.
Proof.
  intros K Hcreate.
  assert (Hsaved : saved = saved_document document w
                   /\ World.db w1 = database_with_document document w).
  { simpl in Hcreate. unfold DatabaseStorage.createPdfDocument in Hcreate.
    match type of Hcreate with context [Async.execute ?s w] =>
      destruct (execute_cases s w) as [(e & rest & _ & E) | [_ E]] end;
      rewrite E in Hcreate; [discriminate|].
    injection Hcreate as <- <-. auto. }
  destruct Hsaved as [Esaved Edb].
  assert (K1 : document_keys_ok (World.db w1)).
  { rewrite Edb. eapply db_step_document_keys_ok; [apply step_document|].
    exact K. }
  assert (I1 : In saved (Database.pdfDocuments (World.db w1))).
  { rewrite Edb, Esaved. simpl. apply in_or_app. right. now left. }
  destruct (perform_all_keeps_documents later w1 saved K1 I1) as [K2 I2].
  split; [|split; [|split; [|split; [|split]]]].
  - rewrite Esaved. simpl. rewrite in_map_iff. intros (r & E & I).
    destruct K as [_ B]. rewrite Forall_forall in B. specialize (B r I). lia.
  - now rewrite Esaved.
  - now rewrite Esaved.
  - now rewrite Esaved.
  - rewrite Esaved. simpl.
    destruct (InsertPdfDocument.userId document) as [[| |]|]; reflexivity.
  - pose proof (getPdfDocument_outcome (PdfDocument.id saved)
                  (perform_all later w1)) as O.
    destruct (fst (IStorage.getPdfDocument storage _ _)) as [found|e];
      [|exact O].
    rewrite O. apply where_eq_unique; [apply K2 | exact I2].
Qed.

(** X3: starting from the empty database, whatever storage calls are
    made and whichever of them the driver rejects, the identifiers of the
    stored documents stay distinct, and so do those of the stored
    tables. *)
Theorem storage_calls_keep_keys_distinct
    (calls : list StorageCall) (faults : list (option Js.Thrown))
    (clock : Timestamp) (trace : list Event) :
  let w := perform_all calls (World.mk Database.empty faults clock trace) in
  NoDup (map PdfDocument.id (Database.pdfDocuments (World.db w))) /\
  NoDup (map ExtractedTable.id (Database.extractedTables (World.db w))).
Proof.
  cbv zeta.
  set (w0 := World.mk Database.empty faults clock trace).
  assert (H : forall cs w,
             Database.keys_ok (World.db w) /\ document_keys_ok (World.db w) ->
             Database.keys_ok (World.db (perform_all cs w)) /\
             document_keys_ok (World.db (perform_all cs w))).
  { induction cs as [|c cs IH]; intros w [K D]; simpl; [auto|].
    apply IH. split.
    - eapply db_step_keys_ok; [apply perform_db_step | exact K].
    - eapply db_step_document_keys_ok; [apply perform_db_step | exact D]. }
  destruct (H calls w0) as [[N1 _] [N2 _]].
  - split; split; constructor.
  - auto.
Qed.

(* ===================================================================== *)
(** * More on the upload handler *)
(* ===================================================================== *)

(** What a run of inserts leaves in the database: the documents are
    untouched; one row per value is appended, in order, carrying the
    value's fields and the next identifiers of the sequence. *)
Lemma insert_all_rows (vs : list InsertExtractedTable.t) :
  forall d : Database.t,
    Database.pdfDocuments (insert_all vs d) = Database.pdfDocuments d /\
    Database.pdfDocuments_id_seq (insert_all vs d)
      = Database.pdfDocuments_id_seq d /\
    Database.extractedTables_id_seq (insert_all vs d)
      = Database.extractedTables_id_seq d + Z.of_nat (List.length vs) /\
    exists rows,
      Database.extractedTables (insert_all vs d)
        = Database.extractedTables d ++ rows /\
      Forall2 (fun row v =>
                 ExtractedTable.documentId row
                   = InsertExtractedTable.documentId v /\
                 ExtractedTable.tableIndex row
                   = InsertExtractedTable.tableIndex v /\
                 ExtractedTable.pageNumber row
                   = InsertExtractedTable.pageNumber v /\
                 ExtractedTable.tableData row
                   = InsertExtractedTable.tableData v /\
                 ExtractedTable.tableInfo row
                   = InsertExtractedTable.tableInfo v)
              rows vs /\
      map ExtractedTable.id rows
        = map (fun k => Database.extractedTables_id_seq d + 1 + Z.of_nat k)
              (seq 0 (List.length vs)).
Proof.
  induction vs as [|v vs IH]; intros d.
  - simpl. repeat split; try lia. exists []. rewrite app_nil_r.
    repeat split. constructor.
  - unfold insert_all in *. cbn [fold_left].
    destruct (IH (snd (Database.insert_extractedTable v d)))
      as (Hd & Hs & Ht & rows & Hrows & Hfields & Hids).
    cbn [Database.insert_extractedTable snd Database.pdfDocuments
         Database.pdfDocuments_id_seq Database.extractedTables
         Database.extractedTables_id_seq] in *.
    rewrite Hd, Hs, Ht. repeat split; try (cbn [List.length]; lia).
    eexists (_ :: rows). split; [|split].
    + rewrite Hrows, <- app_assoc. reflexivity.
    + constructor; [|exact Hfields]. simpl. auto.
    + cbn [map List.length seq]. f_equal; [simpl; lia|].
      rewrite Hids, <- seq_shift, map_map.
      apply map_ext. intros k. lia.
Qed.

Section SaveFacts.

Variable savedDocument : PdfDocument.t.

(** However the loop ends, it has saved the first so many tables and
    nothing else; when it returns it has saved them all. *)
Lemma for_of_save_outcome (tables : list ExtractedTableData.t) :
  forall w : World.t,
    exists k : nat,
      (k <= List.length tables)%nat /\
      World.db (snd (Async.for_of tables (save_table savedDocument) w))
        = insert_all (map (table_values savedDocument) (firstn k tables))
                     (World.db w) /\
      (forall u,
          fst (Async.for_of tables (save_table savedDocument) w)
            = Async.Returned u ->
          k = List.length tables).
Proof.
  induction tables as [|table tables IH]; intros w.
  - exists 0%nat. simpl. auto.
  - simpl Async.for_of. unfold Async.bind.
    destruct (execute_cases
                (fun (_ : Timestamp) d =>
                   Database.insert_extractedTable
                     (table_values savedDocument table) d) w)
      as [(e & rest & F & _) | [D _]].
    + rewrite (save_table_rejected savedDocument table w e rest F).
      exists 0%nat. simpl. repeat split; [lia | discriminate].
    + rewrite (save_table_runs savedDocument 0 table w D).
      match goal with |- context [Async.for_of tables _ ?w1] =>
        destruct (IH w1) as (k & Hk & Hdb & Hret) end.
      exists (S k). simpl in *. repeat split; [lia | exact Hdb |].
      intros u Hu. f_equal. eapply Hret. exact Hu.
Qed.

End SaveFacts.

Section UploadFacts.

Variable extractTablesFromPdf : Buffer -> Js.Thrown + list ExtractedTableData.t.
Variable insertPdfDocumentSchema_parse :
  DocumentData.t -> Js.Thrown + InsertPdfDocument.t.

(** Every path through [POST /api/extract]. *)
Lemma extract_handler_paths (req : Request.t) (w : World.t) :
  extract_handler extractTablesFromPdf insertPdfDocumentSchema_parse req w =
    let out d faults events :=
      (Async.Returned tt,
       World.mk d faults (World.clock w) (World.trace w ++ events)) in
    match Request.file req with
    | None =>
        out (World.db w) (World.faults w)
            [Status 400; Json (ErrorBody "No PDF file uploaded")]
    | Some file =>
        let call := CallExtractTablesFromPdf (MulterFile.buffer file) in
        let failed e :=
          [call; Status 500;
           Json (ErrorBody (Js.message_or "Unknown error" e))] in
        match extractTablesFromPdf (MulterFile.buffer file) with
        | inl e => out (World.db w) (World.faults w) (failed e)
        | inr tables =>
            match insertPdfDocumentSchema_parse (document_data file w) with
            | inl e => out (World.db w) (World.faults w) (failed e)
            | inr validated =>
                match World.faults w with
                | Some e :: rest => out (World.db w) rest (failed e)
                | _ =>
                    let saved := saved_document validated w in
                    let r :=
                      Async.for_of tables (save_table saved)
                        (World.mk (database_with_document validated w)
                           (tl (World.faults w)) (World.clock w)
                           (World.trace w ++ [call])) in
                    match fst r with
                    | Async.Returned _ =>
                        out (World.db (snd r)) (World.faults (snd r))
                            [call; Status 200;
                             Json (ExtractBody (PdfDocument.id saved)
                                     (PdfDocument.filename saved)
                                     (PdfDocument.filesize saved)
                                     (PdfDocument.uploadDate saved) tables)]
                    | Async.Threw e =>
                        out (World.db (snd r)) (World.faults (snd r))
                            (failed e)
                    end
                end
            end
        end
    end.
Proof.
  cbv zeta.
  destruct (Request.file req) as [file|] eqn:Hfile.
  2: { unfold extract_handler, Async.try_catch.
       now rewrite Hfile, respond_eq. }
  destruct (extractTablesFromPdf (MulterFile.buffer file))
    as [e|tables] eqn:Hext.
  { unfold extract_handler, Async.try_catch. rewrite Hfile.
    erewrite bind_threw;
      [|rewrite await_extractTablesFromPdf_eq, Hext; reflexivity].
    rewrite respond_eq. simpl. now rewrite <- app_assoc. }
  destruct (insertPdfDocumentSchema_parse (document_data file w))
    as [e|validated] eqn:Hparse.
  { unfold extract_handler, Async.try_catch. rewrite Hfile.
    erewrite bind_returned;
      [|rewrite await_extractTablesFromPdf_eq, Hext; reflexivity].
    erewrite bind_returned; [|reflexivity].
    simpl World.clock. fold (document_data file w). rewrite Hparse.
    erewrite bind_threw; [|reflexivity].
    rewrite respond_eq. simpl. now rewrite <- app_assoc. }
  destruct (World.faults w) as [|[e|] rest] eqn:F.
  2: { unfold extract_handler, Async.try_catch. rewrite Hfile.
       erewrite bind_returned;
         [|rewrite await_extractTablesFromPdf_eq, Hext; reflexivity].
       erewrite bind_returned; [|reflexivity].
       simpl World.clock. fold (document_data file w). rewrite Hparse.
       erewrite bind_returned; [|reflexivity].
       erewrite bind_threw;
         [|apply execute_rejected; simpl; rewrite F; reflexivity].
       rewrite respond_eq. simpl. now rewrite <- app_assoc. }
  all: assert (D : driver_ok 1 w = true)
         by (unfold driver_ok; now rewrite F).
  all: rewrite (extract_handler_saved extractTablesFromPdf
                  insertPdfDocumentSchema_parse req file w tables validated
                  Hfile Hext Hparse D); cbv zeta; rewrite F; cbn [tl].
  all: match goal with
       | |- context [Async.for_of ?ts (save_table ?d) ?w1] =>
           destruct (for_of_save_quiet d ts w1) as [T C];
           destruct (Async.for_of ts (save_table d) w1) as [[[]|e] w2]
       end.
  all: rewrite respond_eq; simpl in *; rewrite T, C, <- app_assoc;
       reflexivity.
Qed.

Lemma saved_rows_of_tables (saved : PdfDocument.t)
    (rows : list ExtractedTable.t) (tables : list ExtractedTableData.t) :
  Forall2 (fun row v =>
             ExtractedTable.documentId row
               = InsertExtractedTable.documentId v /\
             ExtractedTable.tableIndex row
               = InsertExtractedTable.tableIndex v /\
             ExtractedTable.pageNumber row
               = InsertExtractedTable.pageNumber v /\
             ExtractedTable.tableData row
               = InsertExtractedTable.tableData v /\
             ExtractedTable.tableInfo row
               = InsertExtractedTable.tableInfo v)
          rows (map (table_values saved) tables) ->
  map DatabaseStorage.toExtractedTableData rows = tables /\
  Forall (fun row =>
            ExtractedTable.documentId row = PdfDocument.id saved /\
            ExtractedTable.pageNumber row
              = TableInfo.pageNumber (ExtractedTable.tableInfo row))
         rows.
Proof.
  revert tables. induction rows as [|row rows IH]; intros [|t tables] H;
    inversion H as [|? ? ? ? Hf Hrest]; subst; simpl.
  - split; constructor.
  - destruct (IH tables Hrest) as [Hm Ha].
    destruct Hf as (Hd & Hi & Hp & Hdata & Hinfo). simpl in *.
    split.
    + rewrite Hm. unfold DatabaseStorage.toExtractedTableData.
      rewrite Hi, Hdata, Hinfo. now destruct t.
    + constructor; [|exact Ha]. split; [exact Hd|]. now rewrite Hp, Hinfo.
Qed.

(** X4: when the extractor returns, validation accepts the document and
    the driver runs every insert, the upload handler saves the document
    and one row per extracted table, in order; each row belongs to the
    saved document, carries the table's [tableIndex], [data] and [info]
    and has [pageNumber] equal to [info.pageNumber]; the answer is 200
    with the saved document's fields and the extracted tables. *)
Theorem extract_handler_saves_everything (req : Request.t)
    (file : MulterFile.t) (w : World.t) (tables : list ExtractedTableData.t)
    (validated : InsertPdfDocument.t) :
  Request.file req = Some file ->
  extractTablesFromPdf (MulterFile.buffer file) = inr tables ->
  insertPdfDocumentSchema_parse (document_data file w) = inr validated ->
  driver_ok (S (List.length tables)) w = true ->
  let saved := saved_document validated w in
  let r := extract_handler extractTablesFromPdf insertPdfDocumentSchema_parse
             req w in
  fst r = Async.Returned tt /\
  Database.pdfDocuments (World.db (snd r))
    = Database.pdfDocuments (World.db w) ++ [saved] /\
  (exists rows,
     Database.extractedTables (World.db (snd r))
       = Database.extractedTables (World.db w) ++ rows /\
     map DatabaseStorage.toExtractedTableData rows = tables /\
     Forall (fun row =>
               ExtractedTable.documentId row = PdfDocument.id saved /\
               ExtractedTable.pageNumber row
                 = TableInfo.pageNumber (ExtractedTable.tableInfo row))
            rows) /\
  events_of (extract_handler extractTablesFromPdf
               insertPdfDocumentSchema_parse req) w
    = [CallExtractTablesFromPdf (MulterFile.buffer file);
       Status 200;
       Json (ExtractBody (PdfDocument.id saved)
               (InsertPdfDocument.filename validated)
               (InsertPdfDocument.filesize validated)
               (World.clock w) tables)].
Proof.
  intros Hfile Hext Hparse D saved r. subst r.
  unfold events_of.
  rewrite (extract_handler_all_saved extractTablesFromPdf
             insertPdfDocumentSchema_parse req file w tables validated
             Hfile Hext Hparse D).
  cbv zeta. cbn [fst snd World.db World.trace]. fold saved.
  destruct (insert_all_rows (map (table_values saved) tables)
              (database_with_document validated w))
    as (Hd & _ & _ & rows & Hrows & Hfields & _).
  split; [reflexivity|]. split; [exact Hd|]. split.
  - exists rows. split; [exact Hrows|].
    now apply (saved_rows_of_tables saved).
  - rewrite skipn_app, skipn_all, Nat.sub_diag. reflexivity.
Qed.

(** X5: the upload handler answers 200 only after it has saved the
    document and a row for every extracted table: a 200 is never sent for
    a partly saved upload. *)
Theorem extract_handler_200_means_saved (req : Request.t) (w : World.t) :
  In 200 (statuses
            (events_of (extract_handler extractTablesFromPdf
                          insertPdfDocumentSchema_parse req) w)) ->
  exists (file : MulterFile.t) (tables : list ExtractedTableData.t)
         (validated : InsertPdfDocument.t) (rows : list ExtractedTable.t),
    Request.file req = Some file /\
    extractTablesFromPdf (MulterFile.buffer file) = inr tables /\
    insertPdfDocumentSchema_parse (document_data file w) = inr validated /\
    Database.pdfDocuments
      (World.db (snd (extract_handler extractTablesFromPdf
                        insertPdfDocumentSchema_parse req w)))
      = Database.pdfDocuments (World.db w) ++ [saved_document validated w] /\
    Database.extractedTables
      (World.db (snd (extract_handler extractTablesFromPdf
                        insertPdfDocumentSchema_parse req w)))
      = Database.extractedTables (World.db w) ++ rows /\
    map DatabaseStorage.toExtractedTableData rows = tables /\
    Forall (fun row =>
              ExtractedTable.documentId row
                = PdfDocument.id (saved_document validated w))
           rows.
Proof.
  unfold events_of. rewrite extract_handler_paths. cbv zeta.
  destruct (Request.file req) as [file|] eqn:Hfile.
  2: { cbn [fst snd World.trace].
       rewrite skipn_app, skipn_all, Nat.sub_diag. simpl.
       intros [H|[]]; discriminate H. }
  destruct (extractTablesFromPdf (MulterFile.buffer file))
    as [e|tables] eqn:Hext.
  { cbn [fst snd World.trace].
    rewrite skipn_app, skipn_all, Nat.sub_diag. simpl.
    intros [H|[]]; discriminate H. }
  destruct (insertPdfDocumentSchema_parse (document_data file w))
    as [e|validated] eqn:Hparse.
  { cbn [fst snd World.trace].
    rewrite skipn_app, skipn_all, Nat.sub_diag. simpl.
    intros [H|[]]; discriminate H. }
  assert (Main :
    forall w1,
      Database.pdfDocuments (World.db w1)
        = Database.pdfDocuments (World.db w) ++ [saved_document validated w] ->
      Database.extractedTables (World.db w1)
        = Database.extractedTables (World.db w) ->
      forall u,
        fst (Async.for_of tables (save_table (saved_document validated w)) w1)
          = Async.Returned u ->
        exists rows,
          Database.pdfDocuments
            (World.db (snd (Async.for_of tables
                              (save_table (saved_document validated w)) w1)))
            = Database.pdfDocuments (World.db w)
              ++ [saved_document validated w] /\
          Database.extractedTables
            (World.db (snd (Async.for_of tables
                              (save_table (saved_document validated w)) w1)))
            = Database.extractedTables (World.db w) ++ rows /\
          map DatabaseStorage.toExtractedTableData rows = tables /\
          Forall (fun row =>
                    ExtractedTable.documentId row
                      = PdfDocument.id (saved_document validated w))
                 rows).
  { intros w1 Hdocs Htabs u Hu.
    destruct (for_of_save_outcome (saved_document validated w) tables w1)
      as (k & _ & Hdb & Hret).
    rewrite (Hret u Hu), firstn_all in Hdb. rewrite Hdb.
    destruct (insert_all_rows
                (map (table_values (saved_document validated w)) tables)
                (World.db w1))
      as (Hd & _ & _ & rows & Hrows & Hfields & _).
    destruct (saved_rows_of_tables _ _ _ Hfields) as [Hm Ha].
    exists rows. rewrite Hd, Hrows, Hdocs, Htabs.
    repeat split; auto.
    eapply Forall_impl; [|exact Ha]. intros a [Hdoc _]. exact Hdoc. }
  destruct (World.faults w) as [|[e|] rest].
  2: { cbn [fst snd World.trace].
       rewrite skipn_app, skipn_all, Nat.sub_diag. simpl.
       intros [H|[]]; discriminate H. }
  all: match goal with
       | |- context [Async.for_of ?ts ?b ?w1] =>
           specialize (Main w1 eq_refl eq_refl);
           destruct (Async.for_of ts b w1) as [[u|e] w2]
       end.
  all: cbn [fst snd World.trace World.db] in *.
  all: rewrite skipn_app, skipn_all, Nat.sub_diag; simpl.
  all: intros [H|[]]; try discriminate H.
  all: destruct (Main u eq_refl) as (rows & R1 & R2 & R3 & R4).
  all: exists file, tables, validated, rows.
  all: split; [reflexivity|]; split; [exact Hext|]; split; [exact Hparse|].
  all: split; [exact R1|]; split; [exact R2|]; split; [exact R3 | exact R4].
Qed.

Lemma insert_all_keys_ok (vs : list InsertExtractedTable.t) :
  forall d : Database.t,
    Database.keys_ok d -> Database.keys_ok (insert_all vs d).
Proof.
  induction vs as [|v vs IH]; intros d K; [exact K|].
  unfold insert_all in *. cbn [fold_left]. apply IH.
  eapply db_step_keys_ok; [apply step_table | exact K].
Qed.

Lemma insert_all_document_keys_ok (vs : list InsertExtractedTable.t) :
  forall d : Database.t,
    document_keys_ok d -> document_keys_ok (insert_all vs d).
Proof.
  induction vs as [|v vs IH]; intros d K; [exact K|].
  unfold insert_all in *. cbn [fold_left]. apply IH.
  eapply db_step_document_keys_ok; [apply step_table | exact K].
Qed.

(** X6: the upload handler keeps the database consistent on every path,
    also when it fails half way.  It only appends: at most one document
    and rows that all belong to that document; and if the identifiers
    were distinct and every table row belonged to a stored document
    before the request, the same holds after it. *)
Theorem extract_handler_keeps_integrity (req : Request.t) (w : World.t) :
  Database.keys_ok (World.db w) ->
  document_keys_ok (World.db w) ->
  references_ok (World.db w) ->
  let d' := World.db (snd (extract_handler extractTablesFromPdf
                             insertPdfDocumentSchema_parse req w)) in
  Database.keys_ok d' /\
  document_keys_ok d' /\
  references_ok d' /\
  exists (documents : list PdfDocument.t) (rows : list ExtractedTable.t),
    Database.pdfDocuments d'
      = Database.pdfDocuments (World.db w) ++ documents /\
    (List.length documents <= 1)%nat /\
    Database.extractedTables d'
      = Database.extractedTables (World.db w) ++ rows /\
    Forall (fun row =>
              exists document,
                In document documents /\
                PdfDocument.id document = ExtractedTable.documentId row)
           rows.
Proof.
  intros K KD KR. cbv zeta.
  assert (Same :
    Database.keys_ok (World.db w) /\
    document_keys_ok (World.db w) /\
    references_ok (World.db w) /\
    exists (documents : list PdfDocument.t) (rows : list ExtractedTable.t),
      Database.pdfDocuments (World.db w)
        = Database.pdfDocuments (World.db w) ++ documents /\
      (List.length documents <= 1)%nat /\
      Database.extractedTables (World.db w)
        = Database.extractedTables (World.db w) ++ rows /\
      Forall (fun row =>
                exists document,
                  In document documents /\
                  PdfDocument.id document = ExtractedTable.documentId row)
             rows).
  { repeat split; try assumption; try apply K; try apply KD.
    exists [], []. rewrite !app_nil_r. repeat split; auto. }
  rewrite extract_handler_paths. cbv zeta.
  destruct (Request.file req) as [file|]; [|exact Same].
  destruct (extractTablesFromPdf (MulterFile.buffer file)) as [e|tables];
    [exact Same|].
  destruct (insertPdfDocumentSchema_parse (document_data file w))
    as [e|validated]; [exact Same|].
  assert (Grown :
    forall w1,
      World.db w1 = database_with_document validated w ->
      let d' := World.db (snd (Async.for_of tables
                  (save_table (saved_document validated w)) w1)) in
      Database.keys_ok d' /\
      document_keys_ok d' /\
      references_ok d' /\
      exists (documents : list PdfDocument.t) (rows : list ExtractedTable.t),
        Database.pdfDocuments d'
          = Database.pdfDocuments (World.db w) ++ documents /\
        (List.length documents <= 1)%nat /\
        Database.extractedTables d'
          = Database.extractedTables (World.db w) ++ rows /\
        Forall (fun row =>
                  exists document,
                    In document documents /\
                    PdfDocument.id document = ExtractedTable.documentId row)
               rows).
  { intros w1 Hw1. cbv zeta.
    destruct (for_of_save_outcome (saved_document validated w) tables w1)
      as (k & _ & -> & _).
    rewrite Hw1.
    set (vs := map (table_values (saved_document validated w))
                   (firstn k tables)).
    destruct (insert_all_rows vs (database_with_document validated w))
      as (Hd & _ & _ & rows & Hrows & Hfields & _).
    assert (Hdoc : Forall (fun row =>
                     ExtractedTable.documentId row
                       = PdfDocument.id (saved_document validated w)) rows).
    { destruct (saved_rows_of_tables _ _ _ Hfields) as [_ Ha].
      eapply Forall_impl; [|exact Ha]. intros a [H _]. exact H. }
    split; [|split; [|split]].
    - apply insert_all_keys_ok.
      eapply db_step_keys_ok; [apply step_document | exact K].
    - apply insert_all_document_keys_ok.
      eapply db_step_document_keys_ok; [apply step_document | exact KD].
    - unfold references_ok. rewrite Hd, Hrows. simpl.
      apply Forall_app. split.
      + eapply Forall_impl; [|exact KR]. simpl.
        intros row (document & I & E). exists document.
        split; [apply in_or_app; now left | exact E].
      + eapply Forall_impl; [|exact Hdoc]. simpl. intros row E.
        exists (saved_document validated w).
        split; [apply in_or_app; right; now left | now rewrite E].
    - exists [saved_document validated w], rows.
      rewrite Hd, Hrows. simpl. repeat split; auto.
      eapply Forall_impl; [|exact Hdoc]. simpl. intros row E.
      exists (saved_document validated w).
      split; [now left | now rewrite E]. }
  destruct (World.faults w) as [|[e|] rest]; [|exact Same|].
  all: match goal with
       | |- context [Async.for_of ?ts ?b ?w1] =>
           specialize (Grown w1 eq_refl); cbv zeta in Grown;
           destruct (Async.for_of ts b w1) as [[u|e] w2]
       end.
  all: exact Grown.
Qed.

End UploadFacts.

(* ===================================================================== *)
(** * All handlers *)
(* ===================================================================== *)

Section AnswerFacts.

Variable extractTablesFromPdf : Buffer -> Js.Thrown + list ExtractedTableData.t.
Variable generateExcelFile : TableData -> Js.Thrown + Buffer.
Variable generateConsolidatedExcel : list TableData -> Js.Thrown + Buffer.
Variable insertPdfDocumentSchema_parse :
  DocumentData.t -> Js.Thrown + InsertPdfDocument.t.

(** X7: no exception escapes the upload handler or the two download
    handlers, and each of them sets the response status exactly once per
    request, whatever the request, the database, the collaborators and
    the driver do: 200, 400 or 500 for the upload, and 200, 400, 404 or
    500 for a download. *)
Theorem handlers_answer_exactly_once (req : Request.t) (w : World.t) :
  (fst (extract_handler extractTablesFromPdf insertPdfDocumentSchema_parse
          req w) = Async.Returned tt /\
   exists code,
     statuses (events_of (extract_handler extractTablesFromPdf
                            insertPdfDocumentSchema_parse req) w) = [code] /\
     In code [200; 400; 500]) /\
  (fst (table_excel_handler generateExcelFile req w) = Async.Returned tt /\
   exists code,
     statuses (events_of (table_excel_handler generateExcelFile req) w)
       = [code] /\
     In code [200; 400; 404; 500]) /\
  (fst (document_excel_handler generateConsolidatedExcel req w)
     = Async.Returned tt /\
   exists code,
     statuses (events_of (document_excel_handler generateConsolidatedExcel
                            req) w) = [code] /\
     In code [200; 400; 404; 500]).
Proof.
  split; [|split].
  - unfold events_of. rewrite extract_handler_paths. cbv zeta.
    repeat match goal with
           | |- context [match ?x with _ => _ end] => destruct x
           end;
      cbn [fst snd World.trace];
      rewrite skipn_app, skipn_all, Nat.sub_diag;
      (split; [reflexivity|]); eexists; (split; [reflexivity|]);
      simpl; auto.
  - unfold events_of. rewrite table_excel_handler_paths. cbv zeta.
    repeat match goal with
           | |- context [match ?x with _ => _ end] => destruct x
           end;
      cbn [fst snd World.trace];
      rewrite skipn_app, skipn_all, Nat.sub_diag;
      (split; [reflexivity|]); eexists; (split; [reflexivity|]);
      simpl; auto.
  - unfold events_of. rewrite document_excel_handler_paths. cbv zeta.
    repeat match goal with
           | |- context [match ?x with _ => _ end] => destruct x
           end;
      cbn [fst snd World.trace];
      rewrite skipn_app, skipn_all, Nat.sub_diag;
      (split; [reflexivity|]); eexists; (split; [reflexivity|]);
      simpl; auto 6.
Qed.

End AnswerFacts.

(* ===================================================================== *)
(** * The document routes *)
(* ===================================================================== *)

Lemma where_eq_none {R : Type} (column : R -> Z) (value : Z)
    (rows : list R) :
  hd_error (Database.where_eq column value rows) = None <->
  Forall (fun r => column r <> value) rows.
Proof.
  induction rows as [|r rows IH]; simpl.
  - split; [constructor | reflexivity].
  - destruct (Z.eqb_spec (column r) value) as [E|N]; simpl.
    + split; [discriminate|]. intros H. inversion H. contradiction.
    + rewrite IH. split.
      * intros H. now constructor.
      * intros H. now inversion H.
Qed.

Lemma where_eq_nil {R : Type} (column : R -> Z) (value : Z)
    (rows : list R) :
  Database.where_eq column value rows = [] <->
  Forall (fun r => column r <> value) rows.
Proof.
  rewrite <- where_eq_none.
  destruct (Database.where_eq column value rows); simpl;
    split; congruence.
Qed.

Lemma selectByDocumentId_length (documentId : Z) (d : Database.t) :
  List.length (DatabaseStorage.selectByDocumentId documentId d)
  = List.length (rows_of_document documentId d).
Proof. apply Permutation_length, selectByDocumentId_perm. Qed.

(** Every path through [GET /api/documents]. *)
Lemma documents_handler_paths (w : World.t) :
  documents_handler w =
    match World.faults w with
    | Some _ :: rest =>
        (Async.Returned (Reply.mk 500 (ReplyError "Failed to fetch documents")),
         World.mk (World.db w) rest (World.clock w) (World.trace w))
    | _ =>
        (Async.Returned
           (Reply.mk 200
              (DocumentsBody
                 (orderBy_desc PdfDocument.uploadDate
                    (Database.pdfDocuments (World.db w))))),
         World.mk (World.db w) (tl (World.faults w)) (World.clock w)
                  (World.trace w))
    end.
Proof.
  unfold documents_handler, Async.try_catch, getAllPdfDocuments.
  destruct (World.faults w) as [|[e|] rest] eqn:F.
  - erewrite bind_returned;
      [|apply (execute_runs _ 0 w); unfold driver_ok; now rewrite F].
    rewrite F. reflexivity.
  - erewrite bind_threw; [|apply execute_rejected; exact F]. reflexivity.
  - erewrite bind_returned;
      [|apply (execute_runs _ 0 w); unfold driver_ok; now rewrite F].
    rewrite F. reflexivity.
Qed.

(** Every path through [GET /api/documents/:id]. *)
Lemma document_handler_paths (req : Request.t) (w : World.t) :
  document_handler req w =
    let out reply faults :=
      (Async.Returned reply,
       World.mk (World.db w) faults (World.clock w) (World.trace w)) in
    match Js.parseInt (Request.params_id req) with
    | None =>
        out (Reply.mk 400 (ReplyError "Invalid document ID")) (World.faults w)
    | Some documentId =>
        match World.faults w with
        | Some _ :: rest =>
            out (Reply.mk 500 (ReplyError "Failed to fetch document")) rest
        | _ =>
            match hd_error (Database.where_eq PdfDocument.id documentId
                              (Database.pdfDocuments (World.db w))) with
            | None =>
                out (Reply.mk 404 (ReplyError "Document not found"))
                    (tl (World.faults w))
            | Some document =>
                match tl (World.faults w) with
                | Some _ :: rest =>
                    out (Reply.mk 500 (ReplyError "Failed to fetch document"))
                        rest
                | _ =>
                    out (Reply.mk 200
                           (DocumentBody document
                              (map DatabaseStorage.toExtractedTableData
                                 (DatabaseStorage.selectByDocumentId
                                    documentId (World.db w)))))
                        (tl (tl (World.faults w)))
                end
            end
        end
    end.
Proof.
  cbv zeta. unfold document_handler, Async.try_catch.
  destruct (Js.parseInt (Request.params_id req)) as [documentId|];
    [|now destruct w].
  simpl IStorage.getPdfDocument. unfold DatabaseStorage.getPdfDocument.
  simpl IStorage.getExtractedTablesByDocumentId.
  unfold DatabaseStorage.getExtractedTablesByDocumentId.
  destruct (World.faults w) as [|[e|] rest] eqn:F;
    [ | erewrite bind_threw; [|apply execute_rejected; exact F];
        reflexivity | ].
  all: erewrite bind_returned;
         [|apply (execute_runs _ 0 w); unfold driver_ok; now rewrite F].
  all: cbn [fst snd]; rewrite F; cbn [tl].
  all: destruct (hd_error (Database.where_eq PdfDocument.id documentId _))
         as [document|]; [|reflexivity].
  2: destruct rest as [|[e|] rest];
       [ | erewrite bind_threw;
             [|erewrite bind_threw;
                 [reflexivity | apply execute_rejected; reflexivity]];
           reflexivity | ].
  all: erewrite bind_returned;
         [|erewrite bind_returned;
             [reflexivity | apply (execute_runs _ 0); reflexivity]].
  all: reflexivity.
Qed.

(** X8: [GET /api/documents] never writes and never throws: it answers
    200 with every stored document exactly once, the most recently
    uploaded first, unless the driver rejects the query, in which case it
    answers 500 ['Failed to fetch documents'] whatever the error was. *)
Theorem documents_handler_lists_all (w : World.t) :
  World.db (snd (documents_handler w)) = World.db w /\
  ((exists documents,
       fst (documents_handler w)
         = Async.Returned (Reply.mk 200 (DocumentsBody documents)) /\
       StronglySorted (recent_first PdfDocument.uploadDate) documents /\
       Permutation documents (Database.pdfDocuments (World.db w)) /\
       driver_ok 1 w = true)
   \/
   (fst (documents_handler w)
      = Async.Returned (Reply.mk 500 (ReplyError "Failed to fetch documents"))
    /\ exists e, hd_error (World.faults w) = Some (Some e))).
Proof.
  rewrite documents_handler_paths.
  destruct (World.faults w) as [|[e|] rest] eqn:F; simpl;
    (split; [reflexivity|]).
  - left. eexists. split; [reflexivity|].
    split; [apply orderBy_desc_sorted|].
    split; [apply orderBy_desc_perm|].
    unfold driver_ok. now rewrite F.
  - right. split; [reflexivity|]. now exists e.
  - left. eexists. split; [reflexivity|].
    split; [apply orderBy_desc_sorted|].
    split; [apply orderBy_desc_perm|].
    unfold driver_ok. now rewrite F.
Qed.


Section IdFacts.

Variable generateExcelFile : TableData -> Js.Thrown + Buffer.
Variable generateConsolidatedExcel : list TableData -> Js.Thrown + Buffer.

(** X10: the three handlers that take an identifier from the path answer
    400 exactly when [parseInt] gives [NaN] for it, and in that case they
    send no statement to the database. *)
Theorem malformed_id_is_400 (req : Request.t) (w : World.t) :
  (In 400 (statuses (events_of (table_excel_handler generateExcelFile req) w))
   <-> Js.parseInt (Request.params_id req) = None) /\
  (In 400 (statuses (events_of (document_excel_handler
                                  generateConsolidatedExcel req) w))
   <-> Js.parseInt (Request.params_id req) = None) /\
  ((exists body,
       fst (document_handler req w) = Async.Returned (Reply.mk 400 body))
   <-> Js.parseInt (Request.params_id req) = None) /\
  (Js.parseInt (Request.params_id req) = None ->
   World.faults (snd (table_excel_handler generateExcelFile req w))
     = World.faults w /\
   World.faults (snd (document_excel_handler generateConsolidatedExcel req w))
     = World.faults w /\
   World.faults (snd (document_handler req w)) = World.faults w).
Proof.
  split; [|split; [|split]].
  - unfold events_of. rewrite table_excel_handler_paths. cbv zeta.
    destruct (Js.parseInt (Request.params_id req)) as [tableId|].
    + split; [|discriminate].
      repeat match goal with
             | |- context [match ?x with _ => _ end] => destruct x
             end;
        cbn [fst snd World.trace];
        rewrite skipn_app, skipn_all, Nat.sub_diag; simpl;
        intros [H|[]]; discriminate H.
    + cbn [fst snd World.trace].
      rewrite skipn_app, skipn_all, Nat.sub_diag. simpl. tauto.
  - unfold events_of. rewrite document_excel_handler_paths. cbv zeta.
    destruct (Js.parseInt (Request.params_id req)) as [documentId|].
    + split; [|discriminate].
      repeat match goal with
             | |- context [match ?x with _ => _ end] => destruct x
             end;
        cbn [fst snd World.trace];
        rewrite skipn_app, skipn_all, Nat.sub_diag; simpl;
        intros [H|[]]; discriminate H.
    + cbn [fst snd World.trace].
      rewrite skipn_app, skipn_all, Nat.sub_diag. simpl. tauto.
  - rewrite document_handler_paths. cbv zeta.
    destruct (Js.parseInt (Request.params_id req)) as [documentId|].
    + split; [|discriminate].
      repeat match goal with
             | |- context [match ?x with _ => _ end] => destruct x
             end;
        cbn [fst]; intros [body H]; discriminate H.
    + split; [reflexivity|]. intros _. eexists. reflexivity.
  - intros P.
    rewrite table_excel_handler_paths, document_excel_handler_paths,
      document_handler_paths, P.
    auto.
Qed.

(** X11: an identifier that parses but names nothing stored gives 404
    without any workbook being generated.  The table download answers 404
    exactly when the query ran and no table row has the identifier; the
    document routes answer 404 exactly when the query ran and no document
    has it, and the consolidated download also when the document is
    there but has no table row. *)
Theorem unknown_id_is_404 (req : Request.t) (w : World.t) :
  (In 404 (statuses (events_of (table_excel_handler generateExcelFile req) w))
   <-> exists tableId,
         Js.parseInt (Request.params_id req) = Some tableId /\
         driver_ok 1 w = true /\
         Forall (fun row => ExtractedTable.id row <> tableId)
                (Database.extractedTables (World.db w))) /\
  ((exists body,
       fst (document_handler req w) = Async.Returned (Reply.mk 404 body))
   <-> exists documentId,
         Js.parseInt (Request.params_id req) = Some documentId /\
         driver_ok 1 w = true /\
         Forall (fun document => PdfDocument.id document <> documentId)
                (Database.pdfDocuments (World.db w))) /\
  (In 404 (statuses (events_of (document_excel_handler
                                  generateConsolidatedExcel req) w))
   <-> exists documentId,
         Js.parseInt (Request.params_id req) = Some documentId /\
         driver_ok 1 w = true /\
         (Forall (fun document => PdfDocument.id document <> documentId)
                 (Database.pdfDocuments (World.db w))
          \/ (driver_ok 2 w = true /\
              rows_of_document documentId (World.db w) = []))) /\
  (In 404 (statuses (events_of (table_excel_handler generateExcelFile req) w))
   -> forall t,
        ~ In (CallGenerateExcelFile t)
             (events_of (table_excel_handler generateExcelFile req) w)) /\
  (In 404 (statuses (events_of (document_excel_handler
                                  generateConsolidatedExcel req) w))
   -> forall ts,
        ~ In (CallGenerateConsolidatedExcel ts)
             (events_of (document_excel_handler generateConsolidatedExcel
                           req) w)).
Proof.
  split; [|split; [|split; [|split]]].
  - unfold events_of. rewrite table_excel_handler_paths. cbv zeta.
    destruct (Js.parseInt (Request.params_id req)) as [tableId|].
    2: { cbn [fst snd World.trace].
         rewrite skipn_app, skipn_all, Nat.sub_diag. simpl.
         split; [intros [H|[]]; discriminate H|].
         intros (? & H & _). discriminate H. }
    pose proof (where_eq_none ExtractedTable.id tableId
                  (Database.extractedTables (World.db w))) as Hnone.
    unfold driver_ok.
    destruct (World.faults w) as [|[?|] ?];
      destruct (hd_error (Database.where_eq ExtractedTable.id tableId _));
      try destruct (generateExcelFile _);
      cbn [fst snd World.trace];
      rewrite skipn_app, skipn_all, Nat.sub_diag; simpl;
      (split;
       [ intros [H|[]]; try discriminate H; exists tableId;
         repeat split; apply Hnone; reflexivity
       | intros (id0 & E & D & N); injection E as <-;
         try discriminate D;
         try (apply Hnone in N; discriminate N); auto ]).
  - rewrite document_handler_paths. cbv zeta.
    destruct (Js.parseInt (Request.params_id req)) as [documentId|].
    2: { split; [intros [? H]; discriminate H|].
         intros (? & H & _). discriminate H. }
    pose proof (where_eq_none PdfDocument.id documentId
                  (Database.pdfDocuments (World.db w))) as Hnone.
    unfold driver_ok.
    destruct (World.faults w) as [|[?|] [|[?|] ?]];
      destruct (hd_error (Database.where_eq PdfDocument.id documentId _));
      cbn [fst tl];
      (split;
       [ intros [body H]; try discriminate H; exists documentId;
         repeat split; apply Hnone; reflexivity
       | intros (id0 & E & D & N); injection E as <-;
         try discriminate D;
         try (apply Hnone in N; discriminate N); eauto ]).
  - unfold events_of. rewrite document_excel_handler_paths. cbv zeta.
    destruct (Js.parseInt (Request.params_id req)) as [documentId|].
    2: { cbn [fst snd World.trace].
         rewrite skipn_app, skipn_all, Nat.sub_diag. simpl.
         split; [intros [H|[]]; discriminate H|].
         intros (? & H & _). discriminate H. }
    pose proof (where_eq_none PdfDocument.id documentId
                  (Database.pdfDocuments (World.db w))) as Hnone.
    rewrite length_map, selectByDocumentId_length.
    unfold driver_ok.
    destruct (rows_of_document documentId (World.db w)) as [|row rows]
      eqn:Hrows;
      cbn [List.length Z.of_nat Z.eqb Pos.of_succ_nat];
      destruct (World.faults w) as [|[?|] [|[?|] ?]];
      destruct (hd_error (Database.where_eq PdfDocument.id documentId _));
      try destruct (generateConsolidatedExcel _);
      try destruct (Http.checkInvalidHeaderChar _);
      cbn [fst snd tl World.trace];
      rewrite skipn_app, skipn_all, Nat.sub_diag; simpl;
      (split;
       [ intros [H|[]]; try discriminate H; exists documentId;
         repeat split; try reflexivity;
         first [ left; apply Hnone; reflexivity
               | right; repeat split; (reflexivity || exact Hrows) ]
       | intros (id0 & E & D & [N|[D2 N]]); injection E as <-;
         try discriminate D; try discriminate D2; try congruence;
         try (apply Hnone in N; discriminate N); auto ]).
  - unfold events_of. rewrite table_excel_handler_paths. cbv zeta.
    repeat match goal with
           | |- context [match ?x with _ => _ end] => destruct x
           end;
      cbn [fst snd World.trace];
      rewrite skipn_app, skipn_all, Nat.sub_diag; simpl;
      intros [H|[]]; try discriminate H;
      intros arg [I|[I|[]]]; discriminate I.
  - unfold events_of. rewrite document_excel_handler_paths. cbv zeta.
    repeat match goal with
           | |- context [match ?x with _ => _ end] => destruct x
           end;
      cbn [fst snd World.trace];
      rewrite skipn_app, skipn_all, Nat.sub_diag; simpl;
      intros [H|[]]; try discriminate H;
      intros arg [I|[I|[]]]; discriminate I.
Qed.

End IdFacts.

(* ===================================================================== *)
(** * Identifiers in the path *)
(* ===================================================================== *)

(** A character that is no decimal digit has no value below ten. *)
Lemma digit_value_not_decimal (c : ascii) :
  not_decimal_digit c = true ->
  match Js.digit_value c with
  | Some d => 10 <= d
  | None => True
  end.
Proof.
  unfold not_decimal_digit, Js.digit_value.
  generalize (nat_of_ascii c). intros n H.
  apply orb_true_iff in H.
  rewrite Nat.ltb_lt, Nat.ltb_lt in H.
  destruct (Z.leb_spec 48 (Z.of_nat n)), (Z.leb_spec (Z.of_nat n) 57);
    cbn [andb]; try lia;
    destruct (Z.leb_spec 97 (Z.of_nat n)), (Z.leb_spec (Z.of_nat n) 102);
    cbn [andb]; try lia;
    destruct (Z.leb_spec 65 (Z.of_nat n)), (Z.leb_spec (Z.of_nat n) 70);
    cbn [andb]; try lia; exact I.
Qed.

(** [parseInt] stops reading at a character that is no decimal digit. *)
Lemma read_digits_stops (c : ascii) (s : string) (acc : option Z) :
  not_decimal_digit c = true ->
  Js.read_digits 10 acc (String c s) = acc.
Proof.
  intros H. apply digit_value_not_decimal in H. cbn [Js.read_digits].
  destruct (Js.digit_value c) as [d|]; [|reflexivity].
  destruct (Z.ltb_spec d 10); [lia | reflexivity].
Qed.

Lemma read_digits_step (c : ascii) (k acc : Z) (s : string) :
  Js.digit_value c = Some k ->
  k < 10 ->
  Js.read_digits 10 (Some acc) (String c s)
  = Js.read_digits 10 (Some (acc * 10 + k)) s.
Proof.
  intros D L. cbn [Js.read_digits]. rewrite D.
  destruct (Z.ltb_spec k 10); [reflexivity | lia].
Qed.

Lemma read_digits_first (c : ascii) (k : Z) (s : string) :
  Js.digit_value c = Some k ->
  k < 10 ->
  Js.read_digits 10 None (String c s) = Js.read_digits 10 (Some k) s.
Proof.
  intros D L. cbn [Js.read_digits]. rewrite D.
  destruct (Z.ltb_spec k 10); [reflexivity | lia].
Qed.

Ltac digit_values :=
  repeat match goal with
         | |- context [Z.of_nat (nat_of_ascii ?c) - 48] =>
             let v := eval cbv in (Z.of_nat (nat_of_ascii c) - 48) in
             change (Z.of_nat (nat_of_ascii c) - 48) with v
         end.

Section DigitFacts.

(** What follows the digits: nothing, or text at which reading stops. *)
Variable tail : string.
Hypothesis tail_stops : forall acc, Js.read_digits 10 acc tail = acc.

Lemma read_digits_acc (d : Decimal.uint) :
  forall acc : positive,
    Js.read_digits 10 (Some (Zpos acc))
      (NilEmpty.string_of_uint d ++ tail)%string
    = Some (Zpos (Pos.of_uint_acc d acc)).
Proof.
  induction d; intros acc;
    cbn [NilEmpty.string_of_uint String.append Pos.of_uint_acc];
    [apply tail_stops|..];
    (erewrite read_digits_step; [|reflexivity|reflexivity]);
    rewrite <- IHd; do 2 f_equal; digit_values; lia.
Qed.

Lemma read_digits_zero (d : Decimal.uint) :
  Js.read_digits 10 (Some 0) (NilEmpty.string_of_uint d ++ tail)%string
  = Some (Z.of_N (Pos.of_uint d)).
Proof.
  induction d;
    cbn [NilEmpty.string_of_uint String.append Pos.of_uint];
    [apply tail_stops|..];
    (erewrite read_digits_step; [|reflexivity|reflexivity]);
    digit_values; try exact IHd;
    cbn [Z.of_N]; rewrite <- read_digits_acc; reflexivity.
Qed.

Lemma read_digits_none (d : Decimal.uint) :
  d <> Decimal.Nil ->
  Js.read_digits 10 None (NilEmpty.string_of_uint d ++ tail)%string
  = Some (Z.of_N (Pos.of_uint d)).
Proof.
  destruct d; intros N; [contradiction|..];
    cbn [NilEmpty.string_of_uint String.append Pos.of_uint];
    (erewrite read_digits_first; [|reflexivity|reflexivity]);
    digit_values; try apply read_digits_zero;
    cbn [Z.of_N]; rewrite <- read_digits_acc; reflexivity.
Qed.

End DigitFacts.

(** Before the digits of a decimal numeral, [parseInt] finds no white
    space, no sign and no hexadecimal prefix. *)
Lemma parseInt_unsigned (d : Decimal.uint) (tail : string) :
  d <> Decimal.Nil ->
  (d = Decimal.D0 Decimal.Nil ->
   match tail with
   | String c _ => c <> "x"%char /\ c <> "X"%char
   | EmptyString => True
   end) ->
  Js.parseInt (NilEmpty.string_of_uint d ++ tail)%string
  = match Js.read_digits 10 None (NilEmpty.string_of_uint d ++ tail)%string
    with
    | Some n => Some (1 * n)
    | None => None
    end.
Proof.
  intros N H. unfold Js.parseInt. generalize Js.read_digits. intros rd.
  destruct d as [|d|d|d|d|d|d|d|d|d|d]; [contradiction|..];
    try reflexivity.
  destruct d as [|d|d|d|d|d|d|d|d|d|d]; try reflexivity.
  specialize (H eq_refl).
  destruct tail as [|c t]; [reflexivity|].
  destruct H as [Hx HX].
  destruct c as [[] [] [] [] [] [] [] []]; try reflexivity;
    exfalso; first [apply Hx; reflexivity | apply HX; reflexivity].
Qed.

Lemma parseInt_negative (d : Decimal.uint) (tail : string) :
  d <> Decimal.Nil ->
  (d = Decimal.D0 Decimal.Nil ->
   match tail with
   | String c _ => c <> "x"%char /\ c <> "X"%char
   | EmptyString => True
   end) ->
  Js.parseInt (String "-" (NilEmpty.string_of_uint d ++ tail))%string
  = match Js.read_digits 10 None (NilEmpty.string_of_uint d ++ tail)%string
    with
    | Some n => Some (-1 * n)
    | None => None
    end.
Proof.
  intros N H. unfold Js.parseInt. generalize Js.read_digits. intros rd.
  destruct d as [|d|d|d|d|d|d|d|d|d|d]; [contradiction|..];
    try reflexivity.
  destruct d as [|d|d|d|d|d|d|d|d|d|d]; try reflexivity.
  specialize (H eq_refl).
  destruct tail as [|c t]; [reflexivity|].
  destruct H as [Hx HX].
  destruct c as [[] [] [] [] [] [] [] []]; try reflexivity;
    exfalso; first [apply Hx; reflexivity | apply HX; reflexivity].
Qed.

(** The decimal rendering of an integer, followed by nothing or by text
    that starts with no decimal digit, parses back to the integer. *)
Lemma parseInt_number_to_string_tail (n : Z) (tail : string) :
  (forall acc, Js.read_digits 10 acc tail = acc) ->
  (n = 0 ->
   match tail with
   | String c _ => c <> "x"%char /\ c <> "X"%char
   | EmptyString => True
   end) ->
  Js.parseInt (Js.number_to_string n ++ tail)%string = Some n.
Proof.
  intros Hstop Hzero. unfold Js.number_to_string.
  destruct n as [|p|p]; cbn [Z.to_int NilZero.string_of_int].
  - change (NilZero.string_of_uint (Decimal.D0 Decimal.Nil))
      with (NilEmpty.string_of_uint (Decimal.D0 Decimal.Nil)).
    rewrite parseInt_unsigned; [|discriminate|intros _; now apply Hzero].
    rewrite read_digits_none; [reflexivity | exact Hstop | discriminate].
  - assert (E : NilZero.string_of_uint (Pos.to_uint p)
                = NilEmpty.string_of_uint (Pos.to_uint p)).
    { unfold NilZero.string_of_uint.
      pose proof (DecimalPos.Unsigned.to_uint_nonnil p).
      destruct (Pos.to_uint p); [contradiction | reflexivity..]. }
    rewrite E, parseInt_unsigned.
    + rewrite read_digits_none;
        [|exact Hstop | apply DecimalPos.Unsigned.to_uint_nonnil].
      rewrite DecimalPos.Unsigned.of_to. reflexivity.
    + apply DecimalPos.Unsigned.to_uint_nonnil.
    + intros Z0. exfalso.
      now apply (DecimalPos.Unsigned.to_uint_nonzero p).
  - assert (E : NilZero.string_of_uint (Pos.to_uint p)
                = NilEmpty.string_of_uint (Pos.to_uint p)).
    { unfold NilZero.string_of_uint.
      pose proof (DecimalPos.Unsigned.to_uint_nonnil p).
      destruct (Pos.to_uint p); [contradiction | reflexivity..]. }
    cbn [String.append]. rewrite E, parseInt_negative.
    + rewrite read_digits_none;
        [|exact Hstop | apply DecimalPos.Unsigned.to_uint_nonnil].
      rewrite DecimalPos.Unsigned.of_to. reflexivity.
    + apply DecimalPos.Unsigned.to_uint_nonnil.
    + intros Z0. exfalso.
      now apply (DecimalPos.Unsigned.to_uint_nonzero p).
Qed.

Lemma string_append_empty (s : string) : (s ++ "")%string = s.
Proof. induction s as [|c s IH]; simpl; [reflexivity | now rewrite IH]. Qed.

(** The decimal rendering of an identifier parses back to it. *)
Lemma parseInt_number_to_string (n : Z) :
  Js.parseInt (Js.number_to_string n) = Some n.
Proof.
  rewrite <- (string_append_empty (Js.number_to_string n)).
  apply parseInt_number_to_string_tail; [reflexivity | intros _; exact I].
Qed.

Section LenientIdFacts.

Variable generateExcelFile : TableData -> Js.Thrown + Buffer.
Variable generateConsolidatedExcel : list TableData -> Js.Thrown + Buffer.

(** X12: the identifier in the path is read with [parseInt] and not
    checked further, so text after the digits is ignored: a request for
    [12abc] is served exactly like the request for [12], by the two
    download handlers and by the document route. *)
Theorem text_after_the_id_is_ignored (n : Z) (c : ascii) (s : string)
    (file : option MulterFile.t) (w : World.t) :
  not_decimal_digit c = true ->
  (n = 0 -> c <> "x"%char /\ c <> "X"%char) ->
  let lenient :=
    Request.mk file (Js.number_to_string n ++ String c s)%string in
  let exact := Request.mk file (Js.number_to_string n) in
  table_excel_handler generateExcelFile lenient w
    = table_excel_handler generateExcelFile exact w /\
  document_excel_handler generateConsolidatedExcel lenient w
    = document_excel_handler generateConsolidatedExcel exact w /\
  document_handler lenient w = document_handler exact w.
Proof.
  intros Hc Hx lenient exact.
  assert (P1 : Js.parseInt (Request.params_id lenient) = Some n).
  { apply parseInt_number_to_string_tail.
    - intros acc. now apply read_digits_stops.
    - exact Hx. }
  assert (P2 : Js.parseInt (Request.params_id exact) = Some n)
    by apply parseInt_number_to_string.
  rewrite !table_excel_handler_paths, !document_excel_handler_paths,
    !document_handler_paths, P1, P2.
  auto.
Qed.

End LenientIdFacts.

(* ===================================================================== *)
(** * The name of the consolidated workbook *)
(* ===================================================================== *)

Lemma substring_all (s : string) : String.substring 0 (String.length s) s = s.
Proof. induction s as [|c s IH]; simpl; [reflexivity | now rewrite IH]. Qed.

(** With no full stop before it, the first [.pdf] is the one removed. *)
Lemma replace_first_pdf (base rest : string) :
  dot_free base = true ->
  Js.replace ".pdf" "" (base ++ ".pdf" ++ rest)%string
  = (base ++ rest)%string.
Proof.
  induction base as [|c base IH]; intros H.
  - cbn [String.append]. unfold Js.replace.
    destruct rest as [|r rest]; [reflexivity|].
    cbn. rewrite substring_all. reflexivity.
  - cbn [dot_free] in H. apply andb_true_iff in H. destruct H as [Hc Hb].
    cbn [String.append Js.replace String.prefix].
    destruct (ascii_dec "." c) as [E|_].
    + subst c. discriminate Hc.
    + f_equal. exact (IH Hb).
Qed.

(** A name without any full stop is left as it is. *)
Lemma replace_no_pdf (name : string) :
  dot_free name = true -> Js.replace ".pdf" "" name = name.
Proof.
  induction name as [|c name IH]; intros H; [reflexivity|].
  cbn [dot_free] in H. apply andb_true_iff in H. destruct H as [Hc Hb].
  cbn [Js.replace String.prefix].
  destruct (ascii_dec "." c) as [E|_].
  - subst c. discriminate Hc.
  - now rewrite (IH Hb).
Qed.

(* ===================================================================== *)
(** * Upload, then fetch or download *)
(* ===================================================================== *)

Lemma prefix_split (p s : string) :
  String.prefix p s = true -> exists rest, s = (p ++ rest)%string.
Proof.
  revert s. induction p as [|a p IH]; intros s H.
  - exists s. reflexivity.
  - destruct s as [|b s]; [discriminate H|].
    cbn [String.prefix] in H.
    destruct (ascii_dec a b) as [<-|_]; [|discriminate H].
    destruct (IH s H) as [rest ->]. exists rest. reflexivity.
Qed.

Lemma invalid_header_char_safe (c : ascii) :
  Http.invalid_header_char c = negb (header_safe c).
Proof. destruct c as [[] [] [] [] [] [] [] []]; reflexivity. Qed.

Lemma checkInvalidHeaderChar_safe (value : string) :
  Http.checkInvalidHeaderChar value
  = negb (forallb header_safe (list_ascii_of_string value)).
Proof.
  induction value as [|c value IH]; [reflexivity|].
  cbn [Http.checkInvalidHeaderChar list_ascii_of_string forallb].
  now rewrite IH, invalid_header_char_safe, negb_andb.
Qed.

(** Removing [.pdf] neither brings an invalid character in nor takes one
    out. *)
Lemma replace_pdf_header_check (name : string) :
  Http.checkInvalidHeaderChar (Js.replace ".pdf" "" name)
  = Http.checkInvalidHeaderChar name.
Proof.
  induction name as [|c name IH]; [reflexivity|].
  destruct (String.prefix ".pdf" (String c name)) eqn:Hp.
  - destruct (prefix_split _ _ Hp) as [rest ->].
    pose proof (replace_first_pdf "" rest eq_refl) as R.
    change (Js.replace ".pdf" "" (".pdf" ++ rest) = rest) in R.
    rewrite R, checkInvalidHeaderChar_app. reflexivity.
  - cbn [Js.replace]. rewrite Hp.
    cbn [Http.checkInvalidHeaderChar]. now rewrite IH.
Qed.

(** The header naming the consolidated workbook is accepted exactly when
    the stored file name is made of characters a header may hold. *)
Lemma disposition_header_check (name : string) :
  Http.checkInvalidHeaderChar
    ("attachment; filename=" ++ Js.replace ".pdf" "" name ++ "-tables.xlsx")
  = negb (forallb header_safe (list_ascii_of_string name)).
Proof.
  rewrite !checkInvalidHeaderChar_app, replace_pdf_header_check,
    (checkInvalidHeaderChar_safe name).
  change (Http.checkInvalidHeaderChar "attachment; filename=") with false.
  change (Http.checkInvalidHeaderChar "-tables.xlsx") with false.
  rewrite orb_false_r. reflexivity.
Qed.

Lemma strictly_ascending_nodup {R : Type} (column : R -> Z) (l : list R) :
  StronglySorted (strictly_ascending column) l ->
  StronglySorted (ascending column) l /\ NoDup (map column l).
Proof.
  induction 1 as [|a l S [IHs IHn] A].
  - split; constructor.
  - split.
    + constructor; [exact IHs|].
      eapply Forall_impl; [|exact A].
      unfold strictly_ascending, ascending. intros; lia.
    + simpl. constructor; [|exact IHn].
      rewrite in_map_iff. intros (b & E & I).
      rewrite Forall_forall in A. specialize (A b I).
      unfold strictly_ascending in A. lia.
Qed.

(** Sorting the saved rows of tables that were extracted in strictly
    ascending index order gives the tables back as they were. *)
Lemma sorted_rows_are_the_tables (rows : list ExtractedTable.t)
    (tables : list ExtractedTableData.t) :
  map DatabaseStorage.toExtractedTableData rows = tables ->
  let sorted :=
    map DatabaseStorage.toExtractedTableData
        (Database.orderBy ExtractedTable.tableIndex rows) in
  Permutation sorted tables /\
  StronglySorted (ascending ExtractedTableData.tableIndex) sorted /\
  (StronglySorted (strictly_ascending ExtractedTableData.tableIndex) tables ->
   sorted = tables).
Proof.
  intros E sorted.
  assert (P : Permutation sorted tables).
  { subst sorted. rewrite <- E. apply Permutation_map, orderBy_perm. }
  assert (S : StronglySorted (ascending ExtractedTableData.tableIndex) sorted).
  { apply toExtractedTableData_sorted, orderBy_sorted. }
  split; [exact P|]. split; [exact S|].
  intros Strict. apply strictly_ascending_nodup in Strict.
  destruct Strict as [A N]. symmetry.
  apply (ascending_unique ExtractedTableData.tableIndex); auto.
  now apply Permutation_sym.
Qed.

Section RoundTripFacts.

Variable extractTablesFromPdf : Buffer -> Js.Thrown + list ExtractedTableData.t.
Variable insertPdfDocumentSchema_parse :
  DocumentData.t -> Js.Thrown + InsertPdfDocument.t.
Variable generateExcelFile : TableData -> Js.Thrown + Buffer.
Variable generateConsolidatedExcel : list TableData -> Js.Thrown + Buffer.

(** The database after an upload that went through. *)
Lemma upload_result (req : Request.t) (file : MulterFile.t) (w : World.t)
    (tables : list ExtractedTableData.t) (validated : InsertPdfDocument.t) :
  Database.keys_ok (World.db w) ->
  document_keys_ok (World.db w) ->
  references_ok (World.db w) ->
  Request.file req = Some file ->
  extractTablesFromPdf (MulterFile.buffer file) = inr tables ->
  insertPdfDocumentSchema_parse (document_data file w) = inr validated ->
  driver_ok (S (List.length tables)) w = true ->
  let saved := saved_document validated w in
  let d1 := World.db (snd (extract_handler extractTablesFromPdf
                             insertPdfDocumentSchema_parse req w)) in
  Database.keys_ok d1 /\
  document_keys_ok d1 /\
  In saved (Database.pdfDocuments d1) /\
  exists rows,
    Database.extractedTables d1
      = Database.extractedTables (World.db w) ++ rows /\
    rows_of_document (PdfDocument.id saved) d1 = rows /\
    map DatabaseStorage.toExtractedTableData rows = tables /\
    map ExtractedTable.id rows
      = map (fun k => Database.extractedTables_id_seq (World.db w) + 1
                      + Z.of_nat k)
            (seq 0 (List.length tables)).
Proof.
  intros K KD KR Hfile Hext Hparse D saved d1. subst d1.
  rewrite (extract_handler_all_saved extractTablesFromPdf
             insertPdfDocumentSchema_parse req file w tables validated
             Hfile Hext Hparse D).
  cbv zeta. cbn [snd World.db]. fold saved.
  destruct (insert_all_rows (map (table_values saved) tables)
              (database_with_document validated w))
    as (Hd & _ & _ & rows & Hrows & Hfields & Hids).
  destruct (saved_rows_of_tables saved rows tables Hfields) as [Hm Ha].
  split; [|split; [|split]].
  - apply insert_all_keys_ok.
    eapply db_step_keys_ok; [apply step_document | exact K].
  - apply insert_all_document_keys_ok.
    eapply db_step_document_keys_ok; [apply step_document | exact KD].
  - rewrite Hd. simpl. apply in_or_app. right. now left.
  - exists rows. split; [exact Hrows|]. split; [|split; [exact Hm|]].
    + unfold rows_of_document, Database.where_eq.
      rewrite Hrows. simpl. rewrite filter_app.
      replace (filter _ (Database.extractedTables (World.db w))) with
        (@nil ExtractedTable.t).
      * simpl. apply forallb_filter_id. apply forallb_forall.
        rewrite Forall_forall in Ha. intros row I.
        destruct (Ha row I) as [E _]. rewrite E. apply Z.eqb_refl.
      * symmetry. apply (proj2 (where_eq_nil ExtractedTable.documentId _ _)).
        destruct KD as [_ B]. rewrite Forall_forall in B.
        eapply Forall_impl; [|exact KR]. simpl.
        intros row (document & I & E). rewrite <- E.
        specialize (B document I). lia.
    + rewrite Hids, length_map. reflexivity.
Qed.

(** X14: a document fetched right after its upload comes back with the
    tables that were extracted from it.  After an upload that went
    through, [GET /api/documents/<documentId>] with the identifier the
    upload answered returns the saved document and its tables in ascending
    [tableIndex] order: the extracted tables, rearranged at most, and
    exactly as extracted when their indexes were strictly ascending. *)
Theorem upload_then_fetch_document (req : Request.t) (file : MulterFile.t)
    (w : World.t) (tables : list ExtractedTableData.t)
    (validated : InsertPdfDocument.t) (file2 : option MulterFile.t) :
  Database.keys_ok (World.db w) ->
  document_keys_ok (World.db w) ->
  references_ok (World.db w) ->
  Request.file req = Some file ->
  extractTablesFromPdf (MulterFile.buffer file) = inr tables ->
  insertPdfDocumentSchema_parse (document_data file w) = inr validated ->
  driver_ok (S (List.length tables)) w = true ->
  let saved := saved_document validated w in
  let w1 := snd (extract_handler extractTablesFromPdf
                   insertPdfDocumentSchema_parse req w) in
  driver_ok 2 w1 = true ->
  exists fetched,
    fst (document_handler
           (Request.mk file2 (Js.number_to_string (PdfDocument.id saved))) w1)
      = Async.Returned (Reply.mk 200 (DocumentBody saved fetched)) /\
    Permutation fetched tables /\
    StronglySorted (ascending ExtractedTableData.tableIndex) fetched /\
    (StronglySorted (strictly_ascending ExtractedTableData.tableIndex) tables
     -> fetched = tables).
Proof.
  intros K KD KR Hfile Hext Hparse D saved w1 D2.
  destruct (upload_result req file w tables validated
              K KD KR Hfile Hext Hparse D)
    as (_ & [ND1 _] & I1 & rows & _ & Hrows & Hm & _).
  fold saved in I1, Hrows. fold w1 in ND1, I1, Hrows.
  rewrite document_handler_paths. cbn [Request.params_id].
  rewrite parseInt_number_to_string. cbv zeta.
  rewrite (where_eq_unique PdfDocument.id _ saved ND1 I1).
  unfold DatabaseStorage.selectByDocumentId.
  fold (rows_of_document (PdfDocument.id saved) (World.db w1)).
  rewrite Hrows.
  destruct (sorted_rows_are_the_tables rows tables Hm) as (P & S & E).
  unfold driver_ok in D2.
  destruct (World.faults w1) as [|[?|] [|[?|] ?]];
    simpl in D2; try discriminate D2; cbn [tl fst];
    eexists; (split; [reflexivity|]); auto.
Qed.

(** X15: the consolidated workbook downloaded right after an upload is
    generated from the uploaded tables.  After an upload that went
    through with at least one table, indexes strictly ascending,
    [GET /api/documents/<documentId>/excel] hands the generator exactly
    the extracted tables' data, in order.  When the generator succeeds,
    the answer depends on the saved file name, which goes into the
    [Content-Disposition] header unchecked: a name made of characters a
    header may hold gives 200 with the attachment named after it and the
    generated bytes; a name holding any other character (a line feed, for
    one) makes [res.setHeader] throw after [Content-Type] was set, and
    the answer is 500 ['Failed to generate Excel file']. *)
Theorem upload_then_download_workbook (req : Request.t) (file : MulterFile.t)
    (w : World.t) (tables : list ExtractedTableData.t)
    (validated : InsertPdfDocument.t) (file2 : option MulterFile.t) :
  Database.keys_ok (World.db w) ->
  document_keys_ok (World.db w) ->
  references_ok (World.db w) ->
  Request.file req = Some file ->
  extractTablesFromPdf (MulterFile.buffer file) = inr tables ->
  insertPdfDocumentSchema_parse (document_data file w) = inr validated ->
  driver_ok (S (List.length tables)) w = true ->
  tables <> [] ->
  StronglySorted (strictly_ascending ExtractedTableData.tableIndex) tables ->
  let saved := saved_document validated w in
  let w1 := snd (extract_handler extractTablesFromPdf
                   insertPdfDocumentSchema_parse req w) in
  driver_ok 2 w1 = true ->
  events_of
    (document_excel_handler generateConsolidatedExcel
       (Request.mk file2 (Js.number_to_string (PdfDocument.id saved)))) w1
  = match generateConsolidatedExcel (map ExtractedTableData.data tables) with
    | inl _ =>
        [CallGenerateConsolidatedExcel (map ExtractedTableData.data tables);
         Status 500;
         Json (ErrorBody "Failed to generate Excel file")]
    | inr excelBuffer =>
        if forallb header_safe
             (list_ascii_of_string (InsertPdfDocument.filename validated))
        then
          [CallGenerateConsolidatedExcel (map ExtractedTableData.data tables);
           SetHeader "Content-Type" xlsx_content_type;
           SetHeader "Content-Disposition"
             ("attachment; filename="
              ++ Js.replace ".pdf" "" (InsertPdfDocument.filename validated)
              ++ "-tables.xlsx")%string;
           Status 200;
           Send excelBuffer]
        else
          [CallGenerateConsolidatedExcel (map ExtractedTableData.data tables);
           SetHeader "Content-Type" xlsx_content_type;
           Status 500;
           Json (ErrorBody "Failed to generate Excel file")]
    end.
Proof.
  intros K KD KR Hfile Hext Hparse D Hne Strict saved w1 D2.
  destruct (upload_result req file w tables validated
              K KD KR Hfile Hext Hparse D)
    as (_ & [ND1 _] & I1 & rows & _ & Hrows & Hm & _).
  fold saved in I1, Hrows. fold w1 in ND1, I1, Hrows.
  unfold events_of.
  rewrite document_excel_handler_paths. cbn [Request.params_id].
  rewrite parseInt_number_to_string. cbv zeta.
  rewrite (where_eq_unique PdfDocument.id _ saved ND1 I1).
  unfold DatabaseStorage.selectByDocumentId.
  fold (rows_of_document (PdfDocument.id saved) (World.db w1)).
  rewrite Hrows.
  destruct (sorted_rows_are_the_tables rows tables Hm) as (_ & _ & E).
  rewrite (E Strict).
  destruct tables as [|t tables]; [contradiction|].
  cbn [List.length Z.of_nat Z.eqb].
  rewrite disposition_header_check.
  change (PdfDocument.filename saved)
    with (InsertPdfDocument.filename validated).
  unfold driver_ok in D2.
  destruct (World.faults w1) as [|[?|] [|[?|] ?]];
    simpl in D2; try discriminate D2; cbn [tl];
    destruct (generateConsolidatedExcel _);
    try destruct (forallb header_safe _);
    cbn [negb fst snd World.trace];
    rewrite skipn_app, skipn_all, Nat.sub_diag; reflexivity.
Qed.

(** X16: each table of an upload can be downloaded on its own.  After an
    upload that went through, the row of the [k]-th extracted table has
    the [k]-th identifier drawn from the sequence, and
    [GET /api/tables/<that id>/excel] hands the generator exactly that
    table's data and names the attachment [table-<id>.xlsx]. *)
Theorem upload_then_download_table (req : Request.t) (file : MulterFile.t)
    (w : World.t) (tables : list ExtractedTableData.t)
    (validated : InsertPdfDocument.t) (file2 : option MulterFile.t)
    (k : nat) (table : ExtractedTableData.t) :
  Database.keys_ok (World.db w) ->
  document_keys_ok (World.db w) ->
  references_ok (World.db w) ->
  Request.file req = Some file ->
  extractTablesFromPdf (MulterFile.buffer file) = inr tables ->
  insertPdfDocumentSchema_parse (document_data file w) = inr validated ->
  driver_ok (S (List.length tables)) w = true ->
  nth_error tables k = Some table ->
  let tableId :=
    Database.extractedTables_id_seq (World.db w) + 1 + Z.of_nat k in
  let w1 := snd (extract_handler extractTablesFromPdf
                   insertPdfDocumentSchema_parse req w) in
  driver_ok 1 w1 = true ->
  events_of
    (table_excel_handler generateExcelFile
       (Request.mk file2 (Js.number_to_string tableId))) w1
  = match generateExcelFile (ExtractedTableData.data table) with
    | inl _ =>
        [CallGenerateExcelFile (ExtractedTableData.data table);
         Status 500;
         Json (ErrorBody "Failed to generate Excel file")]
    | inr excelBuffer =>
        [CallGenerateExcelFile (ExtractedTableData.data table);
         SetHeader "Content-Type" xlsx_content_type;
         SetHeader "Content-Disposition"
           ("attachment; filename=table-"
            ++ Js.number_to_string tableId ++ ".xlsx")%string;
         Status 200;
         Send excelBuffer]
    end.
Proof.
  intros K KD KR Hfile Hext Hparse D Hk tableId w1 D1.
  destruct (upload_result req file w tables validated
              K KD KR Hfile Hext Hparse D)
    as ([NDt _] & _ & _ & rows & Hall & _ & Hm & Hids).
  fold w1 in NDt, Hall.
  assert (Hrow : exists row,
             nth_error rows k = Some row /\
             DatabaseStorage.toExtractedTableData row = table /\
             ExtractedTable.id row = tableId).
  { rewrite <- Hm, nth_error_map in Hk.
    destruct (nth_error rows k) as [row|] eqn:Hr; [|discriminate Hk].
    injection Hk as Hk. exists row. split; [reflexivity|].
    split; [exact Hk|].
    pose proof (map_nth_error ExtractedTable.id k rows Hr) as Hid.
    rewrite Hids, nth_error_map, nth_error_seq in Hid.
    destruct (Nat.ltb k (List.length tables)); [|discriminate Hid].
    simpl in Hid. injection Hid as Hid. subst tableId. lia. }
  destruct Hrow as (row & Hr & Ht & Hid).
  assert (I : In row (Database.extractedTables (World.db w1))).
  { rewrite Hall. apply in_or_app. right. eapply nth_error_In. exact Hr. }
  unfold events_of.
  rewrite table_excel_handler_paths. cbn [Request.params_id].
  rewrite parseInt_number_to_string. cbv zeta.
  rewrite <- Hid.
  rewrite (where_eq_unique ExtractedTable.id _ row NDt I).
  replace (ExtractedTable.tableData row) with (ExtractedTableData.data table)
    by (now rewrite <- Ht).
  unfold driver_ok in D1.
  destruct (World.faults w1) as [|[?|] ?];
    simpl in D1; try discriminate D1;
    destruct (generateExcelFile _);
    cbn [fst snd World.trace];
    rewrite skipn_app, skipn_all, Nat.sub_diag; reflexivity.
Qed.

(** X13: the attachment name of a consolidated download comes from the
    stored file name by removing the first [.pdf] only.  A name
    [base.pdf...] whose [base] has no full stop loses that [.pdf] and
    keeps what follows it; a name without any full stop is used as it
    is. *)
Theorem consolidated_download_file_name (req : Request.t) (w : World.t)
    (value : string) :
  In (SetHeader "Content-Disposition" value)
     (events_of (document_excel_handler generateConsolidatedExcel req) w) ->
  exists document,
    In document (Database.pdfDocuments (World.db w)) /\
    Js.parseInt (Request.params_id req) = Some (PdfDocument.id document) /\
    (forall base rest,
        PdfDocument.filename document = (base ++ ".pdf" ++ rest)%string ->
        dot_free base = true ->
        value = ("attachment; filename=" ++ (base ++ rest)
                 ++ "-tables.xlsx")%string) /\
    (dot_free (PdfDocument.filename document) = true ->
     value = ("attachment; filename=" ++ PdfDocument.filename document
              ++ "-tables.xlsx")%string).
Proof using generateConsolidatedExcel.
  unfold events_of. rewrite document_excel_handler_paths. cbv zeta.
  destruct (Js.parseInt (Request.params_id req)) as [documentId|] eqn:P.
  2: { cbn [fst snd World.trace].
       rewrite skipn_app, skipn_all, Nat.sub_diag. cbn [skipn app].
       intros HIn.
       repeat (destruct HIn as [HIn|HIn]; try discriminate HIn).
       contradiction. }
  destruct (hd_error (Database.where_eq PdfDocument.id documentId
              (Database.pdfDocuments (World.db w))))
    as [document|] eqn:Hfound.
  - assert (I : In document (Database.pdfDocuments (World.db w))
                /\ PdfDocument.id document = documentId).
    { apply where_eq_In.
      destruct (Database.where_eq _ _ _); [discriminate|].
      injection Hfound as ->. now left. }
    destruct I as [I <-].
    destruct (Z.of_nat _ =? 0);
      [|destruct (generateConsolidatedExcel _) as [e|excelBuffer];
        [|destruct (Http.checkInvalidHeaderChar _)]];
      destruct (World.faults w) as [|[?|] [|[?|] ?]];
      cbn [tl fst snd World.trace];
      rewrite skipn_app, skipn_all, Nat.sub_diag; cbn [skipn app];
      intros HIn;
      repeat (destruct HIn as [HIn|HIn]; try discriminate HIn);
      try contradiction.
    all: injection HIn as <-.
    all: exists document; split; [exact I|]; split; [reflexivity|]; split.
    all: try (intros base rest -> Hb;
              rewrite replace_first_pdf by exact Hb; reflexivity).
    all: intros Hn; rewrite replace_no_pdf by exact Hn; reflexivity.
  - destruct (World.faults w) as [|[?|] ?];
      cbn [fst snd World.trace];
      rewrite skipn_app, skipn_all, Nat.sub_diag; cbn [skipn app];
      intros HIn;
      repeat (destruct HIn as [HIn|HIn]; try discriminate HIn);
      contradiction.
Qed.

End RoundTripFacts.

(* ===================================================================== *)
(** * The upload middleware, one file at most *)
(* ===================================================================== *)

(** Once the one file has been taken, any further named part is an
    error; without one the file taken so far comes out. *)
Lemma accept_none_left (field : string) (parts : list Part.t)
    (file r : option MulterFile.t) :
  Upload.accept field 0 file parts = inr r ->
  named_parts parts = [] /\ r = file.
Proof.
  induction parts as [|p parts IH]; simpl.
  - intros [= ->]. auto.
  - unfold named_parts in *. simpl.
    destruct (String.eqb (Part.filename p) ""); simpl; [exact IH|].
    destruct (String.eqb (Part.fieldname p) field); simpl; discriminate.
Qed.

Lemma accept_one_left (field : string) (parts : list Part.t)
    (file r : option MulterFile.t) :
  Upload.accept field 1 file parts = inr r ->
  (named_parts parts = [] /\ r = file) \/
  exists p,
    named_parts parts = [p] /\ r = Some (Upload.memoryStorage p) /\
    Part.fieldname p = field /\
    Part.mimeType p = "application/pdf" /\
    Z.of_nat (List.length (Part.content p)) <= Upload.fileSize.
Proof.
  induction parts as [|p parts IH]; simpl.
  - intros [= ->]. left. auto.
  - unfold named_parts in *. simpl.
    destruct (String.eqb (Part.filename p) ""); simpl; [exact IH|].
    destruct (String.eqb_spec (Part.fieldname p) field) as [Ef|];
      simpl; [|discriminate].
    unfold Upload.fileFilter.
    destruct (String.eqb_spec (Part.mimeType p) "application/pdf")
      as [Em|]; [|discriminate].
    destruct (Z.ltb_spec Upload.fileSize
                (Z.of_nat (List.length (Part.content p)))) as [|Hs];
      [discriminate|].
    intros H. apply accept_none_left in H. destruct H as [Hn ->].
    right. exists p. unfold named_parts in Hn. rewrite Hn. auto.
Qed.

Section SingleFileFacts.

Variable extractTablesFromPdf : Buffer -> Js.Thrown + list ExtractedTableData.t.
Variable insertPdfDocumentSchema_parse :
  DocumentData.t -> Js.Thrown + InsertPdfDocument.t.
Variable NODE_ENV : option string.

(** X17: an upload request that carries no named file part, such as an
    empty form, is answered 400 ['No PDF file uploaded']; the extractor is
    not invoked and no statement is sent to the database. *)
Theorem upload_without_file_is_400 (parts : list Part.t) (w : World.t) :
  named_parts parts = [] ->
  post_api_extract extractTablesFromPdf insertPdfDocumentSchema_parse
    NODE_ENV parts w
  = (Async.Returned tt,
     World.mk (World.db w) (World.faults w) (World.clock w)
       (World.trace w
        ++ [Status 400; Json (ErrorBody "No PDF file uploaded")])).
Proof.
  intros Hn. unfold post_api_extract, Upload.single.
  assert (E : Upload.accept "pdf" 1 None parts = inr None).
  { revert Hn. generalize 1%nat. generalize (@None MulterFile.t).
    induction parts as [|p parts IH]; intros file n Hn; [reflexivity|].
    unfold named_parts in *. simpl in *.
    destruct (String.eqb (Part.filename p) ""); simpl in *;
      [now apply IH | discriminate]. }
  rewrite E. rewrite extract_handler_paths. reflexivity.
Qed.

(** X18: [upload.single('pdf')] lets one file through at most.  A file
    reaches the handler only when the request has exactly one named file
    part, and then it is that part, uploaded in field [pdf] as
    [application/pdf] within the size limit, with [size] the length of its
    buffer; a request with two or more named file parts never reaches the
    handler: the error middleware answers 500 and nothing is extracted or
    stored. *)
Theorem upload_single_takes_one_file (parts : list Part.t) (w : World.t) :
  (forall file,
      Upload.single "pdf" parts = inr (Some file) ->
      exists p,
        named_parts parts = [p] /\
        MulterFile.buffer file = Part.content p /\
        MulterFile.originalname file = Part.filename p /\
        MulterFile.size file = Z.of_nat (List.length (Part.content p)) /\
        Part.fieldname p = "pdf" /\
        Part.mimeType p = "application/pdf" /\
        MulterFile.size file <= 10 * 1024 * 1024) /\
  ((2 <= List.length (named_parts parts))%nat ->
   exists err,
     Upload.single "pdf" parts = inl err /\
     post_api_extract extractTablesFromPdf insertPdfDocumentSchema_parse
       NODE_ENV parts w
     = (Async.Returned tt,
        World.mk (World.db w) (World.faults w) (World.clock w)
          (World.trace w
           ++ [Status 500;
               Json (ErrorEnvelope
                       (Js.message_or_falsy "Internal Server Error" err)
                       (match NODE_ENV with
                        | Some env => String.eqb env "development"
                        | None => false
                        end))]))).
Proof.
  split.
  - intros file H. unfold Upload.single in H.
    apply accept_one_left in H.
    destruct H as [[_ H] | (p & Hn & H & Hf & Hm & Hs)]; [discriminate|].
    injection H as ->. exists p. simpl. auto 10.
  - intros Hlen.
    destruct (Upload.single "pdf" parts) as [err|r] eqn:U.
    + exists err. split; [reflexivity|].
      unfold post_api_extract. rewrite U.
      unfold errorHandler. now rewrite respond_eq.
    + exfalso. unfold Upload.single in U. apply accept_one_left in U.
      destruct U as [[Hn _] | (p & Hn & _)]; rewrite Hn in Hlen;
        simpl in Hlen; lia.
Qed.

End SingleFileFacts.

(* ===================================================================== *)
(** * The further statements at work on the sample collaborators *)
(* ===================================================================== *)

(** X2 at work: a document with user 0 saved in a fresh database, then
    other calls, then the lookup. *)
Lemma createPdfDocument_retrievable_witness :
  let document := InsertPdfDocument.mk "report.pdf" 4 (Some 0) in
  let saved :=
    PdfDocument.mk 1 "report.pdf" 4 "2025-01-01T00:00:00.000Z" None in
  let w1 :=
    World.mk (Database.mk [saved] 1 [] 0) [] "2025-01-01T00:00:00.000Z" [] in
  IStorage.createPdfDocument storage document (Sample.fresh [])
    = (Async.Returned saved, w1) /\
  PdfDocument.userId saved = None /\
  fst (IStorage.getPdfDocument storage 1 (perform_all Sample.later w1))
    = Async.Returned (Some saved).
Proof.
  cbv zeta. split; [reflexivity|].
  pose proof (createPdfDocument_retrievable (Sample.fresh [])
                (World.mk
                   (Database.mk
                      [PdfDocument.mk 1 "report.pdf" 4
                         "2025-01-01T00:00:00.000Z" None] 1 [] 0)
                   [] "2025-01-01T00:00:00.000Z" [])
                (InsertPdfDocument.mk "report.pdf" 4 (Some 0))
                (PdfDocument.mk 1 "report.pdf" 4
                   "2025-01-01T00:00:00.000Z" None)
                Sample.later
                (conj (NoDup_nil Z) (Forall_nil _)) eq_refl)
    as (_ & _ & _ & _ & Huser & Hfound).
  split; [exact Huser|].
  exact (f_equal (@Async.Returned _) Hfound).
Defined.

(** X4 at work: the sample PDF with its two tables uploaded to a fresh
    database. *)
Lemma extract_handler_saves_everything_witness :
  let r := extract_handler Sample.extractTablesFromPdf Sample.parse
             (Request.mk (Some (Sample.file Sample.pdf)) "")
             (Sample.fresh []) in
  fst r = Async.Returned tt /\
  Database.pdfDocuments (World.db (snd r))
    = [PdfDocument.mk 1 "report.pdf" 4 "2025-01-01T00:00:00.000Z" None] /\
  (exists rows,
     Database.extractedTables (World.db (snd r)) = rows /\
     map DatabaseStorage.toExtractedTableData rows
       = [Sample.table0; Sample.table1] /\
     Forall (fun row =>
               ExtractedTable.documentId row = 1 /\
               ExtractedTable.pageNumber row
                 = TableInfo.pageNumber (ExtractedTable.tableInfo row))
            rows) /\
  events_of (extract_handler Sample.extractTablesFromPdf Sample.parse
               (Request.mk (Some (Sample.file Sample.pdf)) ""))
            (Sample.fresh [])
    = [CallExtractTablesFromPdf Sample.pdf;
       Status 200;
       Json (ExtractBody 1 "report.pdf" 4 "2025-01-01T00:00:00.000Z"
               [Sample.table0; Sample.table1])].
Proof.
  exact (extract_handler_saves_everything
           Sample.extractTablesFromPdf Sample.parse
           (Request.mk (Some (Sample.file Sample.pdf)) "")
           (Sample.file Sample.pdf) (Sample.fresh [])
           [Sample.table0; Sample.table1]
           (InsertPdfDocument.mk "report.pdf" 4 None)
           eq_refl eq_refl eq_refl eq_refl).
Defined.

(** X5 at work: the 200 of that upload. *)
Lemma extract_handler_200_means_saved_witness :
  exists (file : MulterFile.t) (tables : list ExtractedTableData.t)
         (validated : InsertPdfDocument.t) (rows : list ExtractedTable.t),
    Some (Sample.file Sample.pdf) = Some file /\
    Sample.extractTablesFromPdf (MulterFile.buffer file) = inr tables /\
    Sample.parse (document_data file (Sample.fresh [])) = inr validated /\
    Database.pdfDocuments
      (World.db (snd (extract_handler Sample.extractTablesFromPdf
                        Sample.parse
                        (Request.mk (Some (Sample.file Sample.pdf)) "")
                        (Sample.fresh []))))
      = [] ++ [saved_document validated (Sample.fresh [])] /\
    Database.extractedTables
      (World.db (snd (extract_handler Sample.extractTablesFromPdf
                        Sample.parse
                        (Request.mk (Some (Sample.file Sample.pdf)) "")
                        (Sample.fresh []))))
      = [] ++ rows /\
    map DatabaseStorage.toExtractedTableData rows = tables /\
    Forall (fun row =>
              ExtractedTable.documentId row
                = PdfDocument.id (saved_document validated (Sample.fresh [])))
           rows.
Proof.
  exact (extract_handler_200_means_saved
           Sample.extractTablesFromPdf Sample.parse
           (Request.mk (Some (Sample.file Sample.pdf)) "")
           (Sample.fresh []) (or_introl eq_refl)).
Defined.

(** X6 at work: the same upload with the second insert rejected leaves a
    consistent database behind. *)
Lemma extract_handler_keeps_integrity_witness :
  let d' :=
    World.db (snd (extract_handler Sample.extractTablesFromPdf Sample.parse
                     (Request.mk (Some (Sample.file Sample.pdf)) "")
                     (Sample.fresh
                        [None; None; Some (Js.Error "connection lost")]))) in
  Database.keys_ok d' /\ document_keys_ok d' /\ references_ok d' /\
  exists (documents : list PdfDocument.t) (rows : list ExtractedTable.t),
    Database.pdfDocuments d' = [] ++ documents /\
    (List.length documents <= 1)%nat /\
    Database.extractedTables d' = [] ++ rows /\
    Forall (fun row =>
              exists document,
                In document documents /\
                PdfDocument.id document = ExtractedTable.documentId row)
           rows.
Proof.
  exact (extract_handler_keeps_integrity
           Sample.extractTablesFromPdf Sample.parse
           (Request.mk (Some (Sample.file Sample.pdf)) "")
           (Sample.fresh [None; None; Some (Js.Error "connection lost")])
           (conj (NoDup_nil Z) (Forall_nil _))
           (conj (NoDup_nil Z) (Forall_nil _))
           (Forall_nil _)).
Defined.


(** X12 at work: [12abc] is served like [12]. *)
Lemma text_after_the_id_is_ignored_witness :
  table_excel_handler Sample.generateExcelFile
    (Request.mk None "12abc") (Sample.stocked_with [])
  = table_excel_handler Sample.generateExcelFile
      (Request.mk None "12") (Sample.stocked_with []) /\
  document_excel_handler Sample.generateConsolidatedExcel
    (Request.mk None "12abc") (Sample.stocked_with [])
  = document_excel_handler Sample.generateConsolidatedExcel
      (Request.mk None "12") (Sample.stocked_with []) /\
  document_handler (Request.mk None "12abc") (Sample.stocked_with [])
  = document_handler (Request.mk None "12") (Sample.stocked_with []).
Proof.
  apply (text_after_the_id_is_ignored
           Sample.generateExcelFile Sample.generateConsolidatedExcel
           12 "a"%char "bc" None (Sample.stocked_with [])).
  - reflexivity.
  - discriminate.
Defined.

(** X14 at work: the sample PDF uploaded to a fresh database and fetched
    under the identifier the upload answered. *)
Lemma upload_then_fetch_document_witness :
  exists fetched,
    fst (document_handler (Request.mk None "1")
           (snd (extract_handler Sample.extractTablesFromPdf Sample.parse
                   (Request.mk (Some (Sample.file Sample.pdf)) "")
                   (Sample.fresh []))))
      = Async.Returned
          (Reply.mk 200
             (DocumentBody
                (PdfDocument.mk 1 "report.pdf" 4 "2025-01-01T00:00:00.000Z"
                   None)
                fetched)) /\
    Permutation fetched [Sample.table0; Sample.table1] /\
    StronglySorted (ascending ExtractedTableData.tableIndex) fetched /\
    (StronglySorted (strictly_ascending ExtractedTableData.tableIndex)
       [Sample.table0; Sample.table1] ->
     fetched = [Sample.table0; Sample.table1]).
Proof.
  exact (upload_then_fetch_document
           Sample.extractTablesFromPdf Sample.parse
           (Request.mk (Some (Sample.file Sample.pdf)) "")
           (Sample.file Sample.pdf) (Sample.fresh [])
           [Sample.table0; Sample.table1]
           (InsertPdfDocument.mk "report.pdf" 4 None) None
           (conj (NoDup_nil Z) (Forall_nil _))
           (conj (NoDup_nil Z) (Forall_nil _))
           (Forall_nil _)
           eq_refl eq_refl eq_refl eq_refl eq_refl).
Defined.

(** X15 at work: the consolidated workbook of that upload; and the same
    upload under a file name that starts with a line feed, for which the
    workbook is generated and then cannot be sent. *)
Lemma upload_then_download_workbook_witness :
  events_of
    (document_excel_handler Sample.generateConsolidatedExcel
       (Request.mk None "1"))
    (snd (extract_handler Sample.extractTablesFromPdf Sample.parse
            (Request.mk (Some (Sample.file Sample.pdf)) "")
            (Sample.fresh [])))
  = [CallGenerateConsolidatedExcel [Sample.people; Sample.prices];
     SetHeader "Content-Type" xlsx_content_type;
     SetHeader "Content-Disposition" "attachment; filename=report-tables.xlsx";
     Status 200;
     Send (Sample.workbook 15)] /\
  events_of
    (document_excel_handler Sample.generateConsolidatedExcel
       (Request.mk None "1"))
    (snd (extract_handler Sample.extractTablesFromPdf Sample.parse
            (Request.mk (Some line_feed_file) "") (Sample.fresh [])))
  = [CallGenerateConsolidatedExcel [Sample.people; Sample.prices];
     SetHeader "Content-Type" xlsx_content_type;
     Status 500;
     Json (ErrorBody "Failed to generate Excel file")].
Proof.
  split.
  - apply (upload_then_download_workbook
             Sample.extractTablesFromPdf Sample.parse
             Sample.generateConsolidatedExcel
             (Request.mk (Some (Sample.file Sample.pdf)) "")
             (Sample.file Sample.pdf) (Sample.fresh [])
             [Sample.table0; Sample.table1]
             (InsertPdfDocument.mk "report.pdf" 4 None) None).
    + split; constructor.
    + split; constructor.
    + constructor.
    + reflexivity.
    + reflexivity.
    + reflexivity.
    + reflexivity.
    + discriminate.
    + repeat constructor.
    + reflexivity.
  - apply (upload_then_download_workbook
             Sample.extractTablesFromPdf Sample.parse
             Sample.generateConsolidatedExcel
             (Request.mk (Some line_feed_file) "")
             line_feed_file (Sample.fresh [])
             [Sample.table0; Sample.table1]
             (InsertPdfDocument.mk (MulterFile.originalname line_feed_file)
                4 None) None).
    + split; constructor.
    + split; constructor.
    + constructor.
    + reflexivity.
    + reflexivity.
    + reflexivity.
    + reflexivity.
    + discriminate.
    + repeat constructor.
    + reflexivity.
Defined.

(** X16 at work: the second table of that upload, downloaded alone. *)
Lemma upload_then_download_table_witness :
  events_of
    (table_excel_handler Sample.generateExcelFile (Request.mk None "2"))
    (snd (extract_handler Sample.extractTablesFromPdf Sample.parse
            (Request.mk (Some (Sample.file Sample.pdf)) "")
            (Sample.fresh [])))
  = [CallGenerateExcelFile Sample.prices;
     SetHeader "Content-Type" xlsx_content_type;
     SetHeader "Content-Disposition" "attachment; filename=table-2.xlsx";
     Status 200;
     Send (Sample.workbook 6)].
Proof.
  apply (upload_then_download_table
           Sample.extractTablesFromPdf Sample.parse
           Sample.generateExcelFile
           (Request.mk (Some (Sample.file Sample.pdf)) "")
           (Sample.file Sample.pdf) (Sample.fresh [])
           [Sample.table0; Sample.table1]
           (InsertPdfDocument.mk "report.pdf" 4 None) None
           1%nat Sample.table1).
  - split; constructor.
  - split; constructor.
  - constructor.
  - reflexivity.
  - reflexivity.
  - reflexivity.
  - reflexivity.
  - reflexivity.
  - reflexivity.
Defined.

(** X13 at work: [report.pdf] is offered as [report-tables.xlsx]. *)
Lemma consolidated_download_file_name_witness :
  exists document,
    In document (Database.pdfDocuments (World.db Sample.stocked)) /\
    Js.parseInt "1" = Some (PdfDocument.id document) /\
    (forall base rest,
        PdfDocument.filename document = (base ++ ".pdf" ++ rest)%string ->
        dot_free base = true ->
        "attachment; filename=report-tables.xlsx"
        = ("attachment; filename=" ++ (base ++ rest)
           ++ "-tables.xlsx")%string) /\
    (dot_free (PdfDocument.filename document) = true ->
     "attachment; filename=report-tables.xlsx"
     = ("attachment; filename=" ++ PdfDocument.filename document
        ++ "-tables.xlsx")%string).
Proof.
  apply (consolidated_download_file_name Sample.generateConsolidatedExcel
           (Request.mk None "1") (Sample.stocked_with [])
           "attachment; filename=report-tables.xlsx").
  do 2 right. left. reflexivity.
Defined.

(** X17 at work: a form that carries only a part without file name. *)
Lemma upload_without_file_is_400_witness :
  post_api_extract Sample.extractTablesFromPdf Sample.parse None
    [Part.mk "pdf" "" "application/octet-stream" []] (Sample.fresh [])
  = (Async.Returned tt,
     World.mk Database.empty [] "2025-01-01T00:00:00.000Z"
       [Status 400; Json (ErrorBody "No PDF file uploaded")]).
Proof.
  exact (upload_without_file_is_400 Sample.extractTablesFromPdf Sample.parse
           None [Part.mk "pdf" "" "application/octet-stream" []]
           (Sample.fresh []) eq_refl).
Defined.
